(** * doclingGUI: a shallow embedding of the two front-ends

    The repository holds two desktop front-ends around the external
    [docling] converter:

    - [main.py]       (module [Main]): [FileProcessor] and [DoclingWorker];
    - [doclingGUI.py] (module [Gui]):  [SettingsManager] and [DoclingGUI].

    Python [str] values are lists of characters, the library functions the
    code calls ([str.lower], [posixpath.join], [os.walk], ...) are
    transcribed in the modules [Py], [posixpath], [Fs] and [pathlib], and
    the effects of the two programs (widgets, signals, processes, the
    logger) are recorded in an event trace threaded by a small monad. *)

From Stdlib Require Import Ascii String ZArith List Lia DecimalString.
From stdpp Require Import gmap strings list.

Set Warnings "-register-all".

Open Scope string_scope.
Open Scope list_scope.
Open Scope Z_scope.
Open Scope stdpp_scope.

(** A Python [str]: the literals of the source are written as Rocq strings
    and read as lists of characters. *)
Abbreviation str := (list ascii).
Coercion list_ascii_of_string : string >-> list.

(** ** Python built-ins on [str] *)
Module Py.

Definition is_upper (c : ascii) : bool :=
  let n := nat_of_ascii c in (65 <=? n)%nat && (n <=? 90)%nat.

(** [str.lower] on the ASCII range; the bytes of other characters are
    left alone (none of them lowers to a letter of the allow-list). *)
Definition lower_char (c : ascii) : ascii :=
  if is_upper c then ascii_of_nat (nat_of_ascii c + 32) else c.

Definition lower (s : str) : str := map lower_char s.

(** [s.startswith(prefix)] *)
Fixpoint startswith (s prefix : str) {struct prefix} : bool :=
  match prefix, s with
  | [], _ => true
  | a :: prefix', b :: s' => Ascii.eqb a b && startswith s' prefix'
  | _ :: _, [] => false
  end.

(** [s.endswith(suffix)] *)
Definition endswith (s suffix : str) : bool :=
  startswith (rev s) (rev suffix).

(** [s.rfind(c)] for a one-character needle: the highest index, or -1. *)
Fixpoint rfind (s : str) (c : ascii) : Z :=
  match s with
  | [] => -1
  | x :: t =>
      let r := rfind t c in
      if 0 <=? r then r + 1
      else if Ascii.eqb x c then 0 else -1
  end.

(** [s[i:]] and [s[:i]] for [0 <= i]. *)
Definition slice_from (s : str) (i : Z) : str := drop (Z.to_nat i) s.
Definition slice_to (s : str) (i : Z) : str := take (Z.to_nat i) s.

(** [len(s)] *)
Definition len (s : str) : Z := Z.of_nat (length s).

(** [s.split(sep)] for a one-character separator: never the empty list. *)
Fixpoint split (s : str) (sep : ascii) : list str :=
  match s with
  | [] => [[]]
  | x :: t =>
      if Ascii.eqb x sep then [] :: split t sep
      else match split t sep with
           | [] => [[x]]
           | w :: ws => (x :: w) :: ws
           end
  end.

(** [sep.join(parts)] *)
Fixpoint join (sep : str) (parts : list str) : str :=
  match parts with
  | [] => []
  | [p] => p
  | p :: rest => p ++ sep ++ join sep rest
  end.

(** [s.lstrip(c)] and [s.rstrip(c)] for a one-character set. *)
Fixpoint lstrip (s : str) (c : ascii) : str :=
  match s with
  | x :: t => if Ascii.eqb x c then lstrip t c else s
  | [] => []
  end.

Definition rstrip (s : str) (c : ascii) : str := rev (lstrip (rev s) c).

(** [c * n] *)
Definition repeat_str (s : str) (n : Z) : str :=
  concat (replicate (Z.to_nat n) s).

(** [str(n)] for an [int]. *)
Definition str_of_int (n : Z) : str :=
  list_ascii_of_string (NilZero.string_of_int (Z.to_int n)).

(** Whitespace as [str.strip()] sees it, among the code points below 256
    that a character of the model stands for: the ASCII controls 9 to 13
    and 28 to 31, the space, and the two of Latin-1 (next line, 133, and
    the no-break space, 160). *)
Definition is_space (c : ascii) : bool :=
  let n := nat_of_ascii c in
  ((9 <=? n)%nat && (n <=? 13)%nat) || ((28 <=? n)%nat && (n <=? 32)%nat)
  || (n =? 133)%nat || (n =? 160)%nat.

Fixpoint lstrip_ws (s : str) : str :=
  match s with
  | x :: t => if is_space x then lstrip_ws t else s
  | [] => []
  end.

(** [s.strip()] *)
Definition strip (s : str) : str := rev (lstrip_ws (rev (lstrip_ws s))).

(** Truthiness of a [str] or a [list]: it is not empty. *)
Definition truthy {A} (s : list A) : bool :=
  match s with [] => false | _ => true end.

End Py.

(** ** [posixpath]: the functions of [os.path] the code calls *)
Module posixpath.

Definition sep : ascii := "/"%char.

(** [os.path.join(a, b)] *)
Definition join (a b : str) : str :=
  if Py.startswith b [sep] then b
  else if negb (Py.truthy a) || Py.endswith a [sep] then a ++ b
  else a ++ [sep] ++ b.

(** [os.path.basename(p)] *)
Definition basename (p : str) : str :=
  let i := Py.rfind p sep + 1 in
  Py.slice_from p i.

(** [os.path.dirname(p)] *)
Definition dirname (p : str) : str :=
  let i := Py.rfind p sep + 1 in
  let head := Py.slice_to p i in
  if Py.truthy head && negb (bool_decide (head = Py.repeat_str [sep] (Py.len head)))
  then Py.rstrip head sep
  else head.

(** The loop of [normpath] over the components: a stack of kept names. *)
Definition normpath_step (initial_slashes : Z) (new_comps : list str) (comp : str)
  : list str :=
  if bool_decide (comp = []) || bool_decide (comp = ".") then new_comps
  else if negb (bool_decide (comp = ".."))
          || ((initial_slashes =? 0) && negb (Py.truthy new_comps))
          || (match last new_comps with
              | Some c => bool_decide (c = "..")
              | None => false
              end)
       then new_comps ++ [comp]
       else removelast new_comps.

(** [os.path.normpath(path)] *)
Definition normpath (path : str) : str :=
  if negb (Py.truthy path) then "."
  else
    let initial_slashes :=
      if Py.startswith path [sep] then
        if Py.startswith path [sep; sep] && negb (Py.startswith path [sep; sep; sep])
        then 2 else 1
      else 0 in
    let comps := Py.split path sep in
    let new_comps := fold_left (normpath_step initial_slashes) comps [] in
    let path' := Py.join [sep] new_comps in
    let path' := Py.repeat_str [sep] initial_slashes ++ path' in
    if Py.truthy path' then path' else ".".

(** [os.path.abspath(path)], with the working directory of the process. *)
Definition abspath (cwd path : str) : str :=
  let path := if Py.startswith path [sep] then path else join cwd path in
  normpath path.

(** [len(os.path.commonprefix([l1, l2]))] on two lists of components. *)
Fixpoint common_len (l1 l2 : list str) : nat :=
  match l1, l2 with
  | a :: l1', b :: l2' => if bool_decide (a = b) then S (common_len l1' l2') else O
  | _, _ => O
  end.

(** [os.path.join(a, *p)] *)
Definition join_many (a : str) (p : list str) : str := fold_left join p a.

(** [[x for x in s.split(sep) if x]] *)
Definition components (s : str) : list str :=
  List.filter Py.truthy (Py.split s sep).

(** [os.path.relpath(path, start)]; [None] is the [ValueError] raised
    for an empty [path]. *)
Definition relpath (cwd path start : str) : option str :=
  if negb (Py.truthy path) then None
  else
    let start_list := components (abspath cwd start) in
    let path_list := components (abspath cwd path) in
    let i := common_len start_list path_list in
    let rel_list :=
      replicate (length start_list - i) (".." : str) ++ drop i path_list in
    match rel_list with
    | [] => Some ("." : str)
    | a :: p => Some (join_many a p)
    end.

End posixpath.

(** ** The directory tree under a folder, as the operating system lists it *)
Module Fs.

(** An entry of a directory, in the order the system lists them.
    [Special] stands for what is neither a regular file nor a directory
    (a dangling link, a socket, a pipe). A symbolic link is the entry it
    points to, except that neither [os.walk] nor [rglob] goes through a
    link to a directory: such a link is a [Dir] without entries. *)
Inductive node :=
| File (name : str)
| Special (name : str)
| Dir (name : str) (entries : list node).

Definition name (n : node) : str :=
  match n with File nm | Special nm | Dir nm _ => nm end.

Definition is_dir (n : node) : bool :=
  match n with Dir _ _ => true | _ => false end.

Definition is_file (n : node) : bool :=
  match n with File _ => true | _ => false end.

(** The two lists [os.walk] builds for one directory. *)
Definition dirnames (es : list node) : list str :=
  map name (List.filter is_dir es).

Definition filenames (es : list node) : list str :=
  map name (List.filter (fun n => negb (is_dir n)) es).

(** [os.walk(top)], top-down: one [(root, dirs, files)] triple for a
    directory, then the walk of each of its sub-directories, rooted at
    [os.path.join(top, dirname)]. *)
Fixpoint walk_node (top : str) (n : node) : list (str * list str * list str) :=
  match n with
  | Dir nm es =>
      let new_path := posixpath.join top nm in
      (new_path, dirnames es, filenames es) :: flat_map (walk_node new_path) es
  | _ => []
  end.

Definition walk (top : str) (es : list node) : list (str * list str * list str) :=
  (top, dirnames es, filenames es) :: flat_map (walk_node top) es.

End Fs.

(** ** [pathlib]: the part of [PurePosixPath] and [Path] the code uses *)
Module pathlib.

(** A path is its root (empty, one slash, or two) and its components. *)
Record Path := { root : str; tail : list str }.

(** [Path(s)] *)
Definition of_str (s : str) : Path :=
  let stripped := Py.lstrip s posixpath.sep in
  let root : str :=
    if Py.startswith s "/" then
      if (Py.len s - Py.len stripped =? 2) then "//" else "/"
    else "" in
  {| root := root;
     tail := List.filter (fun x => Py.truthy x && negb (bool_decide (x = ".")))
                         (Py.split s posixpath.sep) |}.

(** [str(p)] *)
Definition to_str (p : Path) : str :=
  match root p ++ Py.join "/" (tail p) with
  | [] => "."
  | s => s
  end.

(** [p / name], for the name of a directory entry. *)
Definition child (p : Path) (name : str) : Path :=
  {| root := root p; tail := tail p ++ [name] |}.

(** [p.name] *)
Definition name (p : Path) : str :=
  match last (tail p) with Some nm => nm | None => [] end.

(** [p.suffix] *)
Definition suffix (p : Path) : str :=
  let name := name p in
  let i := Py.rfind name "." in
  if (0 <? i) && (i <? Py.len name - 1) then Py.slice_from name i else [].

(** [directory.rglob('*')]: every entry below [directory], the entries of
    a directory first and then those of its sub-directories, each path
    with the entry it names (what [is_file()] asks the system). *)
Fixpoint rglob_node (directory : Path) (n : Fs.node) : list (Path * Fs.node) :=
  match n with
  | Fs.Dir nm es =>
      let d := child directory nm in
      map (fun e => (child d (Fs.name e), e)) es ++ flat_map (rglob_node d) es
  | _ => []
  end.

Definition rglob (directory : Path) (es : list Fs.node) : list (Path * Fs.node) :=
  map (fun e => (child directory (Fs.name e), e)) es
  ++ flat_map (rglob_node directory) es.

End pathlib.

(** ** Effects: exceptions, an event trace and the state of an object *)

Inductive exn_class :=
| RuntimeError | OSError | PermissionError | ValueError | TypeError
| AttributeError | RecursionError | JSONDecodeError | UnicodeDecodeError.

(** A raised exception: its class and [str(e)]. *)
Inductive exn := Exn (cls : exn_class) (msg : str).

Definition exn_cls (e : exn) : exn_class := match e with Exn c _ => c end.
Definition str_of_exn (e : exn) : str := match e with Exn _ m => m end.

Inductive res (A : Type) :=
| Ok (a : A)
| Raise (e : exn).
Arguments Ok {A} a.
Arguments Raise {A} e.

Inductive level := INFO | WARNING | ERROR.

(** What a run does to the world outside the object: the records the
    logger keeps (the handlers are set to [INFO], so [logger.debug] leaves
    none), the processes it starts, the directories it makes, the files it
    removes, the dialogs it opens and the Qt signals it emits. *)
Inductive event :=
| Log (lvl : level) (msg : str)
| SubprocessRun (cmd : list str)
| Makedirs (path : str)
| Remove (path : str)
| MessageBoxCritical (title text : str)
| MessageBoxInformation (title text : str)
| ProcessEvents
| ProgressEmit (msg : str)
| ErrorEmit (msg : str)
| FinishedEmit.

#[global] Instance level_eq_dec : EqDecision level.
Proof. solve_decision. Defined.

#[global] Instance event_eq_dec : EqDecision event.
Proof. solve_decision. Defined.

(** A computation over the state [S] of the object it is a method of:
    the events it causes, the state it leaves, and its result. A raised
    exception keeps the events and the state reached when it was raised. *)
Definition M (S A : Type) : Type := S -> list event * S * res A.

Section Monad.
Context {S : Type}.

Definition ret {A} (a : A) : M S A := fun s => ([], s, Ok a).

Definition bind {A B} (m : M S A) (k : A -> M S B) : M S B :=
  fun s =>
    match m s with
    | (t, s', Ok a) => let '(t', s'', r) := k a s' in (t ++ t', s'', r)
    | (t, s', Raise e) => (t, s', Raise e)
    end.

Definition raise {A} (e : exn) : M S A := fun s => ([], s, Raise e).

Definition emit (ev : event) : M S unit := fun s => ([ev], s, Ok tt).

Definition get : M S S := fun s => ([], s, Ok s).

Definition modify (f : S -> S) : M S unit := fun s => ([], f s, Ok tt).

(** [try: m  except <classes> as e: handler e] *)
Definition try_except {A} (m : M S A) (catches : exn -> bool)
           (handler : exn -> M S A) : M S A :=
  fun s =>
    match m s with
    | (t, s', Raise e) =>
        if catches e then let '(t', s'', r) := handler e s' in (t ++ t', s'', r)
        else (t, s', Raise e)
    | done => done
    end.

(** [try: m  finally: final] *)
Definition try_finally {A} (m : M S A) (final : M S unit) : M S A :=
  fun s =>
    let '(t, s', r) := m s in
    let '(t', s'', r') := final s' in
    (t ++ t', s'',
     match r' with
     | Ok _ => r
     | Raise e => Raise e
     end).

End Monad.

#[global] Instance M_ret {S} : MRet (M S) := @ret S.
#[global] Instance M_bind {S} : MBind (M S) := fun A B k m => bind m k.

(** [for x in l: body x], left by an exception only. *)
Fixpoint for_each {S A} (l : list A) (body : A -> M S unit) : M S unit :=
  match l with
  | [] => mret tt
  | x :: rest => body x ;; for_each rest body
  end.

(** A block with a local variable: [m] runs on the variable, which starts
    as [init], and the block gives the value the variable ends with. *)
Definition with_local {S T A} (init : T) (m : M T A) : M S T :=
  fun s =>
    let '(t, v, r) := m init in
    (t, s, match r with Ok _ => Ok v | Raise e => Raise e end).

(** [enumerate(l, start)] *)
Fixpoint enumerate {A} (l : list A) (start : Z) : list (Z * A) :=
  match l with
  | [] => []
  | x :: rest => (start, x) :: enumerate rest (start + 1)
  end.

(** [except Exception] and [except OSError]; [PermissionError] is a
    subclass of [OSError]. *)
Definition any_Exception (e : exn) : bool := true.
Definition is_OSError (e : exn) : bool :=
  match exn_cls e with OSError | PermissionError => true | _ => false end.

Definition trace {S A} (x : list event * S * res A) : list event := x.1.1.
Definition state {S A} (x : list event * S * res A) : S := x.1.2.
Definition result {S A} (x : list event * S * res A) : res A := x.2.

(** ** The world the programs run in *)

(** [subprocess.CompletedProcess] with captured text output. *)
Record CompletedProcess := {
  returncode : Z;
  stdout : str;
  stderr : str
}.

(** What the operating system answers. A [Some msg] or [Raise] is an
    [OSError] with that message. [stat_denied] is for [Path.is_file()],
    which lets through the [PermissionError] of [os.stat] on an entry of a
    folder that can be listed but not searched. *)
Record Env := {
  getcwd : str;
  home : str;
  listing : str -> list Fs.node;          (* what can be listed below a folder *)
  stat_denied : str -> option str;        (* os.stat: PermissionError *)
  path_exists : str -> bool;              (* os.path.exists *)
  makedirs : str -> option str;           (* os.makedirs *)
  unlink : str -> option str;             (* os.remove *)
  spawn : list str -> res CompletedProcess (* the child process *)
}.

(** [subprocess.run(cmd, check=True, text=True, capture_output=True)]:
    the child ran to exit code 0, or [CalledProcessError], or the child
    could not be started. *)
Inductive run_outcome :=
| Completed (p : CompletedProcess)
| CalledProcessError (p : CompletedProcess)
| SpawnFailed (e : exn).

Definition subprocess_run {S} (env : Env) (cmd : list str) : M S run_outcome :=
  emit (SubprocessRun cmd) ;;
  mret (match spawn env cmd with
        | Ok p => if returncode p =? 0 then Completed p else CalledProcessError p
        | Raise e => SpawnFailed e
        end).

(** [file_path.is_file()] for a path that [rglob] yielded with its entry:
    whether the entry is a regular file. [is_file] turns the errors of a
    missing entry into [False]; the [PermissionError] of [os.stat] is not
    among them. *)
Definition path_is_file {S} (env : Env) (file_path : pathlib.Path) (n : Fs.node)
  : M S bool :=
  match stat_denied env (pathlib.to_str file_path) with
  | Some msg => raise (Exn PermissionError msg)
  | None => mret (Fs.is_file n)
  end.

(** ** [main.py] *)
Module Main.

(** [ProcessingConfig] *)
Record ProcessingConfig := {
  input_path : str;
  output_path : str;
  export_format : str;
  table_mode : str;
  force_ocr : bool;
  ocr_bitmaps : bool;
  temp_dir : str
}.

(** [FileProcessor.VALID_EXTENSIONS] *)
Definition VALID_EXTENSIONS : gset str :=
  {[ ".pdf" : str; ".docx" : str; ".pptx" : str; ".html" : str;
     ".xlsx" : str; ".md" : str; ".txt" : str ]}.

(** [FileProcessor.is_valid_file] *)
Definition is_valid_file (file_path : pathlib.Path) : bool :=
  negb (Py.startswith (pathlib.name file_path) ".")
  && bool_decide (Py.lower (pathlib.suffix file_path) ∈ VALID_EXTENSIONS).

(** [FileProcessor.get_files_to_process]; [tree] is what the system lists
    below [directory]. The local variable is [files]: when [is_file()]
    raises, the loop is left, the error is logged and the files found so
    far are returned. *)
Definition get_files_to_process {S} (env : Env) (directory : pathlib.Path)
           (tree : list Fs.node) : M S (list pathlib.Path) :=
  with_local []
    (try_except
       (for_each (pathlib.rglob directory tree)
          (fun '(file_path, n) =>
             regular ← path_is_file env file_path n;
             if regular && is_valid_file file_path
             then modify (fun files => files ++ [file_path])
             else mret tt))
       any_Exception
       (fun e => emit (Log ERROR ("Error scanning directory: " ++ str_of_exn e)))).

(** The fields of a [DoclingWorker]. *)
Record DoclingWorker := {
  config : ProcessingConfig;
  is_cancelled : bool
}.

(** [DoclingWorker.__init__] *)
Definition new (config : ProcessingConfig) : DoclingWorker :=
  {| config := config; is_cancelled := false |}.

(** [DoclingWorker.cancel] *)
Definition cancel (self : DoclingWorker) : DoclingWorker :=
  {| config := config self; is_cancelled := true |}.

(** [DoclingWorker._build_docling_command] *)
Definition _build_docling_command (self : DoclingWorker) (file_path : pathlib.Path)
  : list str :=
  let cmd : list str :=
    [ "docling" : str;
      pathlib.to_str file_path;
      "--to" : str; export_format (config self);
      "--output" : str; output_path (config self);
      "--table-mode" : str; table_mode (config self);
      "--ocr-engine" : str; "easyocr" : str;
      "--verbose" : str ] in
  let cmd := if force_ocr (config self) then cmd ++ ["--force-ocr" : str] else cmd in
  let cmd := if ocr_bitmaps (config self) then cmd ++ ["--ocr" : str] else cmd in
  cmd.

Section Worker.
Context (env : Env).

(** [DoclingWorker._process_single_file] *)
Definition _process_single_file (file_path : pathlib.Path) : M DoclingWorker unit :=
  self ← get;
  let cmd := _build_docling_command self file_path in
  r ← subprocess_run env cmd;
  match r with
  | Completed _ => mret tt
  | CalledProcessError e =>
      raise (Exn RuntimeError ("Docling failed: " ++ stderr e))
  | SpawnFailed e => raise e
  end.

(** The [for] loop of [_process_files]. The flag [is_cancelled] is
    written by the window's thread: [ui i] tells whether that thread
    has called [cancel] by the time the worker reads the flag at the
    top of pass [i] (counted from 0). *)
Fixpoint process_loop (ui : nat -> bool) (i : nat) (files : list pathlib.Path)
  : M DoclingWorker unit :=
  match files with
  | [] => mret tt
  | file_path :: rest =>
      (if ui i then modify cancel else mret tt) ;;
      self ← get;
      if is_cancelled self then
        emit (Log INFO "Processing cancelled by user")
      else
        emit (ProgressEmit ("Processing " ++ pathlib.to_str file_path)) ;;
        try_except (_process_single_file file_path) any_Exception
          (fun e =>
             emit (Log ERROR ("Error processing " ++ pathlib.to_str file_path
                                ++ ": " ++ str_of_exn e)) ;;
             emit (ErrorEmit ("Failed to process " ++ pathlib.name file_path
                                ++ ": " ++ str_of_exn e))) ;;
        process_loop ui (S i) rest
  end.

(** [DoclingWorker._process_files] *)
Definition _process_files (ui : nat -> bool) : M DoclingWorker unit :=
  self ← get;
  let input_dir := pathlib.of_str (input_path (config self)) in
  files_to_process ←
    get_files_to_process env input_dir (listing env (input_path (config self)));
  process_loop ui 0 files_to_process.

(** [DoclingWorker.run] *)
Definition run (ui : nat -> bool) : M DoclingWorker unit :=
  try_finally
    (try_except (_process_files ui) any_Exception
       (fun e =>
          emit (Log ERROR ("Error in worker thread: " ++ str_of_exn e)) ;;
          emit (ErrorEmit (str_of_exn e))))
    (emit FinishedEmit).

End Worker.

End Main.

(** ** [doclingGUI.py] *)
Module Gui.

(** The Python values [json.load] builds, which are also what the fields
    of an [AppSettings] hold at run time (a dataclass does not check
    its annotations). *)
Inductive value :=
| VNone
| VBool (b : bool)
| VInt (n : Z)
| VFloat (bits : Z)
| VStr (s : str)
| VList (l : list value)
| VDict (d : gmap str value).

(** Truthiness, as [if v:] tests it ([0.0] and [-0.0] are false). *)
Definition truthy (v : value) : bool :=
  match v with
  | VNone => false
  | VBool b => b
  | VInt n => negb (n =? 0)
  | VFloat bits => negb ((bits =? 0) || (bits =? 2 ^ 63))
  | VStr s => Py.truthy s
  | VList l => Py.truthy l
  | VDict d => negb (bool_decide (d = ∅))
  end.

(** [type(v).__name__] *)
Definition type_name (v : value) : str :=
  match v with
  | VNone => "NoneType"
  | VBool _ => "bool"
  | VInt _ => "int"
  | VFloat _ => "float"
  | VStr _ => "str"
  | VList _ => "list"
  | VDict _ => "dict"
  end.

(** Item [i] of the list that [' '.join(command)] is given. *)
Definition join_item {S} (i : Z) (v : value) : M S str :=
  match v with
  | VStr s => mret s
  | _ => raise (Exn TypeError ("sequence item " ++ Py.str_of_int i
                                 ++ ": expected str instance, " ++ type_name v
                                 ++ " found"))
  end.

(** Where the code needs a [str], another value is a [TypeError]. *)
Definition as_str {S} (v : value) : M S str :=
  match v with
  | VStr s => mret s
  | _ => raise (Exn TypeError ("expected str, bytes or os.PathLike object, not "
                                 ++ type_name v))
  end.

(** [AppSettings] *)
Record AppSettings := {
  input_path : value;
  output_path : value;
  ocr_enabled : value;
  force_ocr : value;
  ocr_engine : value;
  table_mode : value;
  verbosity : value;
  delete_pdfs : value
}.

(** [AppSettings(input_path=..., output_path=...)] with the defaults of
    the dataclass for the other fields. *)
Definition AppSettings_defaults (input_path output_path : value) : AppSettings :=
  {| input_path := input_path;
     output_path := output_path;
     ocr_enabled := VBool false;
     force_ocr := VBool false;
     ocr_engine := VStr "easyocr";
     table_mode := VStr "accurate";
     verbosity := VInt 0;
     delete_pdfs := VBool false |}.

(** The annotations of the dataclass: what a settings value is meant
    to hold. *)
Definition well_typed (s : AppSettings) : Prop :=
  (exists x, input_path s = VStr x) /\ (exists x, output_path s = VStr x)
  /\ (exists b, ocr_enabled s = VBool b) /\ (exists b, force_ocr s = VBool b)
  /\ (exists x, ocr_engine s = VStr x) /\ (exists x, table_mode s = VStr x)
  /\ (exists n, verbosity s = VInt n) /\ (exists b, delete_pdfs s = VBool b).

(** *** [SettingsManager] *)

(** The two limits of the [json] module on text and values that are
    valid JSON: an integer of more digits than Python converts (4300
    unless configured) is a [ValueError], nesting too deep a
    [RecursionError]. Neither is a [JSONDecodeError] or an [OSError]. *)
Inductive json_limit := DigitLimit | DepthLimit.

Definition limit_error (l : json_limit) (msg : str) : exn :=
  match l with
  | DigitLimit => Exn ValueError msg
  | DepthLimit => Exn RecursionError msg
  end.

(** The settings file as [load_settings] meets it. *)
Inductive file_state :=
| Absent                    (* [os.path.exists] is false *)
| Unreadable (msg : str)    (* [open] or the read raises [OSError] *)
| Undecodable (msg : str)   (* the bytes are not text: [UnicodeDecodeError] *)
| NotJson (msg : str)       (* [json.load] raises [JSONDecodeError] *)
| OverLimit (l : json_limit) (msg : str)
                            (* JSON beyond a limit of [json.load] *)
| Json (v : value).         (* [json.load] returns [v] *)

(** What happens when [save_settings] opens the file for writing and
    dumps the dictionary. *)
Inductive write_outcome :=
| Written
| OpenFailed (msg : str)    (* [open] raises [OSError]: the file is untouched *)
| WriteFailed (msg : str)   (* the write raises [OSError]: a truncated file *)
| EncodeFailed (l : json_limit) (msg : str).
                            (* a value beyond a limit of [json.dump]: a
                               truncated file *)

(** [os.path.expanduser] for a path that starts with a tilde and a slash. *)
Definition expanduser (env : Env) (path : str) : str :=
  match Py.rstrip (home env) "/" ++ Py.slice_from path 1 with
  | [] => "/"
  | p => p
  end.

Record SettingsManager := {
  config_file : str;
  default_settings : AppSettings
}.

(** [SettingsManager.__init__] *)
Definition SettingsManager_new (env : Env) : SettingsManager :=
  {| config_file := expanduser env "~/.docling_gui_settings.json";
     default_settings :=
       AppSettings_defaults (VStr (expanduser env "~/Documents"))
                            (VStr (expanduser env "~/Documents")) |}.

(** [d.get(key, default)] on a value: only a [dict] has the method. *)
Definition dict_get {S} (d : value) (key : str) (dflt : value) : M S value :=
  match d with
  | VDict m => mret (default dflt (m !! key))
  | VList _ => raise (Exn AttributeError "'list' object has no attribute 'get'")
  | VStr _ => raise (Exn AttributeError "'str' object has no attribute 'get'")
  | VInt _ => raise (Exn AttributeError "'int' object has no attribute 'get'")
  | VFloat _ => raise (Exn AttributeError "'float' object has no attribute 'get'")
  | VBool _ => raise (Exn AttributeError "'bool' object has no attribute 'get'")
  | VNone => raise (Exn AttributeError "'NoneType' object has no attribute 'get'")
  end.

(** [except (json.JSONDecodeError, OSError)] *)
Definition is_JSONDecodeError_or_OSError (e : exn) : bool :=
  match exn_cls e with
  | JSONDecodeError | OSError | PermissionError => true
  | _ => false
  end.

(** [SettingsManager.load_settings]; the state is the settings file. *)
Definition load_settings (self : SettingsManager) : M file_state AppSettings :=
  try_except
    (file ← get;
     match file with
     | Absent => mret (default_settings self)
     | Unreadable msg => raise (Exn OSError msg)
     | Undecodable msg => raise (Exn UnicodeDecodeError msg)
     | NotJson msg => raise (Exn JSONDecodeError msg)
     | OverLimit l msg => raise (limit_error l msg)
     | Json saved_settings =>
         let d := default_settings self in
         v1 ← dict_get saved_settings "input_path" (input_path d);
         v2 ← dict_get saved_settings "output_path" (output_path d);
         v3 ← dict_get saved_settings "ocr_enabled" (ocr_enabled d);
         v4 ← dict_get saved_settings "force_ocr" (force_ocr d);
         v5 ← dict_get saved_settings "ocr_engine" (ocr_engine d);
         v6 ← dict_get saved_settings "table_mode" (table_mode d);
         v7 ← dict_get saved_settings "verbosity" (verbosity d);
         v8 ← dict_get saved_settings "delete_pdfs" (delete_pdfs d);
         mret {| input_path := v1; output_path := v2; ocr_enabled := v3;
                 force_ocr := v4; ocr_engine := v5; table_mode := v6;
                 verbosity := v7; delete_pdfs := v8 |}
     end)
    is_JSONDecodeError_or_OSError
    (fun e =>
       emit (Log WARNING ("Failed to load settings: " ++ str_of_exn e)) ;;
       mret (default_settings self)).

(** The dictionary [save_settings] dumps. *)
Definition settings_dict (settings : AppSettings) : gmap str value :=
  <[ ("delete_pdfs" : str) := delete_pdfs settings ]>
  (<[ ("verbosity" : str) := verbosity settings ]>
  (<[ ("table_mode" : str) := table_mode settings ]>
  (<[ ("ocr_engine" : str) := ocr_engine settings ]>
  (<[ ("force_ocr" : str) := force_ocr settings ]>
  (<[ ("ocr_enabled" : str) := ocr_enabled settings ]>
  (<[ ("output_path" : str) := output_path settings ]>
  (<[ ("input_path" : str) := input_path settings ]> ∅))))))).

(** [SettingsManager.save_settings]. [w] is how the write goes. A file
    that [json.dump] wrote in full is read back by [json.load] as the
    dictionary dumped (the round trip of the [json] module on these
    values); a write cut short, by an [OSError] or by [json.dump] itself,
    leaves text that is not JSON. *)
Definition save_settings (w : write_outcome) (self : SettingsManager)
           (settings : AppSettings) : M file_state unit :=
  try_except
    (let settings_dict := settings_dict settings in
     match w with
     | Written => modify (fun _ => Json (VDict settings_dict))
     | OpenFailed msg => raise (Exn OSError msg)
     | WriteFailed msg =>
         modify (fun _ => NotJson "Expecting value") ;; raise (Exn OSError msg)
     | EncodeFailed l msg =>
         modify (fun _ => NotJson "Expecting value") ;; raise (limit_error l msg)
     end)
    is_OSError
    (fun e => emit (Log ERROR ("Failed to save settings: " ++ str_of_exn e))).

(** *** [DoclingGUI] *)

(** The widgets the user sets. *)
Record Controls := {
  input_path_edit : str;
  output_path_edit : str;
  ocr_checkbox : bool;
  force_ocr_checkbox : bool;
  delete_pdfs_checkbox : bool;
  ocr_engine_combo : str;
  table_mode_combo : str;
  verbosity_spinbox : Z
}.

(** What the widgets allow: the items of the two combo boxes and the
    range of the spin box. *)
Definition controls_valid (ui : Controls) : Prop :=
  In (ocr_engine_combo ui)
     ["easyocr" : str; "tesseract" : str; "tesseract_cli" : str; "ocrmac" : str]
  /\ In (table_mode_combo ui) ["accurate" : str; "fast" : str]
  /\ 0 <= verbosity_spinbox ui <= 2.

(** The widgets a conversion writes to. *)
Record Display := {
  status_label : str;
  progress_info : str;
  progress_bar_maximum : Z;
  progress_bar_value : Z;
  run_button_enabled : bool;
  run_button_text : str
}.

(** The window after [init_ui]. *)
Definition initial_display : Display :=
  {| status_label := "Ready to start conversion...";
     progress_info := "0/0 files processed";
     progress_bar_maximum := 100;
     progress_bar_value := 0;
     run_button_enabled := true;
     run_button_text := "Run Conversion" |}.

Definition with_status_label (s : str) (d : Display) : Display :=
  {| status_label := s;
     progress_info := progress_info d;
     progress_bar_maximum := progress_bar_maximum d;
     progress_bar_value := progress_bar_value d;
     run_button_enabled := run_button_enabled d;
     run_button_text := run_button_text d |}.

Definition with_progress_info (s : str) (d : Display) : Display :=
  {| status_label := status_label d;
     progress_info := s;
     progress_bar_maximum := progress_bar_maximum d;
     progress_bar_value := progress_bar_value d;
     run_button_enabled := run_button_enabled d;
     run_button_text := run_button_text d |}.

Definition with_progress_bar_maximum (n : Z) (d : Display) : Display :=
  {| status_label := status_label d;
     progress_info := progress_info d;
     progress_bar_maximum := n;
     progress_bar_value := progress_bar_value d;
     run_button_enabled := run_button_enabled d;
     run_button_text := run_button_text d |}.

Definition with_progress_bar_value (n : Z) (d : Display) : Display :=
  {| status_label := status_label d;
     progress_info := progress_info d;
     progress_bar_maximum := progress_bar_maximum d;
     progress_bar_value := n;
     run_button_enabled := run_button_enabled d;
     run_button_text := run_button_text d |}.

Definition with_run_button_enabled (b : bool) (d : Display) : Display :=
  {| status_label := status_label d;
     progress_info := progress_info d;
     progress_bar_maximum := progress_bar_maximum d;
     progress_bar_value := progress_bar_value d;
     run_button_enabled := b;
     run_button_text := run_button_text d |}.

Definition with_run_button_text (s : str) (d : Display) : Display :=
  {| status_label := status_label d;
     progress_info := progress_info d;
     progress_bar_maximum := progress_bar_maximum d;
     progress_bar_value := progress_bar_value d;
     run_button_enabled := run_button_enabled d;
     run_button_text := s |}.

(** The setters of the widgets. *)
Definition status_label_setText (s : str) : M Display unit :=
  modify (with_status_label s).

Definition progress_info_setText (s : str) : M Display unit :=
  modify (with_progress_info s).

Definition progress_bar_setMaximum (n : Z) : M Display unit :=
  modify (with_progress_bar_maximum n).

Definition progress_bar_setValue (n : Z) : M Display unit :=
  modify (with_progress_bar_value n).

Definition run_button_setEnabled (b : bool) : M Display unit :=
  modify (with_run_button_enabled b).

Definition run_button_setText (s : str) : M Display unit :=
  modify (with_run_button_text s).

(** A line feed, as in the f-strings of the source. *)
Definition LF : str := ["010"%char].

(** [DoclingGUI.get_config] *)
Definition get_config (ui : Controls) : AppSettings :=
  let verbosity_level := verbosity_spinbox ui in
  let verbosity : str :=
    if 0 <? verbosity_level then Py.repeat_str "-v" verbosity_level else "" in
  {| input_path := VStr (Py.strip (input_path_edit ui));
     output_path := VStr (Py.strip (output_path_edit ui));
     ocr_enabled := VBool (ocr_checkbox ui);
     force_ocr := VBool (force_ocr_checkbox ui);
     ocr_engine := VStr (ocr_engine_combo ui);
     table_mode := VStr (table_mode_combo ui);
     verbosity := VStr verbosity;
     delete_pdfs := VBool (delete_pdfs_checkbox ui) |}.

Section Conversion.
Context (env : Env).

(** [DoclingGUI.validate_paths] *)
Definition validate_paths (ui : Controls) : M Display (option str) :=
  let input_folder := Py.strip (input_path_edit ui) in
  let output_folder := Py.strip (output_path_edit ui) in
  if negb (Py.truthy input_folder) || negb (Py.truthy output_folder) then
    mret (Some ("Please specify both input and output folders." : str))
  else if negb (path_exists env input_folder) then
    mret (Some ("Input folder does not exist." : str))
  else if negb (path_exists env output_folder) then
    emit (Makedirs output_folder) ;;
    match makedirs env output_folder with
    | Some e => mret (Some ("Failed to create output folder: " ++ e))
    | None => mret None
    end
  else mret None.

(** [DoclingGUI._find_pdf_files]; [os.walk] swallows the errors of the
    scan itself, so the [OSError] handler of the source is not
    reached. *)
Definition _find_pdf_files (folder : str) : list str :=
  flat_map
    (fun '(root, _, files) =>
       map (posixpath.join root)
           (List.filter (fun file => Py.endswith (Py.lower file) ".pdf") files))
    (Fs.walk folder (listing env folder)).

(** The output directory of one file (the two lines of the loop of
    [_process_conversion] that compute [relative_path] and
    [output_dir]). *)
Definition output_dir_of (config : AppSettings) (pdf_file : str) : M Display str :=
  input_path ← as_str (input_path config);
  relative_path ←
    match posixpath.relpath (getcwd env) pdf_file input_path with
    | Some r => mret r
    | None => raise (Exn ValueError "no path specified")
    end;
  output_path ← as_str (output_path config);
  mret (posixpath.join output_path (posixpath.dirname relative_path)).

(** The command of one file (the lines of the loop of
    [_process_conversion] from [command = ["docling"]] to the
    verbosity argument), as the list of words that [' '.join(command)]
    and [subprocess.run] are given: the source appends what the fields
    hold, and an item that is not a [str] is the [TypeError] of
    [' '.join(command)]. *)
Definition build_command (config : AppSettings) (pdf_file output_dir : str)
  : M Display (list str) :=
  let command : list str := ["docling" : str] in
  let command := command ++ [pdf_file] in
  let command := command ++ ["--from" : str; "pdf" : str; "--to" : str; "md" : str] in
  let command :=
    if truthy (ocr_enabled config) then command ++ ["--ocr" : str]
    else command ++ ["--no-ocr" : str] in
  let command :=
    if truthy (force_ocr config) then command ++ ["--force-ocr" : str]
    else command ++ ["--no-force-ocr" : str] in
  ocr_engine ← join_item 9 (ocr_engine config);
  let command := command ++ ["--ocr-engine" : str; ocr_engine] in
  table_mode ← join_item 11 (table_mode config);
  let command := command ++ ["--table-mode" : str; table_mode] in
  let command := command ++ ["--output" : str; output_dir] in
  if truthy (verbosity config) then
    v ← join_item 14 (verbosity config);
    mret (command ++ [v])
  else mret command.

(** The message of the [RuntimeError] raised for a failed process. *)
Definition error_message_of (filename : str) (e : CompletedProcess) : str :=
  "Error processing " ++ filename ++ LF
  ++ "Command failed with exit status " ++ Py.str_of_int (returncode e) ++ LF
  ++ "Error output:" ++ LF
  ++ (if Py.truthy (stderr e) then stderr e else "No error output") ++ LF
  ++ "Standard output:" ++ LF
  ++ (if Py.truthy (stdout e) then stdout e else "No standard output").

(** One pass of the loop of [_process_conversion]. [build_command] stands
    for the lines that assemble [command] and for [' '.join(command)],
    which is where an item that is not a [str] is found out: after the
    first of the two records. *)
Definition convert_one (config : AppSettings) (total_files : Z)
           (item : Z * str) : M Display unit :=
  let '(index, pdf_file) := item in
  let filename := posixpath.basename pdf_file in
  status_label_setText ("Processing: " ++ filename) ;;
  progress_info_setText
    (Py.str_of_int index ++ "/" ++ Py.str_of_int total_files ++ " files processed") ;;
  output_dir ← output_dir_of config pdf_file;
  emit (Makedirs output_dir) ;;
  match makedirs env output_dir with
  | Some msg => raise (Exn OSError msg)
  | None => mret tt
  end ;;
  emit (Log INFO ("Processing file " ++ Py.str_of_int index ++ "/"
                    ++ Py.str_of_int total_files ++ ": " ++ pdf_file)) ;;
  command ← build_command config pdf_file output_dir;
  emit (Log INFO ("Running command: " ++ Py.join " " command)) ;;
  r ← subprocess_run env command;
  match r with
  | Completed p =>
      (if Py.truthy (stderr p)
       then emit (Log WARNING ("Command stderr output:" ++ LF ++ stderr p))
       else mret tt) ;;
      (if Py.truthy (stdout p)
       then emit (Log INFO ("Command stdout output:" ++ LF ++ stdout p))
       else mret tt)
  | CalledProcessError e =>
      let error_message := error_message_of filename e in
      emit (Log ERROR error_message) ;;
      raise (Exn RuntimeError error_message)
  | SpawnFailed e => raise e
  end ;;
  progress_bar_setValue index ;;
  emit ProcessEvents.

(** [DoclingGUI._delete_processed_pdfs] *)
Definition _delete_processed_pdfs (folder : str) : M Display unit :=
  for_each (Fs.walk folder (listing env folder))
    (fun '(root, _, files) =>
       for_each files
         (fun file =>
            if Py.endswith (Py.lower file) ".pdf" then
              let pdf_path := posixpath.join root file in
              emit (Remove pdf_path) ;;
              match unlink env pdf_path with
              | None => emit (Log INFO ("Deleted PDF: " ++ pdf_path))
              | Some e =>
                  emit (Log ERROR ("Failed to delete PDF " ++ pdf_path ++ ": " ++ e))
              end
            else mret tt)).

(** The [try] block of [_process_conversion]. *)
Definition conversion_try (config : AppSettings) : M Display unit :=
  run_button_setEnabled false ;;
  run_button_setText "Converting..." ;;
  input_path ← as_str (input_path config);
  let pdf_files := _find_pdf_files input_path in
  if negb (Py.truthy pdf_files) then
    raise (Exn RuntimeError "No PDF files found in the input folder")
  else
    let total_files := Z.of_nat (length pdf_files) in
    progress_bar_setMaximum total_files ;;
    progress_bar_setValue 0 ;;
    for_each (enumerate pdf_files 1) (convert_one config total_files) ;;
    (if truthy (delete_pdfs config) then
       status_label_setText "Deleting processed PDF files..." ;;
       _delete_processed_pdfs input_path
     else mret tt) ;;
    status_label_setText "Conversion completed successfully!" ;;
    progress_info_setText
      ("Processed " ++ Py.str_of_int total_files ++ " files").

(** [DoclingGUI._process_conversion]: the [try] block, and the [finally]
    block that gives the run button back. *)
Definition _process_conversion (config : AppSettings) : M Display unit :=
  try_finally
    (conversion_try config)
    (run_button_setEnabled true ;;
     run_button_setText "Run Conversion").

(** [DoclingGUI.run_conversion] *)
Definition run_conversion (ui : Controls) : M Display unit :=
  error_message ← validate_paths ui;
  if match error_message with Some m => Py.truthy m | None => false end then
    emit (MessageBoxCritical "Error" (default [] error_message))
  else
    let config := get_config ui in
    try_except
      (_process_conversion config ;;
       emit (MessageBoxInformation "Success" "Conversion completed successfully!"))
      any_Exception
      (fun e =>
         emit (Log ERROR ("Conversion failed: " ++ str_of_exn e)) ;;
         emit (MessageBoxCritical "Error"
                 ("Conversion failed:" ++ LF ++ str_of_exn e))).

End Conversion.

End Gui.

(** ** The notions of the statements *)

(** Where an entry lies in a tree: [contains tree rel n] when [n] is listed
    in the directory reached from the top through the directories [rel]. *)
Inductive contains : list Fs.node -> list str -> Fs.node -> Prop :=
| contains_here tree n :
    In n tree -> contains tree [] n
| contains_below tree d sub rel n :
    In (Fs.Dir d sub) tree -> contains sub rel n -> contains tree (d :: rel) n.





(** What [get_files_to_process] returns for the folder [input] of a
    worker, and what it logs. *)
Definition discovered (env : Env) (input : str) : list pathlib.Path :=
  match result (Main.get_files_to_process env (pathlib.of_str input)
                  (listing env input) tt) with
  | Ok files => files
  | Raise _ => []
  end.

Definition scan_log (env : Env) (input : str) : list event :=
  trace (Main.get_files_to_process env (pathlib.of_str input) (listing env input) tt).


(** The entries a scan gets through: those that come before the first
    one [os.stat] refuses; and the message of that refusal. *)
Fixpoint reached (env : Env) (entries : list (pathlib.Path * Fs.node))
  : list (pathlib.Path * Fs.node) :=
  match entries with
  | [] => []
  | e :: rest =>
      match stat_denied env (pathlib.to_str (fst e)) with
      | Some _ => []
      | None => e :: reached env rest
      end
  end.

Fixpoint refusal (env : Env) (entries : list (pathlib.Path * Fs.node)) : option str :=
  match entries with
  | [] => None
  | e :: rest =>
      match stat_denied env (pathlib.to_str (fst e)) with
      | Some msg => Some msg
      | None => refusal env rest
      end
  end.

(** The body of the outer loop of [_find_pdf_files], for one triple of
    the walk. *)
Definition pick (triple : str * list str * list str) : list str :=
  let '(root, _, files) := triple in
  map (posixpath.join root)
      (List.filter (fun file => Py.endswith (Py.lower file) ".pdf") files).


(** The files handed to the converter, in order: the second word of each
    command started. *)
Definition attempted (tr : list event) : list str :=
  omap (fun ev => match ev with
                  | SubprocessRun cmd => cmd !! 1%nat
                  | _ => None
                  end) tr.

(** The files whose process ran to exit code 0, in order. *)
Definition converted (env : Env) (tr : list event) : list str :=
  omap (fun ev => match ev with
                  | SubprocessRun cmd =>
                      match spawn env cmd with
                      | Ok p => if returncode p =? 0 then cmd !! 1%nat else None
                      | Raise _ => None
                      end
                  | _ => None
                  end) tr.

(** The paths [os.remove] was called on. *)
Definition removals (tr : list event) : list str :=
  omap (fun ev => match ev with Remove p => Some p | _ => None end) tr.

(** The word after [flag] on a command line. *)
Fixpoint argument_of (flag : str) (cmd : list str) : option str :=
  match cmd with
  | w :: rest =>
      if bool_decide (w = flag) then head rest else argument_of flag rest
  | [] => None
  end.

(** The tree and the world of the scenario of the specification: a folder
    [in] holding [a.pdf], [b.docx], [.hidden.pdf] and [c.exe]. *)
Definition scenario_tree : list Fs.node :=
  [Fs.File "a.pdf"; Fs.File "b.docx"; Fs.File ".hidden.pdf"; Fs.File "c.exe"].

Definition scenario_env (tree : list Fs.node) (spawn : list str -> res CompletedProcess)
  : Env :=
  {| getcwd := "/home/user";
     home := "/home/user";
     listing := fun _ => tree;
     stat_denied := fun _ => None;
     path_exists := fun _ => true;
     makedirs := fun _ => None;
     unlink := fun _ => None;
     spawn := spawn |}.



(** A converter that always succeeds, and one that fails on [a.pdf] as in
    the scenario of the specification. *)
Definition spawn_ok (cmd : list str) : res CompletedProcess :=
  Ok {| returncode := 0; stdout := ""; stderr := "" |}.

Definition spawn_parse_error (cmd : list str) : res CompletedProcess :=
  if bool_decide (cmd !! 1%nat = Some ("in/a.pdf" : str))
  then Ok {| returncode := 1; stdout := ""; stderr := "parse error" |}
  else spawn_ok cmd.

(** The command line [build_command] assembles for the configuration
    read from the widgets. *)
Definition verbosity_argument (ui : Gui.Controls) : str :=
  if 0 <? Gui.verbosity_spinbox ui
  then Py.repeat_str "-v" (Gui.verbosity_spinbox ui) else "".

Definition command_line (ui : Gui.Controls) (pdf_file output_dir : str) : list str :=
  [ "docling" : str; pdf_file; "--from" : str; "pdf" : str; "--to" : str; "md" : str;
    (if Gui.ocr_checkbox ui then "--ocr" else "--no-ocr") : str;
    (if Gui.force_ocr_checkbox ui then "--force-ocr" else "--no-force-ocr") : str;
    "--ocr-engine" : str; Gui.ocr_engine_combo ui;
    "--table-mode" : str; Gui.table_mode_combo ui;
    "--output" : str; output_dir ]
  ++ (if Py.truthy (verbosity_argument ui) then [verbosity_argument ui] else []).

(** What the loop logs after a process that exited with code 0. *)
Definition completed_logs (p : CompletedProcess) : list event :=
  (if Py.truthy (stderr p)
   then [Log WARNING ("Command stderr output:" ++ Gui.LF ++ stderr p)] else [])
  ++ (if Py.truthy (stdout p)
      then [Log INFO ("Command stdout output:" ++ Gui.LF ++ stdout p)] else []).

(** The display when the [finally] block of [_process_conversion] is done. *)
Definition finish (d : Gui.Display) : Gui.Display :=
  Gui.with_run_button_text "Run Conversion" (Gui.with_run_button_enabled true d).

(** The same world with another answer to [os.remove]. *)
Definition with_unlink (env : Env) (u : str -> option str) : Env :=
  {| getcwd := getcwd env; home := home env; listing := listing env;
     stat_denied := stat_denied env;
     path_exists := path_exists env; makedirs := makedirs env;
     unlink := u; spawn := spawn env |}.

(** What the worker of [main.py] emits for one file it is not cancelled
    before: the progress signal, the process, and, when the process fails,
    the error record and the error signal. *)
Definition failure_events (file_path : pathlib.Path) (e : exn) : list event :=
  [ Log ERROR ("Error processing " ++ pathlib.to_str file_path ++ ": " ++ str_of_exn e);
    ErrorEmit ("Failed to process " ++ pathlib.name file_path ++ ": " ++ str_of_exn e) ].

Definition file_events (env : Env) (self : Main.DoclingWorker) (file_path : pathlib.Path)
  : list event :=
  let cmd := Main._build_docling_command self file_path in
  ProgressEmit ("Processing " ++ pathlib.to_str file_path)
  :: SubprocessRun cmd
  :: match spawn env cmd with
     | Ok p =>
         if returncode p =? 0 then []
         else failure_events file_path
                (Exn RuntimeError ("Docling failed: " ++ stderr p))
     | Raise e => failure_events file_path e
     end.

(** A configuration of [main.py] for the scenario of the specification. *)
Definition scenario_config : Main.ProcessingConfig :=
  {| Main.input_path := "in";
     Main.output_path := "out";
     Main.export_format := "md";
     Main.table_mode := "fast";
     Main.force_ocr := false;
     Main.ocr_bitmaps := false;
     Main.temp_dir := "/tmp/tmpdir" |}.

(** Widgets of [doclingGUI.py] for the scenario of the specification. *)
Definition scenario_controls (verbosity : Z) (delete : bool) : Gui.Controls :=
  {| Gui.input_path_edit := "in";
     Gui.output_path_edit := "out";
     Gui.ocr_checkbox := false;
     Gui.force_ocr_checkbox := false;
     Gui.delete_pdfs_checkbox := delete;
     Gui.ocr_engine_combo := "easyocr";
     Gui.table_mode_combo := "accurate";
     Gui.verbosity_spinbox := verbosity |}.

(** An event other than the [finished] signal. *)
Definition not_finished (ev : event) : Prop := ev <> FinishedEmit.

(** A process that was started ran to exit code 0. *)
Definition spawned_ok (env : Env) (ev : event) : Prop :=
  match ev with
  | SubprocessRun cmd => exists p, spawn env cmd = Ok p /\ returncode p = 0
  | _ => True
  end.

(** What [_delete_processed_pdfs] does for one file it selects. *)
Definition removal_events (env : Env) (pdf_path : str) : list event :=
  [ Remove pdf_path;
    match unlink env pdf_path with
    | None => Log INFO ("Deleted PDF: " ++ pdf_path)
    | Some e => Log ERROR ("Failed to delete PDF " ++ pdf_path ++ ": " ++ e)
    end ].

(** An event other than a call of [os.remove]. *)
Definition not_removal (ev : event) : Prop :=
  match ev with Remove _ => False | _ => True end.

(** A name the system can give a directory entry: not empty, without a
    slash, and neither of the two dot names. *)
Definition entry_name (c : str) : Prop :=
  c <> [] /\ ~ In posixpath.sep c /\ c <> "." /\ c <> "..".

Definition entry_name_b (c : str) : bool :=
  Py.truthy c && negb (existsb (Ascii.eqb posixpath.sep) c)
  && negb (bool_decide (c = ".")) && negb (bool_decide (c = "..")).

(** Every entry of the tree has such a name. *)
Fixpoint node_ok (n : Fs.node) : bool :=
  entry_name_b (Fs.name n)
  && match n with
     | Fs.Dir _ es => forallb node_ok es
     | _ => true
     end.

Definition tree_ok (tree : list Fs.node) : bool := forallb node_ok tree.

(** The path [abspath] normalises, and the components [normpath] keeps of
    a path that starts with a slash. *)
Definition absolute (cwd path : str) : str :=
  if Py.startswith path [posixpath.sep] then path else posixpath.join cwd path.

Definition kept (path : str) : list str :=
  fold_left (posixpath.normpath_step 1) (Py.split path posixpath.sep) [].

(** A path component without a slash that is not empty. *)
Definition plain (w : str) : Prop := w <> [] /\ ~ In posixpath.sep w.

(** A started process is the conversion of a discovered file, with the
    command line of that file. *)
Definition converts_discovered (env : Env) (ui : Gui.Controls) (ev : event) : Prop :=
  match ev with
  | SubprocessRun cmd =>
      exists f r,
        In f (Gui._find_pdf_files env (Py.strip (Gui.input_path_edit ui)))
        /\ posixpath.relpath (getcwd env) f (Py.strip (Gui.input_path_edit ui)) = Some r
        /\ cmd = command_line ui f
                   (posixpath.join (Py.strip (Gui.output_path_edit ui))
                                   (posixpath.dirname r))
  | _ => True
  end.

(** A tree with a sub-directory, for the mirrored output folders. *)
Definition nested_tree : list Fs.node :=
  [Fs.File "a.pdf"; Fs.Dir "sub" [Fs.File "c.pdf"]].

(** ** [main.py]: the window *)
Module Window.

(** What the system answers about the temporary directory of a run: the
    path [tempfile.mkdtemp] makes (or its [OSError]) and whether
    [shutil.rmtree] removes a path ([Some msg] is its [OSError]). *)
Record TempOs := {
  mkdtemp : res str;
  rmtree : str -> option str
}.

(** The widgets and attributes of a [MainWindow]: the texts of the two
    folder labels and of the progress label, the two combo boxes and check
    boxes, whether the two buttons are enabled, [temp_dir] and [worker]. *)
Record MainWindow := {
  input_path : str;
  output_path : str;
  format_combo : str;
  table_mode : str;
  force_ocr : bool;
  ocr_bitmaps : bool;
  progress_label : str;
  start_btn : bool;
  cancel_btn : bool;
  temp_dir : option str;
  worker : option Main.DoclingWorker
}.

(** [MainWindow.__init__] and [init_ui]. *)
Definition new : MainWindow :=
  {| input_path := "No folder selected";
     output_path := "No folder selected";
     format_combo := "md";
     table_mode := "fast";
     force_ocr := false;
     ocr_bitmaps := false;
     progress_label := "";
     start_btn := true;
     cancel_btn := false;
     temp_dir := None;
     worker := None |}.

Definition with_input_path (v : str) (w : MainWindow) : MainWindow :=
  {| input_path := v;
     output_path := output_path w;
     format_combo := format_combo w;
     table_mode := table_mode w;
     force_ocr := force_ocr w;
     ocr_bitmaps := ocr_bitmaps w;
     progress_label := progress_label w;
     start_btn := start_btn w;
     cancel_btn := cancel_btn w;
     temp_dir := temp_dir w;
     worker := worker w |}.

Definition with_output_path (v : str) (w : MainWindow) : MainWindow :=
  {| input_path := input_path w;
     output_path := v;
     format_combo := format_combo w;
     table_mode := table_mode w;
     force_ocr := force_ocr w;
     ocr_bitmaps := ocr_bitmaps w;
     progress_label := progress_label w;
     start_btn := start_btn w;
     cancel_btn := cancel_btn w;
     temp_dir := temp_dir w;
     worker := worker w |}.

Definition with_progress_label (v : str) (w : MainWindow) : MainWindow :=
  {| input_path := input_path w;
     output_path := output_path w;
     format_combo := format_combo w;
     table_mode := table_mode w;
     force_ocr := force_ocr w;
     ocr_bitmaps := ocr_bitmaps w;
     progress_label := v;
     start_btn := start_btn w;
     cancel_btn := cancel_btn w;
     temp_dir := temp_dir w;
     worker := worker w |}.

Definition with_start_btn (v : bool) (w : MainWindow) : MainWindow :=
  {| input_path := input_path w;
     output_path := output_path w;
     format_combo := format_combo w;
     table_mode := table_mode w;
     force_ocr := force_ocr w;
     ocr_bitmaps := ocr_bitmaps w;
     progress_label := progress_label w;
     start_btn := v;
     cancel_btn := cancel_btn w;
     temp_dir := temp_dir w;
     worker := worker w |}.

Definition with_cancel_btn (v : bool) (w : MainWindow) : MainWindow :=
  {| input_path := input_path w;
     output_path := output_path w;
     format_combo := format_combo w;
     table_mode := table_mode w;
     force_ocr := force_ocr w;
     ocr_bitmaps := ocr_bitmaps w;
     progress_label := progress_label w;
     start_btn := start_btn w;
     cancel_btn := v;
     temp_dir := temp_dir w;
     worker := worker w |}.

Definition with_temp_dir (v : option str) (w : MainWindow) : MainWindow :=
  {| input_path := input_path w;
     output_path := output_path w;
     format_combo := format_combo w;
     table_mode := table_mode w;
     force_ocr := force_ocr w;
     ocr_bitmaps := ocr_bitmaps w;
     progress_label := progress_label w;
     start_btn := start_btn w;
     cancel_btn := cancel_btn w;
     temp_dir := v;
     worker := worker w |}.

Definition with_worker (v : option Main.DoclingWorker) (w : MainWindow) : MainWindow :=
  {| input_path := input_path w;
     output_path := output_path w;
     format_combo := format_combo w;
     table_mode := table_mode w;
     force_ocr := force_ocr w;
     ocr_bitmaps := ocr_bitmaps w;
     progress_label := progress_label w;
     start_btn := start_btn w;
     cancel_btn := cancel_btn w;
     temp_dir := temp_dir w;
     worker := v |}.

(** [select_input_folder] and [select_output_folder]; [folder] is what
    the dialog returns, empty when the user cancels it. *)
Definition select_input_folder (folder : str) : M MainWindow unit :=
  if Py.truthy folder then
    modify (with_input_path folder) ;;
    emit (Log INFO ("Input directory selected: " ++ folder))
  else mret tt.

Definition select_output_folder (folder : str) : M MainWindow unit :=
  if Py.truthy folder then
    modify (with_output_path folder) ;;
    emit (Log INFO ("Output directory selected: " ++ folder))
  else mret tt.

(** [MainWindow._validate_paths] *)
Definition _validate_paths : M MainWindow bool :=
  self ← get;
  if bool_decide (input_path self = "No folder selected") then
    modify (with_progress_label "Please select an input folder") ;;
    mret false
  else if bool_decide (output_path self = "No folder selected") then
    modify (with_progress_label "Please select an output folder") ;;
    mret false
  else mret true.

(** [MainWindow.start_processing]. The result is the worker whose thread
    the last line starts ([self.worker.start()]), if it is reached. *)
Definition start_processing (tos : TempOs) : M MainWindow (option Main.DoclingWorker) :=
  ok ← _validate_paths;
  if negb ok then mret None
  else
    temp ← (match mkdtemp tos with
            | Ok path => mret path
            | Raise e => raise e
            end);
    modify (with_temp_dir (Some temp)) ;;
    emit (Log INFO ("Created temporary directory: " ++ temp)) ;;
    self ← get;
    let config :=
      {| Main.input_path := input_path self;
         Main.output_path := output_path self;
         Main.export_format := format_combo self;
         Main.table_mode := table_mode self;
         Main.force_ocr := force_ocr self;
         Main.ocr_bitmaps := ocr_bitmaps self;
         Main.temp_dir := temp |} in
    let worker := Main.new config in
    modify (with_worker (Some worker)) ;;
    modify (with_start_btn false) ;;
    modify (with_cancel_btn true) ;;
    mret (Some worker).

(** [MainWindow.cancel_processing] *)
Definition cancel_processing : M MainWindow unit :=
  self ← get;
  match worker self with
  | Some w =>
      modify (with_worker (Some (Main.cancel w))) ;;
      modify (with_progress_label "Cancelling...") ;;
      modify (with_cancel_btn false)
  | None => mret tt
  end.

(** [MainWindow._update_progress] *)
Definition _update_progress (message : str) : M MainWindow unit :=
  modify (with_progress_label message).

(** [MainWindow._handle_error] *)
Definition _handle_error (error_message : str) : M MainWindow unit :=
  modify (with_progress_label ("Error: " ++ error_message)).

(** [MainWindow._processing_finished] *)
Definition _processing_finished (env : Env) (tos : TempOs) : M MainWindow unit :=
  self ← get;
  match temp_dir self with
  | Some temp =>
      if Py.truthy temp && path_exists env temp then
        match rmtree tos temp with
        | Some msg => raise (Exn OSError msg)
        | None => emit (Log INFO ("Removed temporary directory: " ++ temp))
        end
      else mret tt
  | None => mret tt
  end ;;
  modify (with_start_btn true) ;;
  modify (with_cancel_btn false) ;;
  modify (with_progress_label "Processing completed").

(** The slots [start_processing] connects to the three signals of the
    worker. *)
Definition slot (env : Env) (tos : TempOs) (ev : event) : M MainWindow unit :=
  match ev with
  | ProgressEmit message => _update_progress message
  | ErrorEmit error_message => _handle_error error_message
  | FinishedEmit => _processing_finished env tos
  | _ => mret tt
  end.

(** One run that the user does not cancel: [start_processing], then the
    thread of the worker runs to its end, and the window handles the
    signals the worker emitted, in the order of their emission. *)
Definition session (env : Env) (tos : TempOs) : M MainWindow unit :=
  started ← start_processing tos;
  match started with
  | Some w => for_each (trace (Main.run env (fun _ => false) w)) (slot env tos)
  | None => mret tt
  end.

End Window.

(** ** [doclingGUI.py]: the settings across a session *)
Module Session.

(** [DoclingGUI.save_current_settings]: the settings are read from the
    widgets, the verbosity as the number of the spin box. *)
Definition save_current_settings (w : Gui.write_outcome) (self : Gui.SettingsManager)
           (ui : Gui.Controls) : M Gui.file_state unit :=
  try_except
    (let current_settings :=
       {| Gui.input_path := Gui.VStr (Py.strip (Gui.input_path_edit ui));
          Gui.output_path := Gui.VStr (Py.strip (Gui.output_path_edit ui));
          Gui.ocr_enabled := Gui.VBool (Gui.ocr_checkbox ui);
          Gui.force_ocr := Gui.VBool (Gui.force_ocr_checkbox ui);
          Gui.ocr_engine := Gui.VStr (Gui.ocr_engine_combo ui);
          Gui.table_mode := Gui.VStr (Gui.table_mode_combo ui);
          Gui.verbosity := Gui.VInt (Gui.verbosity_spinbox ui);
          Gui.delete_pdfs := Gui.VBool (Gui.delete_pdfs_checkbox ui) |} in
     Gui.save_settings w self current_settings)
    any_Exception
    (fun e => emit (Log ERROR ("Failed to save settings: " ++ str_of_exn e))).

(** [DoclingGUI.closeEvent]; the result tells whether the event was
    accepted. *)
Definition closeEvent (w : Gui.write_outcome) (self : Gui.SettingsManager)
           (ui : Gui.Controls) : M Gui.file_state bool :=
  try_except
    (save_current_settings w self ui ;;
     mret true)
    any_Exception
    (fun e =>
       emit (Log ERROR ("Failed to save settings on close: " ++ str_of_exn e)) ;;
       mret true).

(** [DoclingGUI.__init__] with [init_ui]: the settings are loaded, the two
    line edits take the two folders of the settings, and the other widgets
    start as Qt and [_setup_options] make them: boxes unchecked, the first
    engine, [accurate], verbosity 0. The result is [current_settings] and
    the widgets. *)
Definition startup (env : Env) : M Gui.file_state (Gui.AppSettings * Gui.Controls) :=
  let settings_manager := Gui.SettingsManager_new env in
  current_settings ← Gui.load_settings settings_manager;
  input ← Gui.as_str (Gui.input_path current_settings);
  output ← Gui.as_str (Gui.output_path current_settings);
  mret (current_settings,
        {| Gui.input_path_edit := input;
           Gui.output_path_edit := output;
           Gui.ocr_checkbox := false;
           Gui.force_ocr_checkbox := false;
           Gui.delete_pdfs_checkbox := false;
           Gui.ocr_engine_combo := "easyocr";
           Gui.table_mode_combo := "accurate";
           Gui.verbosity_spinbox := 0 |}).

(** The window and the settings file together, and a computation on one
    of the two run on the pair. *)
Definition on_display {A} (m : M Gui.Display A) : M (Gui.Display * Gui.file_state) A :=
  fun s => let '(t, d, r) := m (fst s) in (t, (d, snd s), r).

Definition on_file {A} (m : M Gui.file_state A) : M (Gui.Display * Gui.file_state) A :=
  fun s => let '(t, f, r) := m (snd s) in (t, (fst s, f), r).

(** [DoclingGUI.reset_conversion] *)
Definition reset_conversion (w : Gui.write_outcome) (self : Gui.SettingsManager)
           (ui : Gui.Controls) : M (Gui.Display * Gui.file_state) unit :=
  try_except
    (on_display (Gui.progress_bar_setValue 0) ;;
     on_display (Gui.progress_info_setText "0/0 files processed") ;;
     on_display (Gui.status_label_setText "Ready to start conversion...") ;;
     on_display (Gui.run_button_setEnabled true) ;;
     on_display (Gui.run_button_setText "Run Conversion") ;;
     on_file (save_current_settings w self ui) ;;
     emit (MessageBoxInformation "Reset Complete"
             ("Conversion state has been reset." ++ Gui.LF
              ++ "You can now start a new conversion.")))
    any_Exception
    (fun e =>
       emit (Log ERROR ("Failed to reset conversion: " ++ str_of_exn e)) ;;
       emit (MessageBoxCritical "Error" ("Failed to reset conversion: " ++ str_of_exn e))).

End Session.

(** ** Further notions *)

(** The keys of the settings file. *)
Definition settings_keys : list str :=
  ["input_path" : str; "output_path" : str; "ocr_enabled" : str; "force_ocr" : str;
   "ocr_engine" : str; "table_mode" : str; "verbosity" : str; "delete_pdfs" : str].

(** A dialog shown to the user. *)
Definition is_dialog (ev : event) : bool :=
  match ev with
  | MessageBoxCritical _ _ | MessageBoxInformation _ _ => true
  | _ => false
  end.

(** The number of passes of the conversion loop that reached their end. *)
Definition passes_completed (tr : list event) : Z :=
  Z.of_nat (count_occ event_eq_dec tr ProcessEvents).

(** Every process of the trace was started after [os.makedirs] had made
    the folder its command names, as the word after [--output]. *)
Definition prepared (env : Env) (tr : list event) : Prop :=
  forall before cmd after,
    tr = before ++ SubprocessRun cmd :: after ->
    exists out,
      cmd !! 12%nat = Some ("--output" : str) /\ cmd !! 13%nat = Some out
      /\ In (Makedirs out) before /\ makedirs env out = None.

(** How often a word occurs in a command. *)
Definition occurrences (word : str) (cmd : list str) : nat :=
  length (List.filter (fun w => bool_decide (w = word)) cmd).

(** A command with each option once: the five options that take a value,
    and one of each pair of OCR switches. *)
Definition each_flag_once (cmd : list str) : Prop :=
  occurrences "--from" cmd = 1%nat /\ occurrences "--to" cmd = 1%nat
  /\ occurrences "--ocr-engine" cmd = 1%nat /\ occurrences "--table-mode" cmd = 1%nat
  /\ occurrences "--output" cmd = 1%nat
  /\ (occurrences "--ocr" cmd + occurrences "--no-ocr" cmd = 1)%nat
  /\ (occurrences "--force-ocr" cmd + occurrences "--no-force-ocr" cmd = 1)%nat.

Definition flags_once (ev : event) : Prop :=
  match ev with
  | SubprocessRun cmd => each_flag_once cmd
  | _ => True
  end.

(** The process of the worker of [main.py] for a file does not run to exit
    code 0. *)
Definition fails (env : Env) (self : Main.DoclingWorker) (file_path : pathlib.Path) : bool :=
  match spawn env (Main._build_docling_command self file_path) with
  | Ok p => negb (returncode p =? 0)
  | Raise _ => true
  end.

(** The messages of the error signals, in order. *)
Definition error_signals (tr : list event) : list str :=
  omap (fun ev => match ev with ErrorEmit msg => Some msg | _ => None end) tr.

(** An answer of the system about temporary directories: [mkdtemp] makes
    [/tmp/tmpdir] and [rmtree] removes what it is asked to. *)
Definition scenario_tempos : Window.TempOs :=
  {| Window.mkdtemp := Ok ("/tmp/tmpdir" : str); Window.rmtree := fun _ => None |}.


(** The words that are options of the command of [doclingGUI.py]. *)
Definition flag_words : list str :=
  ["--from" : str; "--to" : str; "--ocr-engine" : str; "--table-mode" : str;
   "--output" : str; "--ocr" : str; "--no-ocr" : str; "--force-ocr" : str;
   "--no-force-ocr" : str].

Definition is_flag (w : str) : bool :=
  existsb (fun flag => bool_decide (w = flag)) flag_words.

(** The options of a command, in order. *)
Definition keep_flags (cmd : list str) : list str := List.filter is_flag cmd.

(** The message of the error signal for a file whose process fails. *)
Definition failure_message (env : Env) (self : Main.DoclingWorker)
           (file_path : pathlib.Path) : str :=
  "Failed to process " ++ pathlib.name file_path ++ ": "
  ++ match spawn env (Main._build_docling_command self file_path) with
     | Ok p => "Docling failed: " ++ stderr p
     | Raise e => str_of_exn e
     end.

(** A window of [main.py] without the text of its progress label. *)
Definition unlabelled (w : Window.MainWindow) : Window.MainWindow :=
  Window.with_progress_label "" w.

(** A worker of [main.py] with another temporary directory. *)
Definition worker_with_temp_dir (temp : str) (self : Main.DoclingWorker) : Main.DoclingWorker :=
  {| Main.config :=
       {| Main.input_path := Main.input_path (Main.config self);
          Main.output_path := Main.output_path (Main.config self);
          Main.export_format := Main.export_format (Main.config self);
          Main.table_mode := Main.table_mode (Main.config self);
          Main.force_ocr := Main.force_ocr (Main.config self);
          Main.ocr_bitmaps := Main.ocr_bitmaps (Main.config self);
          Main.temp_dir := temp |};
     Main.is_cancelled := Main.is_cancelled self |}.

(** A window of [main.py] on which both folders were chosen. *)
Definition scenario_window : Window.MainWindow :=
  Window.with_output_path "/data/out" (Window.with_input_path "in" Window.new).

(** An answer of the system that cannot remove the temporary directory. *)
Definition scenario_tempos_busy : Window.TempOs :=
  {| Window.mkdtemp := Ok ("/tmp/tmpdir" : str);
     Window.rmtree := fun _ => Some ("Device or resource busy" : str) |}.

(** The settings that the widgets of [doclingGUI.py] show. *)
Definition widget_settings (ui : Gui.Controls) : Gui.AppSettings :=
  {| Gui.input_path := Gui.VStr (Py.strip (Gui.input_path_edit ui));
     Gui.output_path := Gui.VStr (Py.strip (Gui.output_path_edit ui));
     Gui.ocr_enabled := Gui.VBool (Gui.ocr_checkbox ui);
     Gui.force_ocr := Gui.VBool (Gui.force_ocr_checkbox ui);
     Gui.ocr_engine := Gui.VStr (Gui.ocr_engine_combo ui);
     Gui.table_mode := Gui.VStr (Gui.table_mode_combo ui);
     Gui.verbosity := Gui.VInt (Gui.verbosity_spinbox ui);
     Gui.delete_pdfs := Gui.VBool (Gui.delete_pdfs_checkbox ui) |}.

(** What [save_current_settings] logs when [save_settings] ends as [r]:
    the exception it let through, if any. *)
Definition unsaved_log (r : res unit) : list event :=
  match r with
  | Raise e => [Log ERROR ("Failed to save settings: " ++ str_of_exn e)]
  | Ok _ => []
  end.

(** The widgets of a window that opens on two folders. *)
Definition fresh_controls (input output : str) : Gui.Controls :=
  {| Gui.input_path_edit := input;
     Gui.output_path_edit := output;
     Gui.ocr_checkbox := false;
     Gui.force_ocr_checkbox := false;
     Gui.delete_pdfs_checkbox := false;
     Gui.ocr_engine_combo := "easyocr";
     Gui.table_mode_combo := "accurate";
     Gui.verbosity_spinbox := 0 |}.

(** * Properties *)

(** ** Strings *)

Lemma ascii_eqb_true (a b : ascii) : Ascii.eqb a b = true <-> a = b.
Proof. apply Ascii.eqb_eq. Qed.

Lemma startswith_spec (s prefix : str) :
  Py.startswith s prefix = true <-> exists rest, s = prefix ++ rest.
Proof.
  revert s. induction prefix as [|a prefix IH]; intros s; simpl.
  - split; [intros _; exists s; reflexivity | reflexivity].
  - destruct s as [|b s].
    + split; [discriminate | intros [rest H]; discriminate].
    + rewrite andb_true_iff, ascii_eqb_true, IH. split.
      * intros [-> [rest ->]]. exists rest. reflexivity.
      * intros [rest H]. injection H as -> ->. split; [reflexivity | eauto].
Qed.

Lemma endswith_spec (s suffix : str) :
  Py.endswith s suffix = true <-> exists front, s = front ++ suffix.
Proof.
  unfold Py.endswith. rewrite startswith_spec. split.
  - intros [rest H]. exists (rev rest).
    rewrite <- (rev_involutive s), H, rev_app_distr, rev_involutive. reflexivity.
  - intros [front ->]. exists (rev front). apply rev_app_distr.
Qed.

Lemma rfind_absent (s : str) (c : ascii) : ~ In c s -> Py.rfind s c = -1.
Proof.
  induction s as [|x s IH]; simpl; intros H; [reflexivity|].
  rewrite IH by tauto. simpl.
  destruct (Ascii.eqb x c) eqn:E; [|reflexivity].
  apply ascii_eqb_true in E. tauto.
Qed.


Lemma rfind_last (stem ext : str) (c : ascii) :
  ~ In c ext -> Py.rfind (stem ++ c :: ext) c = Py.len stem.
Proof.
  intros H. unfold Py.len. induction stem as [|x stem IH]; simpl app; simpl Py.rfind.
  - rewrite rfind_absent by assumption. simpl. rewrite Ascii.eqb_refl. reflexivity.
  - rewrite IH. simpl length.
    destruct (0 <=? Z.of_nat (length stem)) eqn:E; lia.
Qed.







(** ** Trees *)

Lemma node_ind' (P : Fs.node -> Prop) :
  (forall nm, P (Fs.File nm)) ->
  (forall nm, P (Fs.Special nm)) ->
  (forall nm es, Forall P es -> P (Fs.Dir nm es)) ->
  forall n, P n.
Proof.
  intros Hf Hs Hd. fix IH 1. intros [nm | nm | nm es].
  - apply Hf.
  - apply Hs.
  - apply Hd. induction es as [|e es IHes]; constructor; [apply IH | exact IHes].
Qed.





Lemma join_many_snoc (top : str) (rel : list str) (nm : str) :
  posixpath.join_many top (rel ++ [nm])
  = posixpath.join (posixpath.join_many top rel) nm.
Proof. unfold posixpath.join_many. rewrite fold_left_app. reflexivity. Qed.

Lemma in_pdf_files_here (top : str) (tree : list Fs.node) (p : str) :
  In p (map (posixpath.join top)
            (List.filter (fun file => Py.endswith (Py.lower file) ".pdf")
                         (Fs.filenames tree))) <->
  exists m, In m tree /\ Fs.is_dir m = false
            /\ Py.endswith (Py.lower (Fs.name m)) ".pdf" = true
            /\ p = posixpath.join top (Fs.name m).
Proof.
  unfold Fs.filenames. rewrite in_map_iff. split.
  - intros (file & <- & H). apply filter_In in H as [H Hpdf].
    apply in_map_iff in H as (m & <- & H). apply filter_In in H as [H Hd].
    apply negb_true_iff in Hd. exists m. tauto.
  - intros (m & Hin & Hd & Hpdf & ->). exists (Fs.name m). split; [reflexivity|].
    apply filter_In. split; [|exact Hpdf].
    apply in_map. apply filter_In. split; [exact Hin | rewrite Hd; reflexivity].
Qed.

Lemma walk_pdf_sound (tree : list Fs.node) :
  forall top p, In p (flat_map pick (Fs.walk top tree)) ->
    exists rel m, contains tree rel m /\ Fs.is_dir m = false
                  /\ Py.endswith (Py.lower (Fs.name m)) ".pdf" = true
                  /\ p = posixpath.join_many top (rel ++ [Fs.name m]).
Proof.
  assert (forall n top p, In p (flat_map pick (Fs.walk_node top n)) ->
            exists nm sub rel m, n = Fs.Dir nm sub /\ contains sub rel m
              /\ Fs.is_dir m = false
              /\ Py.endswith (Py.lower (Fs.name m)) ".pdf" = true
              /\ p = posixpath.join_many (posixpath.join top nm) (rel ++ [Fs.name m]))
    as Hnode.
  { induction n as [nm | nm | nm es IH] using node_ind'; intros top p;
      [simpl; tauto | simpl; tauto |].
    simpl flat_map. intros H. exists nm, es.
    apply in_app_or in H as [H | H].
    - apply in_pdf_files_here in H as (m & Hin & Hd & Hpdf & ->).
      exists [], m. repeat split; try assumption. constructor; exact Hin.
    - apply in_flat_map in H as (t & Ht & H).
      apply in_flat_map in Ht as (e & Hin & Ht).
      rewrite List.Forall_forall in IH.
      destruct (IH e Hin (posixpath.join top nm) p) as (nm' & sub' & rel & m & -> & Hc & Hd & Hpdf & ->).
      { apply in_flat_map. exists t. split; assumption. }
      exists (nm' :: rel), m. repeat split; try assumption.
      econstructor; eassumption. }
  intros top p H. unfold Fs.walk in H. simpl flat_map in H.
  apply in_app_or in H as [H | H].
  - apply in_pdf_files_here in H as (m & Hin & Hd & Hpdf & ->).
    exists [], m. repeat split; try assumption. constructor; exact Hin.
  - apply in_flat_map in H as (t & Ht & H).
    apply in_flat_map in Ht as (e & Hin & Ht).
    destruct (Hnode e top p) as (nm' & sub' & rel & m & -> & Hc & Hd & Hpdf & ->).
    { apply in_flat_map. exists t. split; assumption. }
    exists (nm' :: rel), m. repeat split; try assumption.
    econstructor; eassumption.
Qed.

Lemma walk_pdf_complete (tree : list Fs.node) (rel : list str) (m : Fs.node) :
  contains tree rel m ->
  Fs.is_dir m = false ->
  Py.endswith (Py.lower (Fs.name m)) ".pdf" = true ->
  forall top,
    In (posixpath.join_many top (rel ++ [Fs.name m])) (flat_map pick (Fs.walk top tree)).
Proof.
  intros Hc Hd Hpdf.
  induction Hc as [tree n Hin | tree d0 sub rel n Hin Hc IH]; intros top;
    unfold Fs.walk; simpl flat_map; apply in_or_app.
  - left. apply in_pdf_files_here. exists n. tauto.
  - right. specialize (IH Hd Hpdf (posixpath.join top d0)).
    apply in_flat_map in IH as (t & Ht & IH).
    apply in_flat_map. exists t. split; [|exact IH].
    apply in_flat_map. exists (Fs.Dir d0 sub). split; [exact Hin | exact Ht].
Qed.

(** What [_find_pdf_files] returns, as a set. *)
Lemma find_pdf_files_spec (env : Env) (folder p : str) :
  In p (Gui._find_pdf_files env folder) <->
  exists rel m, contains (listing env folder) rel m /\ Fs.is_dir m = false
                /\ Py.endswith (Py.lower (Fs.name m)) ".pdf" = true
                /\ p = posixpath.join_many folder (rel ++ [Fs.name m]).
Proof.
  unfold Gui._find_pdf_files. split.
  - intros H. apply walk_pdf_sound.
    erewrite flat_map_ext; [exact H|]. intros [[root dirs] files]. reflexivity.
  - intros (rel & m & Hc & Hd & Hpdf & ->).
    erewrite flat_map_ext; [apply (walk_pdf_complete _ _ _ Hc Hd Hpdf)|].
    intros [[root dirs] files]. reflexivity.
Qed.


(** ** Running computations *)

Arguments list_ascii_of_string : simpl never.

Lemma run_eta {S A} (x : list event * S * res A) : (trace x, state x, result x) = x.
Proof. destruct x as [[t s] r]. reflexivity. Qed.

Lemma run_bind {S A B} (m : M S A) (k : A -> M S B) (s : S) :
  (m ≫= k) s =
  match result (m s) with
  | Ok a => let y := k a (state (m s)) in (trace (m s) ++ trace y, state y, result y)
  | Raise e => (trace (m s), state (m s), Raise e)
  end.
Proof.
  unfold mbind, M_bind, bind, trace, state, result.
  destruct (m s) as [[t s'] [a | e]]; simpl; [|reflexivity].
  destruct (k a s') as [[t' s''] r]. reflexivity.
Qed.

Lemma run_try_finally {S A} (m : M S A) (final : M S unit) (s : S) :
  try_finally m final s =
  (trace (m s) ++ trace (final (state (m s))), state (final (state (m s))),
   match result (final (state (m s))) with
   | Ok _ => result (m s)
   | Raise e => Raise e
   end).
Proof.
  unfold try_finally, trace, state, result. destruct (m s) as [[t s'] r]. simpl.
  destruct (final s') as [[t' s''] r']. reflexivity.
Qed.

Lemma for_each_cons {S A} (x : A) (l : list A) (body : A -> M S unit) (s : S) :
  for_each (x :: l) body s =
  match result (body x s) with
  | Ok _ =>
      let y := for_each l body (state (body x s)) in
      (trace (body x s) ++ trace y, state y, result y)
  | Raise e => (trace (body x s), state (body x s), Raise e)
  end.
Proof.
  change (for_each (x :: l) body) with (body x ≫= fun _ => for_each l body).
  rewrite run_bind. destruct (result (body x s)); reflexivity.
Qed.

(** A property of the events of every pass holds of the events of the loop. *)
Lemma for_each_trace {S A} (Q : event -> Prop) (l : list A) (body : A -> M S unit) :
  (forall x s, In x l -> Forall Q (trace (body x s))) ->
  forall s, Forall Q (trace (for_each l body s)).
Proof.
  induction l as [|x l IH]; intros H s; [constructor|].
  rewrite for_each_cons.
  destruct (result (body x s)); cbn [trace fst].
  - apply Forall_app. split; [apply H; left; reflexivity|].
    apply IH. intros y s' Hy. apply H. right. exact Hy.
  - apply H. left. reflexivity.
Qed.

(** When the loop ends without an exception, so did every pass. *)
Lemma for_each_trace_ok {S A} (Q : event -> Prop) (l : list A) (body : A -> M S unit) :
  (forall x s, In x l -> result (body x s) = Ok tt -> Forall Q (trace (body x s))) ->
  forall s, result (for_each l body s) = Ok tt -> Forall Q (trace (for_each l body s)).
Proof.
  induction l as [|x l IH]; intros H s; [constructor|].
  rewrite for_each_cons.
  destruct (result (body x s)) as [[]|e] eqn:E; cbn [trace result fst snd].
  - intros Hr. apply Forall_app. split; [apply H; [left; reflexivity | exact E]|].
    apply IH; [|exact Hr]. intros y s' Hy. apply H. right. exact Hy.
  - discriminate.
Qed.

Lemma attempted_app (t1 t2 : list event) :
  attempted (t1 ++ t2) = attempted t1 ++ attempted t2.
Proof. apply omap_app. Qed.

Lemma removals_app (t1 t2 : list event) :
  removals (t1 ++ t2) = removals t1 ++ removals t2.
Proof. apply omap_app. Qed.

(** ** The conversion of [doclingGUI.py], pass by pass *)

Lemma build_command_run (ui : Gui.Controls) (pdf_file output_dir : str) (d : Gui.Display) :
  Gui.build_command (Gui.get_config ui) pdf_file output_dir d
  = ([], d, Ok (command_line ui pdf_file output_dir)).
Proof.
  unfold Gui.build_command, command_line, verbosity_argument, Gui.get_config.
  cbn [Gui.ocr_enabled Gui.force_ocr Gui.ocr_engine Gui.table_mode Gui.verbosity
       Gui.truthy Gui.join_item].
  unfold mbind, M_bind, bind, mret, M_ret, ret.
  destruct (Gui.ocr_checkbox ui), (Gui.force_ocr_checkbox ui);
    destruct (Py.truthy _); reflexivity.
Qed.


Lemma output_dir_of_run (env : Env) (ui : Gui.Controls) (pdf_file : str) (d : Gui.Display) :
  Gui.output_dir_of env (Gui.get_config ui) pdf_file d =
  match posixpath.relpath (getcwd env) pdf_file (Py.strip (Gui.input_path_edit ui)) with
  | Some r =>
      ([], d, Ok (posixpath.join (Py.strip (Gui.output_path_edit ui)) (posixpath.dirname r)))
  | None => ([], d, Raise (Exn ValueError "no path specified"))
  end.
Proof.
  unfold Gui.output_dir_of, Gui.get_config.
  cbn [Gui.input_path Gui.output_path Gui.as_str].
  unfold mbind, M_bind, bind, mret, M_ret, ret, raise.
  destruct (posixpath.relpath _ _ _); reflexivity.
Qed.

(** One pass of the loop, case by case. *)
Lemma convert_one_run (env : Env) (ui : Gui.Controls) (total index : Z)
      (pdf_file : str) (d : Gui.Display) :
  let d1 :=
    Gui.with_progress_info
      (Py.str_of_int index ++ "/" ++ Py.str_of_int total ++ " files processed")
      (Gui.with_status_label ("Processing: " ++ posixpath.basename pdf_file) d) in
  Gui.convert_one env (Gui.get_config ui) total (index, pdf_file) d =
  match posixpath.relpath (getcwd env) pdf_file (Py.strip (Gui.input_path_edit ui)) with
  | None => ([], d1, Raise (Exn ValueError "no path specified"))
  | Some r =>
      let out := posixpath.join (Py.strip (Gui.output_path_edit ui)) (posixpath.dirname r) in
      let cmd := command_line ui pdf_file out in
      match makedirs env out with
      | Some msg => ([Makedirs out], d1, Raise (Exn OSError msg))
      | None =>
          let pre :=
            [ Makedirs out;
              Log INFO ("Processing file " ++ Py.str_of_int index ++ "/"
                          ++ Py.str_of_int total ++ ": " ++ pdf_file);
              Log INFO ("Running command: " ++ Py.join " " cmd);
              SubprocessRun cmd ] in
          match spawn env cmd with
          | Ok p =>
              if returncode p =? 0 then
                (pre ++ completed_logs p ++ [ProcessEvents],
                 Gui.with_progress_bar_value index d1, Ok tt)
              else
                let msg := Gui.error_message_of (posixpath.basename pdf_file) p in
                (pre ++ [Log ERROR msg], d1, Raise (Exn RuntimeError msg))
          | Raise e => (pre, d1, Raise e)
          end
      end
  end.
Proof.
  intros d1. unfold Gui.convert_one.
  unfold Gui.status_label_setText, Gui.progress_info_setText, Gui.progress_bar_setValue.
  unfold mbind at 1 2 3, M_bind at 1 2 3, bind at 1 2 3, modify at 1 2.
  rewrite output_dir_of_run. fold d1.
  destruct (posixpath.relpath _ _ _) as [r|]; [|reflexivity].
  cbn zeta.
  unfold mbind at 1 2, M_bind at 1 2, bind at 1 2, emit at 1.
  destruct (makedirs env _) as [msg|]; [reflexivity|].
  unfold subprocess_run, completed_logs.
  unfold mbind, M_bind, bind, emit, mret, M_ret, ret, raise, modify.
  rewrite build_command_run.
  destruct (spawn env _) as [p|e]; [|reflexivity].
  destruct (returncode p =? 0); [|reflexivity].
  destruct (Py.truthy (stderr p)), (Py.truthy (stdout p)); reflexivity.
Qed.

Lemma conversion_try_run (env : Env) (config : Gui.AppSettings) (input : str)
      (d : Gui.Display) :
  Gui.input_path config = Gui.VStr input ->
  let files := Gui._find_pdf_files env input in
  let total := Z.of_nat (length files) in
  let d0 := Gui.with_run_button_text "Converting..."
              (Gui.with_run_button_enabled false d) in
  Gui.conversion_try env config d =
  if negb (Py.truthy files) then
    ([], d0, Raise (Exn RuntimeError "No PDF files found in the input folder"))
  else
    let x := for_each (enumerate files 1) (Gui.convert_one env config total)
               (Gui.with_progress_bar_value 0 (Gui.with_progress_bar_maximum total d0)) in
    match result x with
    | Raise e => (trace x, state x, Raise e)
    | Ok _ =>
        let y := if Gui.truthy (Gui.delete_pdfs config)
                 then Gui._delete_processed_pdfs env input
                        (Gui.with_status_label "Deleting processed PDF files..." (state x))
                 else ([], state x, Ok tt) in
        match result y with
        | Raise e => (trace x ++ trace y, state y, Raise e)
        | Ok _ =>
            (trace x ++ trace y,
             Gui.with_progress_info ("Processed " ++ Py.str_of_int total ++ " files")
               (Gui.with_status_label "Conversion completed successfully!" (state y)),
             Ok tt)
        end
    end.
Proof.
  intros Hin files total d0. unfold Gui.conversion_try.
  unfold Gui.run_button_setEnabled, Gui.run_button_setText, Gui.progress_bar_setMaximum,
    Gui.progress_bar_setValue, Gui.status_label_setText, Gui.progress_info_setText.
  rewrite Hin.
  unfold mbind, M_bind, bind, modify, Gui.as_str, mret, M_ret, ret, raise.
  fold files. fold total. fold d0.
  destruct (negb (Py.truthy files)); [reflexivity|].
  unfold trace, state, result.
  destruct (for_each _ _ _) as [[t1 s1] [[]|e1]]; [|reflexivity].
  cbn [fst snd].
  destruct (Gui.truthy (Gui.delete_pdfs config)).
  - destruct (Gui._delete_processed_pdfs _ _ _) as [[t2 s2] [[]|e2]]; cbn [fst snd app];
      rewrite ?app_nil_r; reflexivity.
  - cbn [fst snd app]. rewrite ?app_nil_r. reflexivity.
Qed.

Lemma process_conversion_run (env : Env) (config : Gui.AppSettings) (d : Gui.Display) :
  Gui._process_conversion env config d =
  let x := Gui.conversion_try env config d in
  (trace x, finish (state x), result x).
Proof.
  unfold Gui._process_conversion. rewrite run_try_finally.
  unfold Gui.run_button_setEnabled, Gui.run_button_setText.
  unfold mbind, M_bind, bind, modify, trace, state, result.
  destruct (Gui.conversion_try env config d) as [[t s] r]. cbn [fst snd].
  rewrite app_nil_r. reflexivity.
Qed.

(** ** The worker of [main.py], pass by pass *)

Lemma process_loop_cons (env : Env) (ui : nat -> bool) (i : nat)
      (file_path : pathlib.Path) (rest : list pathlib.Path) (w : Main.DoclingWorker) :
  Main.process_loop env ui i (file_path :: rest) w =
  let w1 := if ui i then Main.cancel w else w in
  if Main.is_cancelled w1 then
    ([Log INFO "Processing cancelled by user"], w1, Ok tt)
  else
    let y := Main.process_loop env ui (S i) rest w1 in
    (file_events env w1 file_path ++ trace y, state y, result y).
Proof.
  cbn [Main.process_loop]. unfold file_events, failure_events.
  unfold Main._process_single_file, subprocess_run, try_except.
  unfold mbind, M_bind, bind, modify, get, emit, mret, M_ret, ret, raise, any_Exception.
  unfold trace, state, result.
  destruct (ui i); cbn [fst snd Main.is_cancelled Main.cancel].
  - reflexivity.
  - destruct (Main.is_cancelled w); [reflexivity|].
    cbn [app].
    destruct (spawn env _) as [p|e].
    + destruct (returncode p =? 0); cbn [app];
        destruct (Main.process_loop env ui (S i) rest w) as [[t s] r]; reflexivity.
    + cbn [app].
      destruct (Main.process_loop env ui (S i) rest w) as [[t s] r]; reflexivity.
Qed.

Lemma file_events_not_finished (env : Env) (w : Main.DoclingWorker) (f : pathlib.Path) :
  Forall not_finished (file_events env w f).
Proof.
  unfold file_events, failure_events.
  destruct (spawn env _) as [p|e]; [destruct (returncode p =? 0)|];
    repeat constructor; discriminate.
Qed.

Lemma process_loop_total (env : Env) (ui : nat -> bool) (files : list pathlib.Path) :
  forall i w,
    result (Main.process_loop env ui i files w) = Ok tt
    /\ Forall not_finished (trace (Main.process_loop env ui i files w)).
Proof.
  induction files as [|f rest IH]; intros i w.
  - split; [reflexivity | constructor].
  - rewrite process_loop_cons. cbn zeta.
    destruct (Main.is_cancelled _).
    + split; [reflexivity|]. repeat constructor. discriminate.
    + destruct (IH (S i) (if ui i then Main.cancel w else w)) as [Hr Ht].
      split; [exact Hr|]. cbn [trace fst].
      apply Forall_app. split; [apply file_events_not_finished | exact Ht].
Qed.

Lemma build_docling_command_file (w : Main.DoclingWorker) (f : pathlib.Path) :
  Main._build_docling_command w f !! 1%nat = Some (pathlib.to_str f).
Proof.
  unfold Main._build_docling_command.
  destruct (Main.force_ocr _), (Main.ocr_bitmaps _); reflexivity.
Qed.

Lemma attempted_file_events (env : Env) (w : Main.DoclingWorker) (fs : list pathlib.Path) :
  attempted (flat_map (file_events env w) fs) = map pathlib.to_str fs.
Proof.
  induction fs as [|f fs IH]; [reflexivity|].
  cbn [flat_map map]. rewrite attempted_app, IH. f_equal.
  unfold file_events, failure_events, attempted.
  destruct (spawn env _) as [p|e]; [destruct (returncode p =? 0)|];
    cbn [omap list_omap]; rewrite build_docling_command_file; reflexivity.
Qed.

Lemma converted_file_events (env : Env) (w : Main.DoclingWorker) (fs : list pathlib.Path) :
  (forall f, In f fs ->
     exists p, spawn env (Main._build_docling_command w f) = Ok p /\ returncode p = 0) ->
  converted env (flat_map (file_events env w) fs) = map pathlib.to_str fs.
Proof.
  induction fs as [|f fs IH]; intros H; [reflexivity|].
  cbn [flat_map map]. unfold converted in *. rewrite omap_app, IH.
  - f_equal. unfold file_events.
    destruct (H f (or_introl eq_refl)) as (p & Hp & Hrc).
    cbn [omap list_omap]. rewrite Hp, Hrc. cbn [Z.eqb omap list_omap].
    rewrite build_docling_command_file. reflexivity.
  - intros g Hg. apply H. right. exact Hg.
Qed.

(** The loop when the window's thread calls [cancel] between pass [k-1]
    and pass [k]: the first [k] files are handled, then the loop ends by
    its cancellation branch. *)
Lemma process_loop_cancelled (env : Env) (ui : nat -> bool) (k : nat) :
  forall (files : list pathlib.Path) (i : nat) (w : Main.DoclingWorker),
    Main.is_cancelled w = false ->
    (k < length files)%nat ->
    (forall j, (j < k)%nat -> ui (i + j)%nat = false) ->
    ui (i + k)%nat = true ->
    Main.process_loop env ui i files w
    = (flat_map (file_events env w) (take k files)
         ++ [Log INFO "Processing cancelled by user"],
       Main.cancel w, Ok tt).
Proof.
  induction k as [|k IH]; intros files i w Hw Hlen Hbefore Hat;
    (destruct files as [|f rest]; [simpl in Hlen; lia|]);
    rewrite process_loop_cons; cbn zeta.
  - rewrite Nat.add_0_r in Hat. rewrite Hat. reflexivity.
  - pose proof (Hbefore 0%nat ltac:(lia)) as H0. rewrite Nat.add_0_r in H0.
    rewrite H0, Hw.
    rewrite (IH rest (S i) w Hw).
    + cbn [trace state result fst snd take flat_map]. rewrite app_assoc. reflexivity.
    + simpl in Hlen. lia.
    + intros j Hj. replace (S i + j)%nat with (i + S j)%nat by lia. apply Hbefore. lia.
    + replace (S i + k)%nat with (i + S k)%nat by lia. exact Hat.
Qed.

(** ** The scan of [main.py] *)

(** [get_files_to_process], case by case: it never raises; it returns the
    kept entries among those the scan gets through, and logs the refusal
    that ended the scan, if one did. *)
Lemma get_files_run {S} (env : Env) (directory : pathlib.Path) (tree : list Fs.node)
      (s : S) :
  Main.get_files_to_process env directory tree s =
  (match refusal env (pathlib.rglob directory tree) with
   | Some msg => [Log ERROR ("Error scanning directory: " ++ msg)]
   | None => []
   end,
   s,
   Ok (map fst
         (List.filter (fun e => Fs.is_file (snd e) && Main.is_valid_file (fst e))
                      (reached env (pathlib.rglob directory tree))))).
Proof.
  unfold Main.get_files_to_process.
  match goal with |- context [for_each _ ?b] => set (body := b) end.
  assert (forall entries files0,
             for_each entries body files0 =
             ([], files0 ++ map fst
                    (List.filter
                       (fun e => Fs.is_file (snd e) && Main.is_valid_file (fst e))
                       (reached env entries)),
              match refusal env entries with
              | Some msg => Raise (Exn PermissionError msg)
              | None => Ok tt
              end)) as Hloop.
  { induction entries as [|[p n] entries IH]; intros files0.
    - cbn [reached refusal List.filter map]. rewrite app_nil_r. reflexivity.
    - rewrite for_each_cons. cbn [reached refusal fst].
      assert (body (p, n) files0 =
              match stat_denied env (pathlib.to_str p) with
              | Some msg => ([], files0, Raise (Exn PermissionError msg))
              | None =>
                  ([], if Fs.is_file n && Main.is_valid_file p
                       then files0 ++ [p] else files0, Ok tt)
              end) as ->.
      { unfold body, path_is_file.
        unfold mbind, M_bind, bind, mret, M_ret, ret, raise, modify.
        destruct (stat_denied env _); [reflexivity|].
        destruct (Fs.is_file n && Main.is_valid_file p); reflexivity. }
      destruct (stat_denied env (pathlib.to_str p)) as [msg|].
      + cbn [result trace state fst snd List.filter map]. rewrite app_nil_r. reflexivity.
      + cbn [result trace state fst snd]. cbn zeta. rewrite IH.
        cbn [result trace state fst snd List.filter map app].
        destruct (Fs.is_file n && Main.is_valid_file p); cbn [map fst];
          rewrite <- ?app_assoc; reflexivity. }
  unfold with_local, try_except. rewrite Hloop.
  destruct (refusal env _); reflexivity.
Qed.

Lemma discovered_eq (env : Env) (input : str) :
  discovered env input
  = map fst
      (List.filter (fun e => Fs.is_file (snd e) && Main.is_valid_file (fst e))
                   (reached env (pathlib.rglob (pathlib.of_str input)
                                               (listing env input)))).
Proof. unfold discovered. rewrite get_files_run. reflexivity. Qed.

Lemma scan_log_eq (env : Env) (input : str) :
  scan_log env input
  = match refusal env (pathlib.rglob (pathlib.of_str input) (listing env input)) with
    | Some msg => [Log ERROR ("Error scanning directory: " ++ msg)]
    | None => []
    end.
Proof. unfold scan_log. rewrite get_files_run. reflexivity. Qed.

Lemma get_files_run_worker {S} (env : Env) (input : str) (s : S) :
  Main.get_files_to_process env (pathlib.of_str input) (listing env input) s
  = (scan_log env input, s, Ok (discovered env input)).
Proof. rewrite get_files_run, scan_log_eq, discovered_eq. reflexivity. Qed.

Lemma scan_log_not_finished (env : Env) (input : str) :
  Forall not_finished (scan_log env input).
Proof.
  rewrite scan_log_eq. destruct (refusal env _); repeat constructor. discriminate.
Qed.

Lemma attempted_scan_log (env : Env) (input : str) : attempted (scan_log env input) = [].
Proof. rewrite scan_log_eq. destruct (refusal env _); reflexivity. Qed.

Lemma converted_scan_log (env : Env) (input : str) :
  converted env (scan_log env input) = [].
Proof. rewrite scan_log_eq. destruct (refusal env _); reflexivity. Qed.






Lemma main_run_eq (env : Env) (ui : nat -> bool) (w : Main.DoclingWorker) :
  let input := Main.input_path (Main.config w) in
  let x := Main.process_loop env ui 0 (discovered env input) w in
  Main.run env ui w = (scan_log env input ++ trace x ++ [FinishedEmit], state x, Ok tt).
Proof.
  intros input x. unfold Main.run. rewrite run_try_finally.
  assert (Main._process_files env ui w = (scan_log env input ++ trace x, state x, result x))
    as Hx.
  { unfold Main._process_files. rewrite run_bind.
    unfold get. cbn [result trace state fst snd]. cbv beta zeta.
    rewrite run_bind. fold input. rewrite get_files_run_worker.
    cbn [result trace state fst snd app]. reflexivity. }
  unfold try_except. rewrite Hx.
  destruct (process_loop_total env ui (discovered env input) 0%nat w) as [Hr _].
  fold x in Hr. rewrite Hr. cbn [trace state result fst snd].
  rewrite <- app_assoc. reflexivity.
Qed.

(** ** Cancellation, empty discovery and completion *)

(** C4: when the window's thread calls [cancel] after the worker has
    started its [k]-th file and before it reads the flag for the next one,
    the worker hands exactly the first [k] discovered files to the
    converter (all [k] converted when their processes exit with code 0),
    leaves the loop by its cancellation branch with the flag set, and
    finishes. *)
Theorem C4_cancellation (env : Env) (ui : nat -> bool) (config : Main.ProcessingConfig)
        (k : nat) :
  let files := discovered env (Main.input_path config) in
  (k < length files)%nat ->
  (forall j, (j < k)%nat -> ui j = false) ->
  ui k = true ->
  let x := Main.run env ui (Main.new config) in
  attempted (trace x) = map pathlib.to_str (take k files)
  /\ length (attempted (trace x)) = k
  /\ trace x = scan_log env (Main.input_path config)
                 ++ flat_map (file_events env (Main.new config)) (take k files)
                 ++ [Log INFO "Processing cancelled by user"; FinishedEmit]
  /\ Main.is_cancelled (state x) = true
  /\ result x = Ok tt
  /\ ((forall f, In f (take k files) ->
         exists p, spawn env (Main._build_docling_command (Main.new config) f) = Ok p
                   /\ returncode p = 0) ->
      converted env (trace x) = map pathlib.to_str (take k files)).
Proof.
  intros files Hk Hbefore Hat x.
  assert (x = (scan_log env (Main.input_path config)
                 ++ flat_map (file_events env (Main.new config)) (take k files)
                 ++ [Log INFO "Processing cancelled by user"; FinishedEmit],
               Main.cancel (Main.new config), Ok tt)) as ->.
  { unfold x. rewrite main_run_eq. cbn zeta. cbn [Main.config Main.new]. fold files.
    rewrite (process_loop_cancelled env ui k files 0%nat (Main.new config));
      [|reflexivity | exact Hk | exact Hbefore | exact Hat].
    cbn [trace state fst snd]. rewrite <- !app_assoc. reflexivity. }
  cbn [trace state result fst snd].
  assert (attempted (scan_log env (Main.input_path config)
                       ++ flat_map (file_events env (Main.new config)) (take k files)
                       ++ [Log INFO "Processing cancelled by user"; FinishedEmit])
          = map pathlib.to_str (take k files)) as Ha.
  { rewrite !attempted_app, attempted_scan_log, attempted_file_events. apply app_nil_r. }
  rewrite Ha. repeat split.
  - rewrite length_map, length_take. lia.
  - intros Hall. unfold converted. rewrite !omap_app.
    fold (converted env (scan_log env (Main.input_path config))).
    fold (converted env (flat_map (file_events env (Main.new config)) (take k files))).
    rewrite converted_scan_log, (converted_file_events env _ _ Hall). apply app_nil_r.
Qed.

Lemma C4_cancellation_witness :
  let x := Main.run (scenario_env scenario_tree spawn_ok) (fun j => Nat.leb 1 j)
                    (Main.new scenario_config) in
  attempted (trace x) = ["in/a.pdf" : str]
  /\ length (attempted (trace x)) = 1%nat
  /\ trace x = file_events (scenario_env scenario_tree spawn_ok)
                           (Main.new scenario_config) (pathlib.of_str "in/a.pdf")
                 ++ [Log INFO "Processing cancelled by user"; FinishedEmit]
  /\ Main.is_cancelled (state x) = true
  /\ result x = Ok tt
  /\ ((forall f, In f [pathlib.of_str "in/a.pdf"] ->
         exists p, spawn (scenario_env scenario_tree spawn_ok)
                     (Main._build_docling_command (Main.new scenario_config) f) = Ok p
                   /\ returncode p = 0) ->
      converted (scenario_env scenario_tree spawn_ok) (trace x) = ["in/a.pdf" : str]).
Proof.
  apply (C4_cancellation (scenario_env scenario_tree spawn_ok) (fun j => Nat.leb 1 j)
                         scenario_config 1%nat).
  - vm_compute. lia.
  - intros j Hj. destruct j; [reflexivity | lia].
  - reflexivity.
Defined.

(** C5, as stated, fails on the worker of [main.py]: over a folder in
    which nothing is discovered the run ends normally, with the finished
    signal and no error. *)
Lemma C5_worker_silent_on_empty :
  discovered (scenario_env [] spawn_ok) (Main.input_path scenario_config) = []
  /\ Main.run (scenario_env [] spawn_ok) (fun _ => false) (Main.new scenario_config)
     = ([FinishedEmit], Main.new scenario_config, Ok tt).
Proof. split; reflexivity. Qed.

(** C5 (amended): in [doclingGUI.py], when no PDF file is found under the
    input folder the conversion raises "No PDF files found in the input
    folder" before anything is done for a file: no event at all (no
    process, no directory, no removal), the status and progress widgets
    as they were, and the run button given back. *)
Theorem C5_no_pdf_files (env : Env) (ui : Gui.Controls) (d : Gui.Display) :
  Gui._find_pdf_files env (Py.strip (Gui.input_path_edit ui)) = [] ->
  Gui._process_conversion env (Gui.get_config ui) d
  = ([],
     Gui.with_run_button_text "Run Conversion" (Gui.with_run_button_enabled true d),
     Raise (Exn RuntimeError "No PDF files found in the input folder")).
Proof.
  intros H. rewrite process_conversion_run. cbn zeta.
  rewrite (conversion_try_run env (Gui.get_config ui) (Py.strip (Gui.input_path_edit ui)))
    by reflexivity.
  cbn zeta. rewrite H. reflexivity.
Qed.

Lemma C5_no_pdf_files_witness :
  Gui._process_conversion (scenario_env [Fs.File "b.docx"] spawn_ok)
                          (Gui.get_config (scenario_controls 0 false)) Gui.initial_display
  = ([], Gui.initial_display,
     Raise (Exn RuntimeError "No PDF files found in the input folder")).
Proof.
  apply (C5_no_pdf_files (scenario_env [Fs.File "b.docx"] spawn_ok)
                         (scenario_controls 0 false) Gui.initial_display).
  reflexivity.
Defined.

(** Whatever happens in a run, the worker of [main.py] emits [finished]
    exactly once, as its last event. *)
Lemma worker_finishes_once (env : Env) (ui : nat -> bool) (w : Main.DoclingWorker) :
  exists tr,
    trace (Main.run env ui w) = tr ++ [FinishedEmit]
    /\ Forall not_finished tr
    /\ count_occ event_eq_dec (trace (Main.run env ui w)) FinishedEmit = 1%nat.
Proof.
  rewrite main_run_eq. cbn zeta. cbn [trace fst]. rewrite app_assoc.
  eexists. split; [reflexivity|].
  destruct (process_loop_total env ui
              (discovered env (Main.input_path (Main.config w))) 0%nat w) as [_ Hn].
  pose proof (scan_log_not_finished env (Main.input_path (Main.config w))) as Hs.
  assert (Forall not_finished
            (scan_log env (Main.input_path (Main.config w))
               ++ trace (Main.process_loop env ui 0
                           (discovered env (Main.input_path (Main.config w))) w)))
    as Hall by (apply Forall_app; split; assumption).
  split; [exact Hall|].
  rewrite count_occ_app. cbn [count_occ].
  destruct (event_eq_dec FinishedEmit FinishedEmit) as [_|Hne]; [|congruence].
  rewrite (proj1 (count_occ_not_In _ _ _)); [reflexivity|].
  intros Hin. rewrite List.Forall_forall in Hall. exact (Hall _ Hin eq_refl).
Qed.

(** The [finally] block of [_process_conversion] leaves the run button
    enabled with its label "Run Conversion", whatever the outcome. *)
Lemma run_button_given_back (env : Env) (config : Gui.AppSettings) (d : Gui.Display) :
  Gui.run_button_enabled (state (Gui._process_conversion env config d)) = true
  /\ Gui.run_button_text (state (Gui._process_conversion env config d))
     = "Run Conversion".
Proof. rewrite process_conversion_run. split; reflexivity. Qed.

(** ** The command line and the verbosity argument *)

(** C6 (the code at its failing input): with the verbosity spin box at 2,
    whatever the other widgets hold, the command ends in the single word
    [-v-v], not in the two words [-v] [-v]. *)
Theorem C6_verbosity_two_is_one_word :
  forall (input output engine mode pdf_file output_dir : str) (ocr force delete : bool)
         (d : Gui.Display),
    let ui :=
      {| Gui.input_path_edit := input; Gui.output_path_edit := output;
         Gui.ocr_checkbox := ocr; Gui.force_ocr_checkbox := force;
         Gui.delete_pdfs_checkbox := delete; Gui.ocr_engine_combo := engine;
         Gui.table_mode_combo := mode; Gui.verbosity_spinbox := 2 |} in
    Gui.verbosity (Gui.get_config ui) = Gui.VStr "-v-v"
    /\ Gui.build_command (Gui.get_config ui) pdf_file output_dir d
       = ([], d,
          Ok [ "docling" : str; pdf_file; "--from" : str; "pdf" : str; "--to" : str;
               "md" : str;
               (if ocr then "--ocr" else "--no-ocr") : str;
               (if force then "--force-ocr" else "--no-force-ocr") : str;
               "--ocr-engine" : str; engine; "--table-mode" : str; mode;
               "--output" : str; output_dir; "-v-v" : str ]).
Proof.
  intros. split; [reflexivity|]. rewrite build_command_run. reflexivity.
Qed.

(** Levels 0 and 1 are as the specification has them: no word, and the
    one word [-v]. *)
Lemma verbosity_argument_0_1 (ui : Gui.Controls) (pdf_file output_dir : str) :
  (Gui.verbosity_spinbox ui = 0 ->
   command_line ui pdf_file output_dir
   = take 14 (command_line ui pdf_file output_dir))
  /\ (Gui.verbosity_spinbox ui = 1 ->
      drop 14 (command_line ui pdf_file output_dir) = ["-v" : str]).
Proof.
  unfold command_line, verbosity_argument.
  split; intros ->; reflexivity.
Qed.

(** ** Settings *)

Ltac key_ne := let H := fresh in intros H; vm_compute in H; discriminate H.

Lemma settings_dict_lookup (s : Gui.AppSettings) :
  Gui.settings_dict s !! ("input_path" : str) = Some (Gui.input_path s)
  /\ Gui.settings_dict s !! ("output_path" : str) = Some (Gui.output_path s)
  /\ Gui.settings_dict s !! ("ocr_enabled" : str) = Some (Gui.ocr_enabled s)
  /\ Gui.settings_dict s !! ("force_ocr" : str) = Some (Gui.force_ocr s)
  /\ Gui.settings_dict s !! ("ocr_engine" : str) = Some (Gui.ocr_engine s)
  /\ Gui.settings_dict s !! ("table_mode" : str) = Some (Gui.table_mode s)
  /\ Gui.settings_dict s !! ("verbosity" : str) = Some (Gui.verbosity s)
  /\ Gui.settings_dict s !! ("delete_pdfs" : str) = Some (Gui.delete_pdfs s).
Proof.
  unfold Gui.settings_dict.
  repeat split;
    repeat (first [ apply lookup_insert_eq
                  | rewrite lookup_insert_ne by key_ne ]).
Qed.

(** Loading a file that holds a JSON object: every field is the value of
    its key, or the default when the key is missing. *)
Lemma load_settings_object (self : Gui.SettingsManager) (m : gmap str Gui.value) :
  Gui.load_settings self (Gui.Json (Gui.VDict m))
  = ([], Gui.Json (Gui.VDict m),
     Ok (let d := Gui.default_settings self in
         {| Gui.input_path := default (Gui.input_path d) (m !! ("input_path" : str));
            Gui.output_path := default (Gui.output_path d) (m !! ("output_path" : str));
            Gui.ocr_enabled := default (Gui.ocr_enabled d) (m !! ("ocr_enabled" : str));
            Gui.force_ocr := default (Gui.force_ocr d) (m !! ("force_ocr" : str));
            Gui.ocr_engine := default (Gui.ocr_engine d) (m !! ("ocr_engine" : str));
            Gui.table_mode := default (Gui.table_mode d) (m !! ("table_mode" : str));
            Gui.verbosity := default (Gui.verbosity d) (m !! ("verbosity" : str));
            Gui.delete_pdfs := default (Gui.delete_pdfs d) (m !! ("delete_pdfs" : str)) |})).
Proof. reflexivity. Qed.

(** The three cases the handler of [load_settings] covers: no file, a file
    that cannot be read, text that is not JSON. *)
Lemma load_settings_defaults (self : Gui.SettingsManager) (msg : str) :
  Gui.load_settings self Gui.Absent = ([], Gui.Absent, Ok (Gui.default_settings self))
  /\ result (Gui.load_settings self (Gui.Unreadable msg)) = Ok (Gui.default_settings self)
  /\ result (Gui.load_settings self (Gui.NotJson msg)) = Ok (Gui.default_settings self).
Proof. repeat split. Qed.

Lemma load_settings_missing_keys (self : Gui.SettingsManager) :
  result (Gui.load_settings self (Gui.Json (Gui.VDict ∅)))
  = Ok (Gui.default_settings self).
Proof.
  rewrite load_settings_object. cbn [result snd]. rewrite !lookup_empty.
  destruct (Gui.default_settings self). reflexivity.
Qed.

(** C7: a well-typed settings value that [save_settings] wrote is what
    [load_settings] returns from the file. *)
Theorem C7_settings_round_trip (self : Gui.SettingsManager) (s : Gui.AppSettings)
        (file : Gui.file_state) :
  Gui.well_typed s ->
  let saved := Gui.save_settings Gui.Written self s file in
  saved = ([], Gui.Json (Gui.VDict (Gui.settings_dict s)), Ok tt)
  /\ Gui.load_settings self (state saved) = ([], state saved, Ok s).
Proof.
  intros _ saved. split; [reflexivity|].
  unfold saved. cbn [Gui.save_settings state fst snd].
  change (state _) with (Gui.Json (Gui.VDict (Gui.settings_dict s))).
  rewrite load_settings_object.
  destruct (settings_dict_lookup s) as (H1 & H2 & H3 & H4 & H5 & H6 & H7 & H8).
  cbn zeta. rewrite H1, H2, H3, H4, H5, H6, H7, H8.
  destruct s. reflexivity.
Qed.

Lemma C7_settings_round_trip_witness :
  let self := Gui.SettingsManager_new (scenario_env scenario_tree spawn_ok) in
  let s := Gui.get_config (scenario_controls 0 true) in
  let s := {| Gui.input_path := Gui.input_path s; Gui.output_path := Gui.output_path s;
              Gui.ocr_enabled := Gui.ocr_enabled s; Gui.force_ocr := Gui.force_ocr s;
              Gui.ocr_engine := Gui.ocr_engine s; Gui.table_mode := Gui.table_mode s;
              Gui.verbosity := Gui.VInt 2; Gui.delete_pdfs := Gui.delete_pdfs s |} in
  let saved := Gui.save_settings Gui.Written self s (Gui.NotJson "Expecting value") in
  saved = ([], Gui.Json (Gui.VDict (Gui.settings_dict s)), Ok tt)
  /\ Gui.load_settings self (state saved) = ([], state saved, Ok s).
Proof.
  intros self s0 s.
  apply (C7_settings_round_trip self s (Gui.NotJson "Expecting value")).
  unfold Gui.well_typed. repeat split; eexists; reflexivity.
Defined.

(** C8 (the code at its failing input): a settings file that holds JSON
    which is not an object, here the empty array, makes [load_settings]
    raise [AttributeError]; so does a file whose bytes are not text. *)
Theorem C8_load_settings_raises (self : Gui.SettingsManager) (msg : str) :
  Gui.load_settings self (Gui.Json (Gui.VList []))
  = ([], Gui.Json (Gui.VList []),
     Raise (Exn AttributeError "'list' object has no attribute 'get'"))
  /\ Gui.load_settings self (Gui.Undecodable msg)
     = ([], Gui.Undecodable msg, Raise (Exn UnicodeDecodeError msg)).
Proof. split; reflexivity. Qed.

(** ** Abort on the first failure *)


Lemma enumerate_snd {A} (l : list A) (start : Z) : map snd (enumerate l start) = l.
Proof.
  revert start. induction l as [|x l IH]; intros start; [reflexivity|].
  cbn [enumerate map snd]. rewrite IH. reflexivity.
Qed.

Lemma in_enumerate {A} (l : list A) (start : Z) (item : Z * A) :
  In item (enumerate l start) -> In (snd item) l.
Proof. intros H. rewrite <- (enumerate_snd l start). apply in_map. exact H. Qed.


Lemma join_nonempty (a b : str) : a <> [] -> posixpath.join a b <> [].
Proof.
  intros Ha. unfold posixpath.join.
  destruct (Py.startswith b [posixpath.sep]) eqn:E.
  - apply startswith_spec in E as [rest ->]. discriminate.
  - destruct (_ || _); destruct a; try congruence; discriminate.
Qed.

Lemma join_many_nonempty (a : str) (l : list str) :
  a <> [] -> posixpath.join_many a l <> [].
Proof.
  revert a. induction l as [|b l IH]; intros a Ha; [exact Ha|].
  apply (IH (posixpath.join a b)). apply join_nonempty. exact Ha.
Qed.







(** ** Deleting the sources *)

Lemma for_each_pure {S A} (ev : A -> list event) (body : A -> M S unit) :
  (forall x s, body x s = (ev x, s, Ok tt)) ->
  forall l s, for_each l body s = (flat_map ev l, s, Ok tt).
Proof.
  intros H. induction l as [|x l IH]; intros s; [reflexivity|].
  rewrite for_each_cons, H. cbn [result snd]. cbn zeta. rewrite IH. reflexivity.
Qed.

Lemma flat_map_pick (env : Env) (root : str) (files : list str) :
  flat_map (fun file =>
              if Py.endswith (Py.lower file) ".pdf"
              then removal_events env (posixpath.join root file) else [])
           files
  = flat_map (removal_events env)
      (map (posixpath.join root)
           (List.filter (fun file => Py.endswith (Py.lower file) ".pdf") files)).
Proof.
  induction files as [|file files IH]; [reflexivity|].
  cbn [flat_map List.filter]. destruct (Py.endswith _ _).
  - cbn [map flat_map]. rewrite IH. reflexivity.
  - exact IH.
Qed.

(** [_delete_processed_pdfs] never raises: it calls [os.remove] on the
    files [_find_pdf_files] selects, in the same order, and logs each
    outcome. *)
Lemma delete_processed_pdfs_run (env : Env) (folder : str) (d : Gui.Display) :
  Gui._delete_processed_pdfs env folder d
  = (flat_map (removal_events env) (Gui._find_pdf_files env folder), d, Ok tt).
Proof.
  unfold Gui._delete_processed_pdfs, Gui._find_pdf_files.
  rewrite (for_each_pure
             (fun t : str * list str * list str =>
                flat_map (removal_events env) (pick t))).
  - f_equal. f_equal. generalize (Fs.walk folder (listing env folder)).
    induction l as [|[[root dirs] files] l IH]; [reflexivity|].
    cbn [flat_map]. rewrite List.flat_map_app, IH. reflexivity.
  - intros [[root dirs] files] s.
    rewrite (for_each_pure
               (fun file =>
                  if Py.endswith (Py.lower file) ".pdf"
                  then removal_events env (posixpath.join root file) else [])).
    + rewrite flat_map_pick. reflexivity.
    + intros file s'. destruct (Py.endswith _ _); [|reflexivity].
      unfold removal_events, mbind, M_bind, bind, emit.
      destruct (unlink env _); reflexivity.
Qed.

Lemma removals_removal_events (env : Env) (l : list str) :
  removals (flat_map (removal_events env) l) = l.
Proof.
  induction l as [|p l IH]; [reflexivity|].
  cbn [flat_map]. rewrite removals_app, IH.
  unfold removal_events, removals. destruct (unlink env p); reflexivity.
Qed.

Lemma removal_failure_logged (env : Env) (l : list str) (p e : str) :
  In (Remove p) (flat_map (removal_events env) l) ->
  unlink env p = Some e ->
  In (Log ERROR ("Failed to delete PDF " ++ p ++ ": " ++ e))
     (flat_map (removal_events env) l).
Proof.
  intros H Hu. apply in_flat_map in H as (q & Hq & H).
  apply in_flat_map. exists q. split; [exact Hq|].
  unfold removal_events in *. destruct H as [H | [H | []]].
  - injection H as ->. rewrite Hu. right. left. reflexivity.
  - destruct (unlink env q); discriminate.
Qed.

Lemma removals_none (tr : list event) : Forall not_removal tr -> removals tr = [].
Proof.
  induction 1 as [|ev tr Hev _ IH]; [reflexivity|].
  destruct ev; try exact IH. destruct Hev.
Qed.

Lemma not_removal_in (tr : list event) (p : str) :
  Forall not_removal tr -> ~ In (Remove p) tr.
Proof. intros H Hin. rewrite List.Forall_forall in H. exact (H _ Hin). Qed.

(** One pass of the conversion loop removes nothing; when it ends without
    an exception its process ran to exit code 0. *)
Lemma convert_one_facts (env : Env) (ui : Gui.Controls) (total : Z) (item : Z * str)
      (d : Gui.Display) :
  let y := Gui.convert_one env (Gui.get_config ui) total item d in
  Forall not_removal (trace y)
  /\ (result y = Ok tt ->
      Forall (spawned_ok env) (trace y) /\ attempted (trace y) = [snd item]).
Proof.
  destruct item as [index f]. cbn zeta. rewrite convert_one_run. cbn zeta.
  destruct (posixpath.relpath _ _ _) as [r|];
    [|split; [constructor | discriminate]].
  destruct (makedirs env _) as [msg|];
    [split; [repeat constructor | discriminate]|].
  destruct (spawn env _) as [p|e] eqn:Es;
    [|split; [repeat constructor | discriminate]].
  destruct (returncode p =? 0) eqn:Erc;
    [|split; [repeat constructor | discriminate]].
  apply Z.eqb_eq in Erc. unfold completed_logs. cbn [trace result fst snd].
  destruct (Py.truthy (stderr p)), (Py.truthy (stdout p));
    (split; [repeat constructor | intros _; split; [|reflexivity]]);
    repeat constructor; exists p; split; assumption.
Qed.

Lemma for_each_attempted {S A} (file_of : A -> str) (body : A -> M S unit) (l : list A) :
  (forall x s, In x l -> result (body x s) = Ok tt ->
               attempted (trace (body x s)) = [file_of x]) ->
  forall s, result (for_each l body s) = Ok tt ->
            attempted (trace (for_each l body s)) = map file_of l.
Proof.
  induction l as [|x l IH]; intros H s; [reflexivity|].
  rewrite for_each_cons.
  destruct (result (body x s)) as [[]|e] eqn:E; cbn [trace result fst snd];
    [|discriminate].
  intros Hr. rewrite attempted_app, (H x s (or_introl eq_refl) E). cbn [map app].
  f_equal. apply IH; [|exact Hr]. intros y s' Hy. apply H. right. exact Hy.
Qed.

(** The whole of [_process_conversion], case by case. *)
Lemma process_conversion_cases (env : Env) (ui : Gui.Controls) (d : Gui.Display) :
  let files := Gui._find_pdf_files env (Py.strip (Gui.input_path_edit ui)) in
  let total := Z.of_nat (length files) in
  let d0 := Gui.with_run_button_text "Converting..."
              (Gui.with_run_button_enabled false d) in
  let loop := for_each (enumerate files 1)
                (Gui.convert_one env (Gui.get_config ui) total)
                (Gui.with_progress_bar_value 0 (Gui.with_progress_bar_maximum total d0)) in
  Gui._process_conversion env (Gui.get_config ui) d =
  if negb (Py.truthy files) then
    ([], finish d0, Raise (Exn RuntimeError "No PDF files found in the input folder"))
  else
    match result loop with
    | Raise e => (trace loop, finish (state loop), Raise e)
    | Ok _ =>
        (trace loop
           ++ (if Gui.delete_pdfs_checkbox ui
               then flat_map (removal_events env) files else []),
         finish
           (Gui.with_progress_info ("Processed " ++ Py.str_of_int total ++ " files")
              (Gui.with_status_label "Conversion completed successfully!"
                 (if Gui.delete_pdfs_checkbox ui
                  then Gui.with_status_label "Deleting processed PDF files..." (state loop)
                  else state loop))),
         Ok tt)
    end.
Proof.
  intros files total d0 loop.
  rewrite process_conversion_run. cbn zeta.
  rewrite (conversion_try_run env (Gui.get_config ui) (Py.strip (Gui.input_path_edit ui)))
    by reflexivity.
  cbn zeta. fold files. fold total. fold d0. fold loop.
  destruct (negb (Py.truthy files)); [reflexivity|].
  destruct (result loop) as [[]|e]; [|reflexivity].
  cbn [Gui.get_config Gui.delete_pdfs Gui.truthy].
  destruct (Gui.delete_pdfs_checkbox ui); [|reflexivity].
  rewrite delete_processed_pdfs_run. reflexivity.
Qed.

Lemma conversion_loop_facts (env : Env) (ui : Gui.Controls) (total : Z) (files : list str)
      (s : Gui.Display) :
  let loop := for_each (enumerate files 1)
                (Gui.convert_one env (Gui.get_config ui) total) s in
  Forall not_removal (trace loop)
  /\ (result loop = Ok tt ->
      Forall (spawned_ok env) (trace loop) /\ attempted (trace loop) = files).
Proof.
  intros loop. split; [|intros Hr; split].
  - apply for_each_trace. intros item s' _.
    apply (convert_one_facts env ui total item s').
  - apply for_each_trace_ok; [|exact Hr]. intros item s' _ Hok.
    apply (convert_one_facts env ui total item s'). exact Hok.
  - unfold loop. rewrite (for_each_attempted snd); [apply enumerate_snd | | exact Hr].
    intros item s' _ Hok.
    apply (convert_one_facts env ui total item s'). exact Hok.
Qed.

Lemma spawned_ok_removal_events (env : Env) (l : list str) :
  Forall (spawned_ok env) (flat_map (removal_events env) l).
Proof.
  induction l as [|p l IH]; [constructor|].
  cbn [flat_map]. apply Forall_app. split; [|exact IH].
  unfold removal_events. destruct (unlink env p); repeat constructor.
Qed.

Lemma attempted_removal_events (env : Env) (l : list str) :
  attempted (flat_map (removal_events env) l) = [].
Proof.
  induction l as [|p l IH]; [reflexivity|].
  cbn [flat_map]. rewrite attempted_app, IH.
  unfold removal_events. destruct (unlink env p); reflexivity.
Qed.

(** C9: in [doclingGUI.py] [os.remove] is called only when the delete box
    is ticked and every discovered file was converted by a process that
    exited with code 0, and then on exactly the discovered files; a
    conversion that raises removes nothing; what [os.remove] answers never
    changes the result of the run, and each removal that fails is
    logged. *)
Theorem C9_deletion (env : Env) (ui : Gui.Controls) (d : Gui.Display) :
  let files := Gui._find_pdf_files env (Py.strip (Gui.input_path_edit ui)) in
  let x := Gui._process_conversion env (Gui.get_config ui) d in
  (removals (trace x) <> [] ->
   Gui.delete_pdfs_checkbox ui = true
   /\ result x = Ok tt
   /\ attempted (trace x) = files
   /\ Forall (spawned_ok env) (trace x)
   /\ removals (trace x) = files)
  /\ (Gui.delete_pdfs_checkbox ui = false -> removals (trace x) = [])
  /\ (forall e, result x = Raise e -> removals (trace x) = [])
  /\ (forall u,
        result (Gui._process_conversion (with_unlink env u) (Gui.get_config ui) d)
        = result x)
  /\ (forall p e,
        In (Remove p) (trace x) -> unlink env p = Some e ->
        In (Log ERROR ("Failed to delete PDF " ++ p ++ ": " ++ e)) (trace x)).
Proof.
  intros files x.
  assert (forall u,
             result (Gui._process_conversion (with_unlink env u) (Gui.get_config ui) d)
             = result x) as Hu.
  { intros u. unfold x. rewrite !process_conversion_cases. cbn zeta.
    change (Gui._find_pdf_files (with_unlink env u)) with (Gui._find_pdf_files env).
    change (Gui.convert_one (with_unlink env u)) with (Gui.convert_one env).
    fold files. destruct (negb (Py.truthy files)); [reflexivity|].
    destruct (result (for_each _ _ _)) as [[]|e]; reflexivity. }
  unfold x in *. clear x. rewrite process_conversion_cases in *. cbn zeta in *.
  fold files in Hu |- *.
  destruct (negb (Py.truthy files)).
  { cbn [trace result fst snd removals omap list_omap].
    repeat split; try congruence; try reflexivity; try exact Hu.
    intros p e []. }
  match goal with
  | |- context [for_each ?l ?body ?s] =>
      destruct (conversion_loop_facts env ui (Z.of_nat (length files)) files s)
        as [Hnr Hok]
  end.
  cbn zeta in Hnr, Hok.
  destruct (result (for_each _ _ _)) as [[]|e0].
  - destruct (Hok eq_refl) as [Hsp Hat]. cbn [trace result fst snd].
    rewrite removals_app, (removals_none _ Hnr), attempted_app, Hat. cbn [app].
    destruct (Gui.delete_pdfs_checkbox ui).
    + rewrite removals_removal_events.
      repeat split; try congruence; try exact Hu.
      * rewrite attempted_removal_events. apply app_nil_r.
      * apply Forall_app. split; [exact Hsp | apply spawned_ok_removal_events].
      * intros p e Hin Hun. apply in_app_or in Hin as [Hin | Hin].
        -- exfalso. exact (not_removal_in _ p Hnr Hin).
        -- apply in_or_app. right. apply removal_failure_logged; assumption.
    + rewrite !app_nil_r. cbn [removals omap list_omap].
      repeat split; try congruence; try exact Hu.
      intros p e Hin. exfalso. exact (not_removal_in _ p Hnr Hin).
  - cbn [trace result fst snd]. rewrite (removals_none _ Hnr).
    repeat split; try congruence; try exact Hu.
    intros p e Hin. exfalso. exact (not_removal_in _ p Hnr Hin).
Qed.

Lemma C9_deletion_witness :
  let env := scenario_env [Fs.File "a.pdf"; Fs.File "b.pdf"] spawn_ok in
  let x := Gui._process_conversion env (Gui.get_config (scenario_controls 0 true))
                                   Gui.initial_display in
  Gui.delete_pdfs_checkbox (scenario_controls 0 true) = true
  /\ result x = Ok tt
  /\ attempted (trace x) = ["in/a.pdf" : str; "in/b.pdf" : str]
  /\ Forall (spawned_ok env) (trace x)
  /\ removals (trace x) = ["in/a.pdf" : str; "in/b.pdf" : str].
Proof.
  intros env.
  apply (proj1 (C9_deletion env (scenario_controls 0 true) Gui.initial_display)).
  vm_compute. discriminate.
Defined.

(** ** Paths *)

Lemma split_nonempty (s : str) (c : ascii) : Py.split s c <> [].
Proof.
  destruct s as [|x s]; simpl; [discriminate|].
  destruct (Ascii.eqb x c); [discriminate|]. destruct (Py.split s c); discriminate.
Qed.

Lemma split_app_sep (a b : str) (c : ascii) :
  Py.split (a ++ c :: b) c = Py.split a c ++ Py.split b c.
Proof.
  induction a as [|x a IH]; cbn [app Py.split].
  - rewrite Ascii.eqb_refl. reflexivity.
  - rewrite IH. destruct (Ascii.eqb x c); [reflexivity|].
    pose proof (split_nonempty a c). destruct (Py.split a c); [congruence | reflexivity].
Qed.

Lemma split_absent (s : str) (c : ascii) : ~ In c s -> Py.split s c = [s].
Proof.
  induction s as [|x s IH]; intros H; [reflexivity|].
  cbn [Py.split]. destruct (Ascii.eqb x c) eqn:E.
  - apply Ascii.eqb_eq in E. subst. exfalso. apply H. left. reflexivity.
  - rewrite IH; [reflexivity|]. intros Hin. apply H. right. exact Hin.
Qed.

Lemma split_free (s : str) (c : ascii) : Forall (fun w => ~ In c w) (Py.split s c).
Proof.
  induction s as [|x s IH]; cbn [Py.split].
  - repeat constructor. intros [].
  - destruct (Ascii.eqb x c) eqn:E.
    + constructor; [intros [] | exact IH].
    + destruct (Py.split s c) as [|w ws]; [repeat constructor|].
      * intros [-> | []]. rewrite Ascii.eqb_refl in E. discriminate.
      * inversion IH as [|? ? Hw Hws]; subst. constructor; [|exact Hws].
        intros [-> | Hin]; [rewrite Ascii.eqb_refl in E; discriminate | exact (Hw Hin)].
Qed.

Lemma split_join (comps : list str) (c : ascii) :
  comps <> [] -> Forall (fun w => ~ In c w) comps ->
  Py.split (Py.join [c] comps) c = comps.
Proof.
  induction comps as [|p rest IH]; intros Hne Hfree; [congruence|].
  inversion Hfree as [|? ? Hp Hrest]; subst.
  destruct rest as [|q rest].
  - cbn [Py.join]. apply split_absent. exact Hp.
  - change (Py.join [c] (p :: q :: rest)) with (p ++ c :: Py.join [c] (q :: rest)).
    rewrite split_app_sep, (split_absent p c Hp), IH; [reflexivity | discriminate | exact Hrest].
Qed.

Lemma entry_name_b_spec (c : str) : entry_name_b c = true -> entry_name c.
Proof.
  unfold entry_name_b, entry_name. rewrite !andb_true_iff, !negb_true_iff.
  intros [[[Ht He] Hd] Hdd].
  apply bool_decide_eq_false in Hd, Hdd.
  split; [destruct c; [discriminate | congruence]|]. split; [|tauto].
  intros Hin. apply not_true_iff_false in He. apply He.
  apply existsb_exists. exists posixpath.sep. split; [exact Hin | apply Ascii.eqb_refl].
Qed.

Lemma entry_not_absolute (c : str) :
  entry_name c -> Py.startswith c [posixpath.sep] = false.
Proof.
  intros (_ & Hs & _). apply not_true_iff_false. intros H.
  apply startswith_spec in H as [rest ->]. apply Hs. left. reflexivity.
Qed.

Lemma endswith_sep_spec (a : str) :
  Py.endswith a [posixpath.sep] = true <-> exists a', a = a' ++ [posixpath.sep].
Proof. apply endswith_spec. Qed.

Lemma endswith_app (pre a : str) (c : ascii) :
  a <> [] -> Py.endswith (pre ++ a) [c] = Py.endswith a [c].
Proof.
  intros Ha. unfold Py.endswith. rewrite rev_app_distr.
  destruct (rev a) as [|x r] eqn:E.
  - apply (f_equal (@rev ascii)) in E. rewrite rev_involutive in E. simpl in E. congruence.
  - reflexivity.
Qed.

(** [join] onto a non-empty path, for an entry name. *)
Lemma join_entry (a c : str) :
  a <> [] -> entry_name c ->
  posixpath.join a c
  = if Py.endswith a [posixpath.sep] then a ++ c else a ++ [posixpath.sep] ++ c.
Proof.
  intros Ha Hc. unfold posixpath.join. rewrite (entry_not_absolute c Hc).
  destruct a; [congruence|]. reflexivity.
Qed.

Lemma normpath_step_empty (i : Z) (st : list str) : posixpath.normpath_step i st [] = st.
Proof. reflexivity. Qed.

Lemma normpath_step_entry (i : Z) (st : list str) (c : str) :
  entry_name c -> posixpath.normpath_step i st c = st ++ [c].
Proof.
  intros (Hne & _ & Hd & Hdd). unfold posixpath.normpath_step.
  rewrite (bool_decide_eq_false_2 (c = [])) by exact Hne.
  rewrite (bool_decide_eq_false_2 (c = ".")) by exact Hd.
  rewrite (bool_decide_eq_false_2 (c = "..")) by exact Hdd.
  reflexivity.
Qed.

Lemma normpath_step_slashes (i : Z) : i <> 0 ->
  posixpath.normpath_step i = posixpath.normpath_step 1.
Proof.
  intros Hi. unfold posixpath.normpath_step.
  apply Z.eqb_neq in Hi. rewrite Hi. reflexivity.
Qed.

Lemma kept_join (a c : str) :
  a <> [] -> entry_name c -> kept (posixpath.join a c) = kept a ++ [c].
Proof.
  intros Ha Hc. rewrite (join_entry a c Ha Hc). unfold kept.
  destruct Hc as (Hne & Hs & Hd) eqn:Ec. clear Ec.
  destruct (Py.endswith a [posixpath.sep]) eqn:E.
  - apply endswith_sep_spec in E as [a' ->].
    rewrite <- app_assoc. cbn [app].
    rewrite !split_app_sep, (split_absent c _ Hs). cbn [Py.split].
    rewrite !fold_left_app. cbn [fold_left].
    rewrite normpath_step_empty. apply normpath_step_entry. repeat split; tauto.
  - cbn [app]. rewrite split_app_sep, (split_absent c _ Hs), fold_left_app.
    cbn [fold_left]. apply normpath_step_entry. repeat split; tauto.
Qed.

Lemma absolute_join (cwd a c : str) :
  a <> [] -> entry_name c ->
  absolute cwd (posixpath.join a c) = posixpath.join (absolute cwd a) c.
Proof.
  intros Ha Hc. unfold absolute.
  assert (Py.startswith (posixpath.join a c) [posixpath.sep]
          = Py.startswith a [posixpath.sep]) as ->.
  { rewrite (join_entry a c Ha Hc). destruct a as [|x a]; [congruence|].
    destruct (Py.endswith _ _); reflexivity. }
  destruct (Py.startswith a [posixpath.sep]) eqn:Es; [reflexivity|].
  rewrite (join_entry a c Ha Hc).
  unfold posixpath.join at 1 3. rewrite Es.
  assert (Py.startswith (if Py.endswith a [posixpath.sep] then a ++ c
                         else a ++ [posixpath.sep] ++ c) [posixpath.sep] = false) as ->.
  { destruct a as [|x a]; [congruence|]. destruct (Py.endswith _ _); exact Es. }
  destruct (negb (Py.truthy cwd) || Py.endswith cwd [posixpath.sep]).
  - rewrite join_entry; [|destruct cwd, a; try congruence; discriminate | exact Hc].
    rewrite (endswith_app cwd a _ Ha).
    destruct (Py.endswith a [posixpath.sep]); rewrite <- ?app_assoc; reflexivity.
  - rewrite join_entry; [|destruct cwd; discriminate | exact Hc].
    rewrite (endswith_app cwd ([posixpath.sep] ++ a)) by discriminate.
    rewrite (endswith_app [posixpath.sep] a _ Ha).
    destruct (Py.endswith a [posixpath.sep]); rewrite <- ?app_assoc; reflexivity.
Qed.

Lemma absolute_starts (cwd a : str) :
  Py.startswith cwd [posixpath.sep] = true ->
  Py.startswith (absolute cwd a) [posixpath.sep] = true.
Proof.
  intros Hc. unfold absolute.
  destruct (Py.startswith a [posixpath.sep]) eqn:Es; [exact Es|].
  unfold posixpath.join. rewrite Es.
  apply startswith_spec in Hc as [rest ->].
  destruct (_ || _); reflexivity.
Qed.

Lemma kept_join_many (a : str) (comps : list str) :
  a <> [] -> Forall entry_name comps ->
  kept (posixpath.join_many a comps) = kept a ++ comps.
Proof.
  intros Ha H. revert a Ha. induction H as [|c comps Hc _ IH]; intros a Ha.
  - symmetry. apply app_nil_r.
  - change (posixpath.join_many a (c :: comps))
      with (posixpath.join_many (posixpath.join a c) comps).
    rewrite IH by (apply join_nonempty; exact Ha).
    rewrite (kept_join a c Ha Hc), <- app_assoc. reflexivity.
Qed.

Lemma absolute_join_many (cwd a : str) (comps : list str) :
  a <> [] -> Forall entry_name comps ->
  absolute cwd (posixpath.join_many a comps) = posixpath.join_many (absolute cwd a) comps.
Proof.
  intros Ha H. revert a Ha. induction H as [|c comps Hc _ IH]; intros a Ha; [reflexivity|].
  change (posixpath.join_many a (c :: comps))
    with (posixpath.join_many (posixpath.join a c) comps).
  rewrite IH by (apply join_nonempty; exact Ha).
  rewrite (absolute_join cwd a c Ha Hc). reflexivity.
Qed.

Lemma Forall_removelast {A} (P : A -> Prop) (l : list A) :
  Forall P l -> Forall P (removelast l).
Proof.
  induction 1 as [|x l Hx Hl IH]; [constructor|].
  cbn [removelast]. destruct l; [constructor|]. constructor; assumption.
Qed.

Lemma normpath_steps_plain (i : Z) (comps st : list str) :
  Forall plain st -> Forall (fun w => ~ In posixpath.sep w) comps ->
  Forall plain (fold_left (posixpath.normpath_step i) comps st).
Proof.
  intros Hst Hc. revert st Hst. induction Hc as [|c comps Hc _ IH]; intros st Hst;
    [exact Hst|].
  cbn [fold_left]. apply IH. unfold posixpath.normpath_step.
  destruct (bool_decide (c = [])) eqn:E; [exact Hst|].
  apply bool_decide_eq_false in E. cbn [orb].
  destruct (bool_decide (c = ".")); [exact Hst|].
  destruct (_ || _).
  - apply Forall_app. split; [exact Hst|]. repeat constructor; assumption.
  - apply Forall_removelast. exact Hst.
Qed.

Lemma kept_plain (path : str) : Forall plain (kept path).
Proof. apply normpath_steps_plain; [constructor | apply split_free]. Qed.

Lemma filter_truthy_plain (l : list str) :
  Forall plain l -> List.filter Py.truthy l = l.
Proof.
  induction 1 as [|w l [Hw _] _ IH]; [reflexivity|].
  cbn [List.filter]. destruct w; [congruence|]. cbn [Py.truthy]. rewrite IH. reflexivity.
Qed.

Lemma components_join (l : list str) :
  Forall plain l -> posixpath.components (Py.join [posixpath.sep] l) = l.
Proof.
  intros H. unfold posixpath.components. destruct l as [|w l]; [reflexivity|].
  rewrite split_join; [apply filter_truthy_plain; exact H | discriminate|].
  eapply Forall_impl; [exact H|]. intros a [_ Ha]. exact Ha.
Qed.

Lemma components_sep (s : str) :
  posixpath.components (posixpath.sep :: s) = posixpath.components s.
Proof.
  unfold posixpath.components. cbn [Py.split]. rewrite Ascii.eqb_refl. reflexivity.
Qed.

(** The components of a normalised absolute path are the names kept. *)
Lemma components_normpath (path : str) :
  Py.startswith path [posixpath.sep] = true ->
  posixpath.components (posixpath.normpath path) = kept path.
Proof.
  intros H. unfold posixpath.normpath.
  apply startswith_spec in H as [rest ->]. cbn [app Py.truthy negb].
  change (Py.startswith (posixpath.sep :: rest) [posixpath.sep]) with true. cbv iota.
  set (q := posixpath.sep :: rest).
  destruct (Py.startswith q [posixpath.sep; posixpath.sep]
            && negb (Py.startswith q [posixpath.sep; posixpath.sep; posixpath.sep])).
  - rewrite (normpath_step_slashes 2) by lia. fold (kept q).
    change (Py.repeat_str [posixpath.sep] 2) with [posixpath.sep; posixpath.sep].
    cbn [app Py.truthy]. rewrite !components_sep. apply components_join, kept_plain.
  - fold (kept q).
    change (Py.repeat_str [posixpath.sep] 1) with [posixpath.sep].
    cbn [app Py.truthy]. rewrite !components_sep. apply components_join, kept_plain.
Qed.

Lemma common_len_app (l1 l2 : list str) : posixpath.common_len l1 (l1 ++ l2) = length l1.
Proof.
  induction l1 as [|a l1 IH]; [destruct l2; reflexivity|].
  cbn [app posixpath.common_len length]. rewrite bool_decide_eq_true_2 by reflexivity.
  rewrite IH. reflexivity.
Qed.

(** [relpath] of a path reached from [start] through entry names gives
    those names back. *)
Lemma relpath_below (cwd start : str) (c : str) (comps : list str) :
  start <> [] ->
  Py.startswith cwd [posixpath.sep] = true ->
  Forall entry_name (c :: comps) ->
  posixpath.relpath cwd (posixpath.join_many start (c :: comps)) start
  = Some (posixpath.join_many c comps).
Proof.
  intros Hs Hcwd Hnames. unfold posixpath.relpath.
  pose proof (join_many_nonempty start (c :: comps) Hs) as Hne.
  destruct (posixpath.join_many start (c :: comps)) as [|x p] eqn:Ep; [congruence|].
  cbn [Py.truthy negb]. rewrite <- Ep. clear Hne.
  unfold posixpath.abspath. fold (absolute cwd start).
  fold (absolute cwd (posixpath.join_many start (c :: comps))).
  rewrite (absolute_join_many cwd start (c :: comps) Hs Hnames).
  rewrite !components_normpath.
  - rewrite kept_join_many; [|intros E; pose proof (absolute_starts cwd start Hcwd) as H;
                               rewrite E in H; discriminate | exact Hnames].
    rewrite common_len_app, Nat.sub_diag, drop_app_length. reflexivity.
  - assert (Py.startswith (posixpath.join_many (absolute cwd start) (c :: comps))
                          [posixpath.sep] = true) as H.
    { rewrite <- absolute_join_many by assumption. apply absolute_starts. exact Hcwd. }
    exact H.
  - apply absolute_starts. exact Hcwd.
Qed.

Lemma join_snoc (sep : str) (l : list str) (x : str) :
  l <> [] -> Py.join sep (l ++ [x]) = Py.join sep l ++ sep ++ x.
Proof.
  induction l as [|p l IH]; intros Hne; [congruence|].
  destruct l as [|q l]; [reflexivity|].
  change (Py.join sep ((p :: q :: l) ++ [x]))
    with (p ++ sep ++ Py.join sep ((q :: l) ++ [x])).
  rewrite IH by discriminate.
  change (Py.join sep (p :: q :: l)) with (p ++ sep ++ Py.join sep (q :: l)).
  rewrite <- !app_assoc. reflexivity.
Qed.

Lemma plain_not_endswith (w : str) :
  ~ In posixpath.sep w -> Py.endswith w [posixpath.sep] = false.
Proof.
  intros H. apply not_true_iff_false. intros E.
  apply endswith_sep_spec in E as [a' ->]. apply H, in_or_app. right. left. reflexivity.
Qed.

Lemma join_plain_end (l : list str) :
  l <> [] -> Forall plain l ->
  Py.join [posixpath.sep] l <> [] /\ Py.endswith (Py.join [posixpath.sep] l) [posixpath.sep] = false.
Proof.
  induction l as [|p l IH]; intros Hne H; [congruence|].
  inversion H as [|? ? [Hp Hs] Hl]; subst.
  destruct l as [|q l].
  - cbn [Py.join]. split; [exact Hp | apply plain_not_endswith; exact Hs].
  - change (Py.join [posixpath.sep] (p :: q :: l))
      with (p ++ [posixpath.sep] ++ Py.join [posixpath.sep] (q :: l)).
    destruct (IH ltac:(discriminate) Hl) as [Hj He].
    split; [destruct p; discriminate|].
    rewrite app_assoc, endswith_app by exact Hj. exact He.
Qed.

Lemma entry_plain (c : str) : entry_name c -> plain c.
Proof. intros (H1 & H2 & _). split; assumption. Qed.

(** Joining entry names one by one is joining them with slashes. *)
Lemma join_many_names (c : str) (comps : list str) :
  Forall entry_name (c :: comps) ->
  posixpath.join_many c comps = Py.join [posixpath.sep] (c :: comps).
Proof.
  induction comps as [|x comps IH] using rev_ind; intros H; [reflexivity|].
  rewrite app_comm_cons in H. apply Forall_app in H as [Hl Hx].
  inversion Hx as [|? ? Hx' _]; subst.
  rewrite join_many_snoc, (IH Hl).
  rewrite app_comm_cons, join_snoc by discriminate.
  destruct (join_plain_end (c :: comps)) as [Hne He];
    [discriminate | eapply Forall_impl; [exact Hl | exact entry_plain] |].
  rewrite (join_entry _ x Hne Hx'), He. reflexivity.
Qed.

Lemma all_sep_repeat (n : Z) (c : ascii) : In c (Py.repeat_str [posixpath.sep] n) -> c = posixpath.sep.
Proof.
  unfold Py.repeat_str. generalize (Z.to_nat n). intros k.
  induction k as [|k IH]; cbn [replicate concat]; [intros []|].
  intros [<- | H]; [reflexivity | exact (IH H)].
Qed.

(** The directory part of a relative path made of entry names. *)
Lemma dirname_names (rel : list str) (nm : str) :
  Forall entry_name (rel ++ [nm]) ->
  posixpath.dirname (Py.join [posixpath.sep] (rel ++ [nm])) = Py.join [posixpath.sep] rel.
Proof.
  intros H. apply Forall_app in H as [Hrel Hnm].
  inversion Hnm as [|? ? (Hne & Hs & _) _]; subst.
  unfold posixpath.dirname.
  destruct rel as [|c rel].
  - cbn [app Py.join]. rewrite (rfind_absent nm _ Hs). reflexivity.
  - rewrite join_snoc by discriminate. set (J := Py.join [posixpath.sep] (c :: rel)).
    change (J ++ [posixpath.sep] ++ nm) with (J ++ posixpath.sep :: nm).
    rewrite (rfind_last J nm _ Hs).
    unfold Py.slice_to, Py.len.
    replace (Z.to_nat (Z.of_nat (length J) + 1)) with (length (J ++ [posixpath.sep]))
      by (rewrite length_app; simpl; lia).
    replace (J ++ posixpath.sep :: nm) with ((J ++ [posixpath.sep]) ++ nm)
      by (rewrite <- app_assoc; reflexivity).
    rewrite take_app_length.
    assert (exists w ws, rev (c :: rel) = w :: ws /\ plain w) as (w & ws & Hrev & Hw).
    { destruct (rev (c :: rel)) as [|w ws] eqn:E.
      - apply (f_equal (@rev str)) in E. rewrite rev_involutive in E. discriminate.
      - exists w, ws. split; [reflexivity|]. apply entry_plain.
        rewrite List.Forall_forall in Hrel. apply Hrel. apply in_rev. rewrite E. left. reflexivity. }
    inversion Hrel as [|? ? Hc _]; subst. destruct Hc as (Hcne & Hcs & _).
    assert (bool_decide (J ++ [posixpath.sep]
                         = Py.repeat_str [posixpath.sep] (Z.of_nat (length (J ++ [posixpath.sep]))))
            = false) as ->.
    { apply bool_decide_eq_false. intros E.
      destruct c as [|x c]; [congruence|].
      assert (In x (J ++ [posixpath.sep])) as Hin.
      { unfold J. destruct rel; cbn [Py.join app]; left; reflexivity. }
      rewrite E in Hin. apply all_sep_repeat in Hin. subst x. apply Hcs. left. reflexivity. }
    assert (Py.truthy (J ++ [posixpath.sep]) = true) as -> by (destruct J; reflexivity).
    cbn [andb negb]. unfold Py.rstrip. rewrite rev_app_distr. cbn [rev app Py.lstrip].
    rewrite Ascii.eqb_refl.
    destruct (join_plain_end (c :: rel)) as [HJ HJe];
      [discriminate | eapply Forall_impl; [exact Hrel | exact entry_plain] |].
    fold J in HJ, HJe. unfold Py.endswith in HJe.
    destruct (rev J) as [|y r] eqn:EJ.
    + apply (f_equal (@rev ascii)) in EJ. rewrite rev_involutive in EJ. simpl in EJ. congruence.
    + cbn [Py.startswith rev app] in HJe. cbn [Py.lstrip].
      rewrite andb_true_r in HJe. rewrite Ascii.eqb_sym, HJe.
      rewrite <- EJ. apply rev_involutive.
Qed.

(** ** The output folder of a file *)

Lemma tree_ok_contains (tree : list Fs.node) (rel : list str) (m : Fs.node) :
  tree_ok tree = true -> contains tree rel m -> Forall entry_name (rel ++ [Fs.name m]).
Proof.
  intros Hok Hc. induction Hc as [tree n Hin | tree d0 sub rel n Hin Hc IH].
  - unfold tree_ok in Hok. rewrite forallb_forall in Hok. specialize (Hok n Hin).
    constructor; [|constructor]. apply entry_name_b_spec.
    destruct n; cbn [node_ok Fs.name] in *; apply andb_true_iff in Hok as [H _]; exact H.
  - unfold tree_ok in Hok. rewrite forallb_forall in Hok. specialize (Hok _ Hin).
    cbn [node_ok Fs.name] in Hok. apply andb_true_iff in Hok as [Hd Hsub].
    cbn [app]. constructor; [apply entry_name_b_spec; exact Hd | apply IH; exact Hsub].
Qed.

Lemma join_has_sep (a b : str) : a <> [] -> In posixpath.sep (posixpath.join a b).
Proof.
  intros Ha. unfold posixpath.join.
  destruct (Py.startswith b [posixpath.sep]) eqn:Eb.
  - apply startswith_spec in Eb as [rest ->]. left. reflexivity.
  - destruct a as [|x a]; [congruence|]. cbn [Py.truthy negb orb].
    destruct (Py.endswith (x :: a) [posixpath.sep]) eqn:Ee.
    + apply endswith_sep_spec in Ee as [a' ->].
      apply in_or_app. left. apply in_or_app. right. left. reflexivity.
    + apply in_or_app. right. left. reflexivity.
Qed.

(** What the loop computes for a discovered file: the folders the file
    lies under, below the output folder. *)
Lemma output_dir_mirrors (cwd input : str) (rel : list str) (nm : str) :
  input <> [] ->
  Py.startswith cwd [posixpath.sep] = true ->
  Forall entry_name (rel ++ [nm]) ->
  exists r,
    posixpath.relpath cwd (posixpath.join_many input (rel ++ [nm])) input = Some r
    /\ posixpath.dirname r = Py.join [posixpath.sep] rel.
Proof.
  intros Hin Hcwd Hnames.
  destruct (rel ++ [nm]) as [|c comps] eqn:E; [destruct rel; discriminate|].
  exists (posixpath.join_many c comps). split.
  - apply relpath_below; assumption.
  - rewrite (join_many_names c comps Hnames), <- E. apply dirname_names.
    rewrite E. exact Hnames.
Qed.

Lemma argument_of_output (ui : Gui.Controls) (f out : str) :
  In posixpath.sep f -> Gui.controls_valid ui ->
  argument_of "--output" (command_line ui f out) = Some out.
Proof.
  intros Hf (He & Hm & _). unfold command_line.
  assert (f <> "--output") as Hf'.
  { intros ->. vm_compute in Hf. intuition discriminate. }
  assert (Gui.ocr_engine_combo ui <> "--output") as He'.
  { intros E. rewrite E in He. vm_compute in He. intuition discriminate. }
  assert (Gui.table_mode_combo ui <> "--output") as Hm'.
  { intros E. rewrite E in Hm. vm_compute in Hm. intuition discriminate. }
  destruct (Gui.ocr_checkbox ui), (Gui.force_ocr_checkbox ui);
    cbn [app argument_of];
    repeat (rewrite bool_decide_eq_false_2 by first [assumption | key_ne]);
    rewrite bool_decide_eq_true_2 by reflexivity; reflexivity.
Qed.

Lemma spawned_commands (env : Env) (ui : Gui.Controls) (d : Gui.Display) :
  Forall (converts_discovered env ui)
         (trace (Gui._process_conversion env (Gui.get_config ui) d)).
Proof.
  rewrite process_conversion_cases. cbn zeta.
  set (files := Gui._find_pdf_files env (Py.strip (Gui.input_path_edit ui))).
  destruct (negb (Py.truthy files)); [constructor|].
  match goal with
  | |- context [for_each ?l ?body ?s] =>
      assert (Forall (converts_discovered env ui) (trace (for_each l body s))) as Hloop
  end.
  { apply for_each_trace. intros [index f] s Hitem. apply in_enumerate in Hitem.
    cbn [snd] in Hitem. rewrite convert_one_run. cbn zeta.
    destruct (posixpath.relpath _ _ _) as [r|] eqn:Er; [|constructor].
    destruct (makedirs env _); [repeat constructor|].
    assert (converts_discovered env ui
              (SubprocessRun
                 (command_line ui f
                    (posixpath.join (Py.strip (Gui.output_path_edit ui))
                                    (posixpath.dirname r))))) as Hcmd.
    { exists f, r. repeat split; assumption. }
    destruct (spawn env _) as [p|e]; [destruct (returncode p =? 0)|];
      cbn [trace fst]; unfold completed_logs;
      try (destruct (Py.truthy (stderr p)), (Py.truthy (stdout p)));
      cbn [app];
      repeat (apply List.Forall_cons; [first [exact Hcmd | exact I]|]);
      apply List.Forall_nil. }
  destruct (result (for_each _ _ _)) as [[]|e]; cbn [trace fst]; [|exact Hloop].
  apply Forall_app. split; [exact Hloop|].
  destruct (Gui.delete_pdfs_checkbox ui); [|constructor].
  generalize files. intros l. induction l as [|p l IH]; [constructor|].
  cbn [flat_map]. apply Forall_app. split; [|exact IH].
  unfold removal_events. destruct (unlink env p); repeat constructor.
Qed.

(** C2, as stated, fails on the worker of [main.py]: for a file found in a
    sub-directory the command carries the top-level output directory. *)
Lemma C2_worker_passes_top_level :
  let w := Main.new scenario_config in
  let found := discovered (scenario_env [Fs.Dir "sub" [Fs.File "a.pdf"]] spawn_ok)
                 "in" in
  map pathlib.to_str found = ["in/sub/a.pdf" : str]
  /\ map (fun f => argument_of "--output" (Main._build_docling_command w f)) found
     = [Some ("out" : str)]
  /\ posixpath.join "out" "sub" = "out/sub"
  /\ ("out" : str) <> "out/sub".
Proof. repeat split. intros H. vm_compute in H. discriminate. Qed.

(** C2 (amended): in [doclingGUI.py] every process started is the
    conversion of a discovered file, and its [--output] argument is the
    output folder joined with the folders the file lies under, below the
    input folder. *)
Theorem C2_output_directory (env : Env) (ui : Gui.Controls) (d : Gui.Display)
        (cmd : list str) :
  let input := Py.strip (Gui.input_path_edit ui) in
  let output := Py.strip (Gui.output_path_edit ui) in
  input <> [] ->
  Py.startswith (getcwd env) "/" = true ->
  tree_ok (listing env input) = true ->
  Gui.controls_valid ui ->
  In (SubprocessRun cmd) (trace (Gui._process_conversion env (Gui.get_config ui) d)) ->
  exists rel m,
    contains (listing env input) rel m
    /\ cmd !! 1%nat = Some (posixpath.join_many input (rel ++ [Fs.name m]))
    /\ argument_of "--output" cmd = Some (posixpath.join output (Py.join "/" rel)).
Proof.
  intros input output Hin Hcwd Hok Hui Hcmd.
  pose proof (spawned_commands env ui d) as Hall.
  rewrite List.Forall_forall in Hall. specialize (Hall _ Hcmd).
  destruct Hall as (f & r & Hf & Hr & ->). fold input in Hf, Hr. fold output.
  apply find_pdf_files_spec in Hf as (rel & m & Hc & _ & _ & ->).
  exists rel, m. split; [exact Hc|]. split; [reflexivity|].
  pose proof (tree_ok_contains _ _ _ Hok Hc) as Hnames.
  destruct (output_dir_mirrors (getcwd env) input rel (Fs.name m) Hin Hcwd Hnames)
    as (r' & Hr' & Hd).
  rewrite Hr in Hr'. injection Hr' as <-. rewrite Hd.
  apply argument_of_output; [|exact Hui].
  rewrite join_many_snoc. apply join_has_sep, join_many_nonempty. exact Hin.
Qed.

Lemma C2_output_directory_witness :
  let env := scenario_env nested_tree spawn_ok in
  let cmd := command_line (scenario_controls 0 false) "in/sub/c.pdf" "out/sub" in
  exists rel m,
    contains nested_tree rel m
    /\ cmd !! 1%nat = Some (posixpath.join_many "in" (rel ++ [Fs.name m]))
    /\ argument_of "--output" cmd = Some (posixpath.join "out" (Py.join "/" rel)).
Proof.
  intros env cmd.
  apply (C2_output_directory env (scenario_controls 0 false) Gui.initial_display cmd).
  - vm_compute. discriminate.
  - reflexivity.
  - reflexivity.
  - unfold Gui.controls_valid. simpl. repeat split; try lia; tauto.
  - vm_compute. do 8 right. left. reflexivity.
Defined.

(** ** What the user is told *)

(** Once the folders are validated, [run_conversion] turns the outcome of
    [_process_conversion] into a dialog: the success box after a normal
    end, the error box with the text of the exception otherwise. *)
Lemma run_conversion_reports (env : Env) (ui : Gui.Controls) (d : Gui.Display) :
  Py.strip (Gui.input_path_edit ui) <> [] ->
  Py.strip (Gui.output_path_edit ui) <> [] ->
  path_exists env (Py.strip (Gui.input_path_edit ui)) = true ->
  path_exists env (Py.strip (Gui.output_path_edit ui)) = true ->
  let x := Gui._process_conversion env (Gui.get_config ui) d in
  Gui.run_conversion env ui d =
  match result x with
  | Ok _ =>
      (trace x ++ [MessageBoxInformation "Success" "Conversion completed successfully!"],
       state x, Ok tt)
  | Raise e =>
      (trace x ++ [Log ERROR ("Conversion failed: " ++ str_of_exn e);
                   MessageBoxCritical "Error" ("Conversion failed:" ++ Gui.LF ++ str_of_exn e)],
       state x, Ok tt)
  end.
Proof.
  intros Hin Hout Hein Heout x. unfold Gui.run_conversion.
  assert (Gui.validate_paths env ui d = ([], d, Ok None)) as Hv.
  { unfold Gui.validate_paths. rewrite Hein, Heout.
    destruct (Py.strip (Gui.input_path_edit ui)); [congruence|].
    destruct (Py.strip (Gui.output_path_edit ui)); [congruence|]. reflexivity. }
  rewrite run_bind, Hv. cbn [result trace state fst snd]. cbn zeta. cbv iota.
  unfold try_except. rewrite run_bind. fold x.
  unfold trace, state, result. destruct x as [[t s] [[]|e]]; cbn [fst snd app].
  - reflexivity.
  - reflexivity.
Qed.

(** * Further properties *)

(** ** The file filter and letter case *)

Lemma lower_char_dot (c : ascii) :
  Ascii.eqb (Py.lower_char c) "." = Ascii.eqb c ".".
Proof. destruct c as [[] [] [] [] [] [] [] []]; vm_compute; reflexivity. Qed.

Lemma lower_char_idem (c : ascii) : Py.lower_char (Py.lower_char c) = Py.lower_char c.
Proof. destruct c as [[] [] [] [] [] [] [] []]; vm_compute; reflexivity. Qed.

Lemma lower_idem (s : str) : Py.lower (Py.lower s) = Py.lower s.
Proof.
  unfold Py.lower. rewrite map_map. apply map_ext. exact lower_char_idem.
Qed.

Lemma rfind_lower (s : str) : Py.rfind (Py.lower s) "." = Py.rfind s ".".
Proof.
  induction s as [|x s IH]; [reflexivity|].
  cbn [Py.lower map Py.rfind]. fold (Py.lower s). rewrite IH, lower_char_dot. reflexivity.
Qed.

Lemma startswith_dot_lower (s : str) :
  Py.startswith (Py.lower s) "." = Py.startswith s ".".
Proof.
  destruct s as [|x s]; [reflexivity|].
  change (Py.startswith (Py.lower (x :: s)) ".")
    with (Ascii.eqb "." (Py.lower_char x) && true).
  change (Py.startswith (x :: s) ".") with (Ascii.eqb "." x && true).
  rewrite (Ascii.eqb_sym _ (Py.lower_char x)), lower_char_dot, Ascii.eqb_sym. reflexivity.
Qed.

Lemma is_valid_file_lower (d : pathlib.Path) (nm : str) :
  Main.is_valid_file (pathlib.child d (Py.lower nm))
  = Main.is_valid_file (pathlib.child d nm).
Proof.
  unfold Main.is_valid_file, pathlib.suffix, pathlib.name, pathlib.child.
  cbn [pathlib.tail]. rewrite !last_snoc.
  rewrite startswith_dot_lower, rfind_lower. f_equal.
  assert (Py.len (Py.lower nm) = Py.len nm) as -> by (unfold Py.len, Py.lower; rewrite length_map; reflexivity).
  destruct (_ && _); [|reflexivity].
  unfold Py.slice_from.
  assert (forall n s, drop n (Py.lower s) = Py.lower (drop n s)) as Hd
    by (intros n s; unfold Py.lower; apply skipn_map).
  rewrite Hd, lower_idem. reflexivity.
Qed.

(** X1: [is_valid_file] does not look at the case of letters: two names that
    differ in case only are both accepted or both refused. *)
Theorem is_valid_file_case_insensitive (d : pathlib.Path) (nm nm' : str) :
  Py.lower nm = Py.lower nm' ->
  Main.is_valid_file (pathlib.child d nm) = Main.is_valid_file (pathlib.child d nm').
Proof.
  intros H. rewrite <- (is_valid_file_lower d nm), <- (is_valid_file_lower d nm'), H.
  reflexivity.
Qed.

Lemma is_valid_file_case_insensitive_witness :
  Main.is_valid_file (pathlib.child (pathlib.of_str "in") "Report.PDF")
  = Main.is_valid_file (pathlib.child (pathlib.of_str "in") "report.pdf").
Proof.
  apply (is_valid_file_case_insensitive (pathlib.of_str "in") "Report.PDF" "report.pdf").
  reflexivity.
Defined.

(** ** The settings file *)

(** X2: [load_settings] raises exactly on a file whose bytes are not
    text, on JSON beyond a limit of [json.load] (an integer of too many
    digits, nesting too deep) and on JSON that is not an object; what it
    raises then is no error its handler names. In every other case it
    returns settings, and it never changes the file. *)
Theorem load_settings_raises_iff (self : Gui.SettingsManager) (file : Gui.file_state) :
  ((exists e, result (Gui.load_settings self file) = Raise e) <->
   (exists msg, file = Gui.Undecodable msg)
   \/ (exists l msg, file = Gui.OverLimit l msg)
   \/ (exists v, file = Gui.Json v /\ forall m, v <> Gui.VDict m))
  /\ (forall e, result (Gui.load_settings self file) = Raise e ->
              Gui.is_JSONDecodeError_or_OSError e = false)
  /\ state (Gui.load_settings self file) = file.
Proof.
  destruct file as [ | msg | msg | msg | l msg | v ].
  - split; [|split; [intros e H; discriminate | reflexivity]]. split.
    + intros [e H]. discriminate.
    + intros [[msg H] | [(l & msg & H) | (v & H & _)]]; discriminate.
  - split; [|split; [intros e H; discriminate | reflexivity]]. split.
    + intros [e H]. discriminate.
    + intros [[m H] | [(l & m & H) | (v & H & _)]]; discriminate.
  - split; [|split; [intros e H; injection H as <-; reflexivity | reflexivity]].
    split; [|intros _; eexists; reflexivity].
    intros _. left. eexists. reflexivity.
  - split; [|split; [intros e H; discriminate | reflexivity]]. split.
    + intros [e H]. discriminate.
    + intros [[m H] | [(l & m & H) | (v & H & _)]]; discriminate.
  - destruct l;
      (split; [|split; [intros e H; injection H as <-; reflexivity | reflexivity]]);
      (split; [intros _; right; left; eexists _, _; reflexivity
              | intros _; eexists; reflexivity]).
  - destruct v as [ | b | n | bits | s | l | m ];
      try (split; [|split; [intros e H; injection H as <-; reflexivity | reflexivity]];
           split;
           [ intros _; right; right; eexists; split; [reflexivity | discriminate]
           | intros _; eexists; reflexivity ]).
    rewrite load_settings_object.
    split; [|split; [intros e H; discriminate | reflexivity]]. split.
    + intros [e H]. discriminate.
    + intros [[msg H] | [(l & msg & H) | (v & H & Hv)]]; [discriminate | discriminate |].
      injection H as <-. exfalso. exact (Hv m eq_refl).
Qed.

(** X3: The settings loaded from a JSON object depend on the eight documented
    keys only: two objects that agree on them load alike, whatever other
    keys they hold. *)
Theorem load_settings_known_keys (self : Gui.SettingsManager) (m1 m2 : gmap str Gui.value) :
  (forall key, In key settings_keys -> m1 !! key = m2 !! key) ->
  result (Gui.load_settings self (Gui.Json (Gui.VDict m1)))
  = result (Gui.load_settings self (Gui.Json (Gui.VDict m2))).
Proof.
  intros H. rewrite !load_settings_object. cbn [result snd]. cbn zeta.
  rewrite !H by (unfold settings_keys; simpl; tauto). reflexivity.
Qed.

Lemma load_settings_known_keys_witness :
  let self := Gui.SettingsManager_new (scenario_env scenario_tree spawn_ok) in
  let m : gmap str Gui.value := {[ ("verbosity" : str) := Gui.VInt 1 ]} in
  result (Gui.load_settings self
            (Gui.Json (Gui.VDict (<[ ("theme" : str) := Gui.VStr "dark" ]> m))))
  = result (Gui.load_settings self (Gui.Json (Gui.VDict m))).
Proof.
  intros self m.
  apply (load_settings_known_keys self (<[ ("theme" : str) := Gui.VStr "dark" ]> m) m).
  intros key Hkey. apply lookup_insert_ne.
  unfold settings_keys in Hkey. simpl in Hkey.
  intros <-. vm_compute in Hkey. intuition discriminate.
Defined.

(** X4: [save_settings] is best effort for the errors of the system: an
    [OSError] of the write is logged once and not raised; when the file
    could not be opened it is left as it was, and when the write broke
    off the next load returns the defaults. It raises exactly when
    [json.dump] itself fails, on a value beyond one of its limits: that
    error is not logged, and the file is left cut short, so that the next
    load returns the defaults as well. *)
Theorem save_settings_best_effort (w : Gui.write_outcome) (self : Gui.SettingsManager)
        (s : Gui.AppSettings) (file : Gui.file_state) :
  let saved := Gui.save_settings w self s file in
  let defaults :=
    ([Log WARNING ("Failed to load settings: " ++ "Expecting value")],
     state saved, Ok (Gui.default_settings self)) in
  match w with
  | Gui.Written => saved = ([], Gui.Json (Gui.VDict (Gui.settings_dict s)), Ok tt)
  | Gui.OpenFailed msg =>
      saved = ([Log ERROR ("Failed to save settings: " ++ msg)], file, Ok tt)
  | Gui.WriteFailed msg =>
      trace saved = [Log ERROR ("Failed to save settings: " ++ msg)]
      /\ result saved = Ok tt
      /\ Gui.load_settings self (state saved) = defaults
  | Gui.EncodeFailed l msg =>
      trace saved = []
      /\ result saved = Raise (Gui.limit_error l msg)
      /\ Gui.load_settings self (state saved) = defaults
  end
  /\ ((exists e, result saved = Raise e) <-> exists l msg, w = Gui.EncodeFailed l msg).
Proof.
  destruct w as [ | msg | msg | l msg ]; cbn zeta.
  - split; [reflexivity|]. split; [intros [e H] | intros (l & msg & H)]; discriminate.
  - split; [reflexivity|]. split; [intros [e H] | intros (l & m & H)]; discriminate.
  - split; [repeat split|]. split; [intros [e H] | intros (l & m & H)]; discriminate.
  - split; [destruct l; repeat split|].
    split; [intros _; eexists _, _; reflexivity|].
    intros _. destruct l; eexists; reflexivity.
Qed.

(** ** Validation and the dialogs of [run_conversion] *)

Lemma validate_paths_run (env : Env) (ui : Gui.Controls) (d : Gui.Display) :
  let input := Py.strip (Gui.input_path_edit ui) in
  let output := Py.strip (Gui.output_path_edit ui) in
  Gui.validate_paths env ui d =
  if negb (Py.truthy input) || negb (Py.truthy output) then
    ([], d, Ok (Some ("Please specify both input and output folders." : str)))
  else if negb (path_exists env input) then
    ([], d, Ok (Some ("Input folder does not exist." : str)))
  else if negb (path_exists env output) then
    ([Makedirs output], d,
     Ok (match makedirs env output with
         | Some e => Some ("Failed to create output folder: " ++ e)
         | None => None
         end))
  else ([], d, Ok None).
Proof.
  cbn zeta. unfold Gui.validate_paths.
  destruct (_ || _); [reflexivity|].
  destruct (negb (path_exists env _)); [reflexivity|].
  destruct (negb (path_exists env _)); [|reflexivity].
  unfold mbind, M_bind, bind, emit, mret, M_ret, ret.
  destruct (makedirs env _); reflexivity.
Qed.

Lemma validate_paths_cases (env : Env) (ui : Gui.Controls) (d : Gui.Display) :
  let input := Py.strip (Gui.input_path_edit ui) in
  let output := Py.strip (Gui.output_path_edit ui) in
  let v := Gui.validate_paths env ui d in
  state v = d
  /\ (exists r, result v = Ok r)
  /\ (result v = Ok None ->
      input <> [] /\ output <> [] /\ path_exists env input = true
      /\ (path_exists env output = true \/ makedirs env output = None))
  /\ (trace v = [] \/
      (trace v = [Makedirs output] /\ input <> [] /\ path_exists env input = true
       /\ path_exists env output = false)).
Proof.
  cbn zeta. rewrite validate_paths_run. cbn zeta.
  destruct (Py.strip (Gui.input_path_edit ui)) as [|a input] eqn:Ei;
    [repeat split; eauto; discriminate|].
  destruct (Py.strip (Gui.output_path_edit ui)) as [|b output] eqn:Eo;
    [repeat split; eauto; discriminate|].
  cbn [Py.truthy negb orb].
  destruct (path_exists env (a :: input)) eqn:Hi; cbn [negb];
    [|repeat split; eauto; discriminate].
  destruct (path_exists env (b :: output)) eqn:Ho; cbn [negb].
  - repeat split; eauto; discriminate.
  - cbn [trace state result fst snd]. split; [reflexivity|]. split; [eauto|].
    split; [|right; repeat split; discriminate].
    destruct (makedirs env (b :: output)) eqn:Hm; [discriminate|].
    intros _. repeat split; try discriminate. right. reflexivity.
Qed.





Lemma run_conversion_run (env : Env) (ui : Gui.Controls) (d : Gui.Display) :
  let v := Gui.validate_paths env ui d in
  let x := Gui._process_conversion env (Gui.get_config ui) d in
  Gui.run_conversion env ui d =
  match result v with
  | Ok (Some msg) => (trace v ++ [MessageBoxCritical "Error" msg], d, Ok tt)
  | Ok None =>
      match result x with
      | Ok _ =>
          (trace v ++ trace x
             ++ [MessageBoxInformation "Success" "Conversion completed successfully!"],
           state x, Ok tt)
      | Raise e =>
          (trace v ++ trace x
             ++ [Log ERROR ("Conversion failed: " ++ str_of_exn e);
                 MessageBoxCritical "Error"
                   ("Conversion failed:" ++ Gui.LF ++ str_of_exn e)],
           state x, Ok tt)
      end
  | Raise e => (trace v, d, Raise e)
  end.
Proof.
  intros v x. unfold Gui.run_conversion. rewrite run_bind. fold v.
  destruct (validate_paths_cases env ui d) as (Hs & _). cbn zeta in Hs. fold v in Hs.
  rewrite Hs. subst x.
  assert (forall msg, result v = Ok (Some msg) -> Py.truthy msg = true) as Hmsg.
  { unfold v. rewrite validate_paths_run. cbn zeta.
    intros msg. destruct (_ || _); [intros [= <-]; reflexivity|].
    destruct (negb (path_exists env _)); [intros [= <-]; reflexivity|].
    destruct (negb (path_exists env _)); [|discriminate].
    destruct (makedirs env _); [|discriminate]. intros [= <-]. reflexivity. }
  destruct (result v) as [[msg|]|e]; [| |reflexivity].
  - rewrite (Hmsg msg eq_refl). reflexivity.
  - cbn zeta. cbv iota. unfold try_except. rewrite run_bind.
    unfold trace, state, result.
    destruct (Gui._process_conversion env (Gui.get_config ui) d) as [[t s] [[]|e]];
      reflexivity.
Qed.


(** X7: When a folder field is blank or the input folder does not exist,
    [run_conversion] shows the error and does nothing else; when the
    output folder cannot be made it has only tried to make it. *)
Theorem run_conversion_rejects (env : Env) (ui : Gui.Controls) (d : Gui.Display) :
  let input := Py.strip (Gui.input_path_edit ui) in
  let output := Py.strip (Gui.output_path_edit ui) in
  (input = [] \/ output = [] ->
   Gui.run_conversion env ui d
   = ([MessageBoxCritical "Error" "Please specify both input and output folders."],
      d, Ok tt))
  /\ (input <> [] -> output <> [] -> path_exists env input = false ->
      Gui.run_conversion env ui d
      = ([MessageBoxCritical "Error" "Input folder does not exist."], d, Ok tt))
  /\ (forall e,
        input <> [] -> output <> [] -> path_exists env input = true ->
        path_exists env output = false -> makedirs env output = Some e ->
        Gui.run_conversion env ui d
        = ([Makedirs output;
            MessageBoxCritical "Error" ("Failed to create output folder: " ++ e)],
           d, Ok tt)).
Proof.
  cbn zeta. rewrite run_conversion_run. cbn zeta. rewrite validate_paths_run. cbn zeta.
  split; [|split].
  - intros [-> | ->]; [reflexivity|]. rewrite orb_true_r. reflexivity.
  - intros Hi Ho He.
    destruct (Py.strip (Gui.input_path_edit ui)); [congruence|].
    destruct (Py.strip (Gui.output_path_edit ui)); [congruence|].
    cbn [Py.truthy negb orb]. rewrite He. reflexivity.
  - intros e Hi Ho Hei Heo Hm.
    destruct (Py.strip (Gui.input_path_edit ui)); [congruence|].
    destruct (Py.strip (Gui.output_path_edit ui)); [congruence|].
    cbn [Py.truthy negb orb]. rewrite Hei, Heo, Hm. reflexivity.
Qed.

Lemma run_conversion_rejects_witness :
  Gui.run_conversion (scenario_env scenario_tree spawn_ok)
    {| Gui.input_path_edit := "  "; Gui.output_path_edit := "out";
       Gui.ocr_checkbox := false; Gui.force_ocr_checkbox := false;
       Gui.delete_pdfs_checkbox := true; Gui.ocr_engine_combo := "easyocr";
       Gui.table_mode_combo := "accurate"; Gui.verbosity_spinbox := 0 |}
    Gui.initial_display
  = ([MessageBoxCritical "Error" "Please specify both input and output folders."],
     Gui.initial_display, Ok tt).
Proof.
  apply (proj1 (run_conversion_rejects (scenario_env scenario_tree spawn_ok) _
                  Gui.initial_display)).
  left. reflexivity.
Defined.

(** ** The progress bar *)

Lemma passes_completed_app (t1 t2 : list event) :
  passes_completed (t1 ++ t2) = passes_completed t1 + passes_completed t2.
Proof. unfold passes_completed. rewrite count_occ_app. lia. Qed.

Lemma convert_one_progress (env : Env) (ui : Gui.Controls) (total index : Z) (f : str)
      (s : Gui.Display) :
  let y := Gui.convert_one env (Gui.get_config ui) total (index, f) s in
  Gui.progress_bar_maximum (state y) = Gui.progress_bar_maximum s
  /\ ((result y = Ok tt /\ passes_completed (trace y) = 1
       /\ Gui.progress_bar_value (state y) = index)
      \/ ((exists e, result y = Raise e) /\ passes_completed (trace y) = 0
          /\ Gui.progress_bar_value (state y) = Gui.progress_bar_value s)).
Proof.
  cbn zeta. rewrite convert_one_run. cbn zeta.
  destruct (posixpath.relpath _ _ _) as [r|]; [|split; [reflexivity | right; eauto]].
  destruct (makedirs env _); [split; [reflexivity | right; eauto]|].
  destruct (spawn env _) as [p|e]; [|split; [reflexivity | right; eauto]].
  destruct (returncode p =? 0); [|split; [reflexivity | right; eauto]].
  split; [reflexivity|]. left. split; [reflexivity|]. split; [|reflexivity].
  cbn [trace fst]. rewrite !passes_completed_app. unfold completed_logs.
  destruct (Py.truthy (stderr p)), (Py.truthy (stdout p)); reflexivity.
Qed.

Lemma conversion_loop_progress (env : Env) (ui : Gui.Controls) (total : Z)
      (files : list str) :
  forall (start : Z) (s : Gui.Display),
    Gui.progress_bar_value s = start - 1 ->
    let loop := for_each (enumerate files start)
                  (Gui.convert_one env (Gui.get_config ui) total) s in
    Gui.progress_bar_value (state loop) = start - 1 + passes_completed (trace loop)
    /\ Gui.progress_bar_maximum (state loop) = Gui.progress_bar_maximum s
    /\ 0 <= passes_completed (trace loop) <= Z.of_nat (length files)
    /\ (result loop = Ok tt -> passes_completed (trace loop) = Z.of_nat (length files))
    /\ (forall e, result loop = Raise e ->
          passes_completed (trace loop) < Z.of_nat (length files)).
Proof.
  induction files as [|f files IH]; intros start s Hs; cbn zeta.
  - cbn [enumerate for_each]. unfold mret, M_ret, ret, passes_completed.
    cbn [trace state result fst snd count_occ length]. repeat split; try lia.
    intros e H. discriminate.
  - cbn [enumerate]. rewrite for_each_cons.
    destruct (convert_one_progress env ui total start f s) as [Hmax Hcase].
    cbn zeta in Hmax, Hcase.
    destruct Hcase as [(Hr & Hp & Hv) | ([e Hr] & Hp & Hv)]; rewrite Hr.
    + cbn zeta. cbn [trace state result fst snd].
      destruct (IH (start + 1) (state (Gui.convert_one env (Gui.get_config ui) total
                                         (start, f) s))) as (H1 & H2 & H3 & H4 & H5);
        [rewrite Hv; lia|].
      cbn zeta in H1, H2, H3, H4, H5.
      rewrite passes_completed_app, Hp, H1, H2, Hmax. cbn [length].
      repeat split; try lia.
      * intros Hok. specialize (H4 Hok). lia.
      * intros e He. specialize (H5 e He). lia.
    + cbn [trace state result fst snd]. rewrite Hp, Hv, Hmax, Hs. cbn [length].
      repeat split; try lia. discriminate.
Qed.

(** X8: When files are found, the progress bar shows how far the conversion
    got: its maximum is the number of files found and its value the number
    of files converted before the run ended, which is the maximum exactly
    when no conversion raised. *)
Theorem progress_bar_counts (env : Env) (ui : Gui.Controls) (d : Gui.Display) :
  let files := Gui._find_pdf_files env (Py.strip (Gui.input_path_edit ui)) in
  let x := Gui._process_conversion env (Gui.get_config ui) d in
  files <> [] ->
  Gui.progress_bar_maximum (state x) = Z.of_nat (length files)
  /\ Gui.progress_bar_value (state x) = passes_completed (trace x)
  /\ 0 <= Gui.progress_bar_value (state x) <= Gui.progress_bar_maximum (state x)
  /\ (result x = Ok tt <->
      Gui.progress_bar_value (state x) = Gui.progress_bar_maximum (state x)).
Proof.
  intros files x Hne. unfold x. rewrite process_conversion_cases. cbn zeta. fold files.
  replace (negb (Py.truthy files)) with false by (destruct files; [congruence | reflexivity]).
  match goal with
  | |- context [for_each ?l ?body ?s] =>
      destruct (conversion_loop_progress env ui (Z.of_nat (length files)) files 1 s)
        as (H1 & H2 & H3 & H4 & H5); [reflexivity|]
  end.
  cbn zeta in H1, H2, H3, H4, H5. cbn [Gui.progress_bar_maximum Gui.with_progress_bar_value
    Gui.with_progress_bar_maximum] in H2.
  destruct (result (for_each _ _ _)) as [[]|e] eqn:Er.
  - specialize (H4 eq_refl). cbn [trace state result fst snd].
    assert (passes_completed
              (if Gui.delete_pdfs_checkbox ui
               then flat_map (removal_events env) files else []) = 0) as Hrm.
    { destruct (Gui.delete_pdfs_checkbox ui); [|reflexivity].
      generalize files. intros l. induction l as [|p l IH]; [reflexivity|].
      cbn [flat_map]. rewrite passes_completed_app, IH.
      unfold removal_events. destruct (unlink env p); reflexivity. }
    rewrite passes_completed_app, Hrm.
    destruct (Gui.delete_pdfs_checkbox ui);
      cbn [finish Gui.progress_bar_maximum Gui.progress_bar_value Gui.with_run_button_text
           Gui.with_run_button_enabled Gui.with_progress_info Gui.with_status_label];
      rewrite H1, H2; repeat split; try lia.
  - cbn [trace state result fst snd].
    cbn [finish Gui.progress_bar_maximum Gui.progress_bar_value Gui.with_run_button_text
         Gui.with_run_button_enabled].
    rewrite H1, H2. repeat split; try lia; try discriminate.
    intros Heq. specialize (H5 e eq_refl). lia.
Qed.

Lemma progress_bar_counts_witness :
  let env := scenario_env nested_tree spawn_parse_error in
  let ui := scenario_controls 0 false in
  let files := Gui._find_pdf_files env (Py.strip (Gui.input_path_edit ui)) in
  let x := Gui._process_conversion env (Gui.get_config ui) Gui.initial_display in
  Gui.progress_bar_maximum (state x) = Z.of_nat (length files)
  /\ Gui.progress_bar_value (state x) = passes_completed (trace x)
  /\ 0 <= Gui.progress_bar_value (state x) <= Gui.progress_bar_maximum (state x)
  /\ (result x = Ok tt <->
      Gui.progress_bar_value (state x) = Gui.progress_bar_maximum (state x)).
Proof.
  intros env ui.
  apply (progress_bar_counts env ui Gui.initial_display).
  vm_compute. discriminate.
Defined.

(** ** Folders are made before the converter runs *)

Lemma prepared_app (env : Env) (t1 t2 : list event) :
  prepared env t1 -> prepared env t2 -> prepared env (t1 ++ t2).
Proof.
  intros H1 H2 before cmd after E.
  apply app_eq_app in E as [l [[E1 E2] | [E1 E2]]].
  - destruct l as [|ev l].
    + rewrite app_nil_r in E1. cbn [app] in E2. symmetry in E2.
      destruct (H2 [] cmd after E2) as (out & _ & _ & [] & _).
    + cbn [app] in E2. injection E2 as <- _. exact (H1 before cmd l E1).
  - destruct (H2 l cmd after E2) as (out & Ha & Hb & Hin & Hm).
    exists out. repeat split; try assumption. rewrite E1. apply in_or_app. right. exact Hin.
Qed.

Lemma prepared_quiet (env : Env) (tr : list event) :
  (forall cmd, ~ In (SubprocessRun cmd) tr) -> prepared env tr.
Proof.
  intros H before cmd after E. exfalso. apply (H cmd). rewrite E.
  apply in_or_app. right. left. reflexivity.
Qed.

Lemma for_each_prepared {S A} (env : Env) (l : list A) (body : A -> M S unit) :
  (forall x s, prepared env (trace (body x s))) ->
  forall s, prepared env (trace (for_each l body s)).
Proof.
  intros H. induction l as [|x l IH]; intros s.
  - apply prepared_quiet. intros cmd [].
  - rewrite for_each_cons. destruct (result (body x s)); cbn [trace fst].
    + apply prepared_app; [apply H | apply IH].
    + apply H.
Qed.

Lemma convert_one_prepared (env : Env) (ui : Gui.Controls) (total : Z) (item : Z * str)
      (s : Gui.Display) :
  prepared env (trace (Gui.convert_one env (Gui.get_config ui) total item s)).
Proof.
  destruct item as [index f]. rewrite convert_one_run. cbn zeta.
  destruct (posixpath.relpath _ _ _) as [r|];
    [|apply prepared_quiet; intros cmd []].
  set (out := posixpath.join _ _).
  destruct (makedirs env out) eqn:Hm;
    [apply prepared_quiet; intros cmd [H | []]; discriminate|].
  assert (prepared env
            [Makedirs out;
             Log INFO ("Processing file " ++ Py.str_of_int index ++ "/"
                         ++ Py.str_of_int total ++ ": " ++ f);
             Log INFO ("Running command: " ++ Py.join " " (command_line ui f out));
             SubprocessRun (command_line ui f out)]) as Hpre.
  { intros before cmd after E.
    destruct before as [|e1 [|e2 [|e3 [|e4 before]]]]; cbn [app] in E;
      try discriminate.
    - inversion E; subst. exists out.
      repeat split; [left; reflexivity | exact Hm].
    - inversion E as [[E1 E2 E3 E4 E5]]. destruct before; discriminate. }
  destruct (spawn env _) as [p|e]; [destruct (returncode p =? 0)|]; cbn [trace fst].
  - apply prepared_app; [exact Hpre|]. apply prepared_quiet.
    unfold completed_logs. intros cmd Hin.
    destruct (Py.truthy (stderr p)), (Py.truthy (stdout p)); cbn [app] in Hin;
      repeat (destruct Hin as [Hin | Hin]; [discriminate|]); destruct Hin.
  - apply prepared_app; [exact Hpre|]. apply prepared_quiet.
    intros cmd [H | []]. discriminate.
  - exact Hpre.
Qed.

(** X9: In every run of [_process_conversion], a process is started only
    after [os.makedirs] has made, without an error, the folder that the
    command of the process names after [--output]. *)
Theorem output_folder_made_first (env : Env) (ui : Gui.Controls) (d : Gui.Display) :
  prepared env (trace (Gui._process_conversion env (Gui.get_config ui) d)).
Proof.
  rewrite process_conversion_cases. cbn zeta.
  destruct (negb (Py.truthy _)); [apply prepared_quiet; intros cmd []|].
  match goal with
  | |- context [for_each ?l ?body ?s] =>
      pose proof (for_each_prepared env l body
                    (fun x s' => convert_one_prepared env ui _ x s') s) as Hloop
  end.
  destruct (result (for_each _ _ _)) as [[]|e]; cbn [trace fst]; [|exact Hloop].
  apply prepared_app; [exact Hloop|]. apply prepared_quiet.
  intros cmd Hin. destruct (Gui.delete_pdfs_checkbox ui); [|destruct Hin].
  apply in_flat_map in Hin as (p & _ & Hin). unfold removal_events in Hin.
  destruct Hin as [H | [H | []]]; [discriminate|].
  destruct (unlink env p); discriminate.
Qed.

(** ** Each option once *)

Lemma slash_not_flag (w : str) : In posixpath.sep w -> ~ In w flag_words.
Proof.
  intros Hs Hin. revert Hs. unfold flag_words in Hin. simpl in Hin.
  repeat (destruct Hin as [<- | Hin];
          [intros Hs; vm_compute in Hs; intuition discriminate|]).
  destruct Hin.
Qed.

Lemma valid_controls_not_flags (ui : Gui.Controls) :
  Gui.controls_valid ui ->
  ~ In (Gui.ocr_engine_combo ui) flag_words
  /\ ~ In (Gui.table_mode_combo ui) flag_words
  /\ ~ In (verbosity_argument ui) flag_words.
Proof.
  intros (He & Hm & Hv). unfold verbosity_argument.
  assert (Gui.verbosity_spinbox ui = 0 \/ Gui.verbosity_spinbox ui = 1
          \/ Gui.verbosity_spinbox ui = 2) as Hcases by lia.
  simpl in He, Hm.
  split; [|split].
  - repeat (destruct He as [<- | He];
            [intros Hin; vm_compute in Hin; intuition discriminate|]).
    destruct He.
  - repeat (destruct Hm as [<- | Hm];
            [intros Hin; vm_compute in Hin; intuition discriminate|]).
    destruct Hm.
  - destruct Hcases as [-> | [-> | ->]]; intros Hin; vm_compute in Hin;
      intuition discriminate.
Qed.

Lemma is_flag_spec (w : str) : is_flag w = true <-> In w flag_words.
Proof.
  unfold is_flag. rewrite existsb_exists. split.
  - intros (flag & Hin & Heq). apply bool_decide_eq_true_1 in Heq. subst. exact Hin.
  - intros Hin. exists w. split; [exact Hin | apply bool_decide_eq_true_2; reflexivity].
Qed.

Lemma is_flag_plain (w : str) : ~ In w flag_words -> is_flag w = false.
Proof.
  intros H. destruct (is_flag w) eqn:E; [|reflexivity].
  apply is_flag_spec in E. contradiction.
Qed.

Lemma keep_flags_cons (w : str) (l : list str) :
  keep_flags (w :: l) = (if is_flag w then [w] else []) ++ keep_flags l.
Proof. unfold keep_flags. cbn [List.filter]. destruct (is_flag w); reflexivity. Qed.

Lemma occurrences_keep (word : str) (cmd : list str) :
  In word flag_words -> occurrences word cmd = occurrences word (keep_flags cmd).
Proof.
  intros Hword. induction cmd as [|w cmd IH]; [reflexivity|].
  rewrite keep_flags_cons. unfold occurrences in *. cbn [List.filter].
  destruct (bool_decide (w = word)) eqn:E.
  - apply bool_decide_eq_true_1 in E. subst w.
    apply is_flag_spec in Hword. rewrite Hword. cbn [app List.filter].
    rewrite bool_decide_eq_true_2 by reflexivity. cbn [length]. f_equal. exact IH.
  - destruct (is_flag w); cbn [app List.filter]; [rewrite E|]; exact IH.
Qed.

Lemma keep_flags_command (ui : Gui.Controls) (f out : str) :
  In posixpath.sep f -> In posixpath.sep out -> Gui.controls_valid ui ->
  keep_flags (command_line ui f out)
  = [ "--from" : str; "--to" : str;
      (if Gui.ocr_checkbox ui then "--ocr" else "--no-ocr") : str;
      (if Gui.force_ocr_checkbox ui then "--force-ocr" else "--no-force-ocr") : str;
      "--ocr-engine" : str; "--table-mode" : str; "--output" : str ].
Proof.
  intros Hf Ho Hui.
  apply slash_not_flag, is_flag_plain in Hf, Ho.
  destruct (valid_controls_not_flags ui Hui) as (He & Hm & Hv).
  apply is_flag_plain in He, Hm, Hv.
  unfold command_line.
  destruct (Gui.ocr_checkbox ui), (Gui.force_ocr_checkbox ui),
    (Py.truthy (verbosity_argument ui));
    cbn [app]; rewrite !keep_flags_cons, ?Hf, ?Ho, ?He, ?Hm, ?Hv; reflexivity.
Qed.

Lemma command_line_flags (ui : Gui.Controls) (f out : str) :
  In posixpath.sep f -> In posixpath.sep out -> Gui.controls_valid ui ->
  each_flag_once (command_line ui f out).
Proof.
  intros Hf Ho Hui. unfold each_flag_once.
  rewrite !(occurrences_keep _ (command_line ui f out))
    by (unfold flag_words; simpl; tauto).
  rewrite (keep_flags_command ui f out Hf Ho Hui).
  destruct (Gui.ocr_checkbox ui), (Gui.force_ocr_checkbox ui);
    vm_compute; repeat split; reflexivity.
Qed.

(** X10: In a run over validated folders, with the widgets at values they
    offer, every command handed to the converter holds each of [--from],
    [--to], [--ocr-engine], [--table-mode] and [--output] once, one of
    [--ocr] and [--no-ocr] and one of [--force-ocr] and [--no-force-ocr]. *)
Theorem commands_have_each_flag_once (env : Env) (ui : Gui.Controls) (d : Gui.Display) :
  Py.strip (Gui.input_path_edit ui) <> [] ->
  Py.strip (Gui.output_path_edit ui) <> [] ->
  Gui.controls_valid ui ->
  Forall flags_once (trace (Gui._process_conversion env (Gui.get_config ui) d)).
Proof.
  intros Hin Hout Hui.
  eapply Forall_impl; [apply spawned_commands|].
  intros ev Hev. destruct ev; try exact I.
  destruct Hev as (f & r & Hf & _ & ->). cbn [flags_once].
  apply command_line_flags; [|apply join_has_sep; exact Hout | exact Hui].
  apply find_pdf_files_spec in Hf as (rel & m & _ & _ & _ & ->).
  rewrite join_many_snoc. apply join_has_sep, join_many_nonempty. exact Hin.
Qed.

Lemma commands_have_each_flag_once_witness :
  Forall flags_once
    (trace (Gui._process_conversion (scenario_env nested_tree spawn_ok)
              (Gui.get_config (scenario_controls 2 false)) Gui.initial_display)).
Proof.
  apply (commands_have_each_flag_once (scenario_env nested_tree spawn_ok)
           (scenario_controls 2 false) Gui.initial_display).
  - vm_compute. discriminate.
  - vm_compute. discriminate.
  - unfold Gui.controls_valid. simpl. repeat split; try lia; tauto.
Defined.

(** ** The worker of [main.py] goes on after a failure *)

Lemma error_signals_app (t1 t2 : list event) :
  error_signals (t1 ++ t2) = error_signals t1 ++ error_signals t2.
Proof. apply omap_app. Qed.

Lemma error_signals_scan_log (env : Env) (input : str) :
  error_signals (scan_log env input) = [].
Proof. rewrite scan_log_eq. destruct (refusal env _); reflexivity. Qed.

Lemma process_loop_uncancelled (env : Env) (ui : nat -> bool)
      (files : list pathlib.Path) :
  forall i w,
    Main.is_cancelled w = false ->
    (forall j, (i <= j < i + length files)%nat -> ui j = false) ->
    Main.process_loop env ui i files w
    = (flat_map (file_events env w) files, w, Ok tt).
Proof.
  induction files as [|f rest IH]; intros i w Hw Hui; [reflexivity|].
  rewrite process_loop_cons. cbn zeta.
  rewrite (Hui i) by (cbn [length]; lia). rewrite Hw.
  rewrite (IH (S i) w Hw) by (intros j Hj; apply Hui; cbn [length]; lia).
  reflexivity.
Qed.

Lemma file_events_errors (env : Env) (w : Main.DoclingWorker) (f : pathlib.Path) :
  error_signals (file_events env w f)
  = if fails env w f then [failure_message env w f] else [].
Proof.
  unfold file_events, failure_events, error_signals, fails, failure_message. cbn zeta.
  destruct (spawn env _) as [p|e]; [destruct (returncode p =? 0)|];
    cbn [omap list_omap negb]; reflexivity.
Qed.

(** X11: A worker of [main.py] that is never cancelled hands every discovered
    file to the converter, in order, whatever happens to the files before
    it: a file whose process fails gives one error signal, which names the
    file and carries the error output of the process, and the loop goes on
    with the next file. The run ends with the finished signal and raises
    nothing. *)
Theorem worker_goes_on_after_failure (env : Env) (ui : nat -> bool)
        (w : Main.DoclingWorker) :
  let files := discovered env (Main.input_path (Main.config w)) in
  let x := Main.run env ui w in
  Main.is_cancelled w = false ->
  (forall j, (j < length files)%nat -> ui j = false) ->
  trace x = scan_log env (Main.input_path (Main.config w))
              ++ flat_map (file_events env w) files ++ [FinishedEmit]
  /\ attempted (trace x) = map pathlib.to_str files
  /\ error_signals (trace x)
     = map (failure_message env w) (List.filter (fails env w) files)
  /\ state x = w
  /\ result x = Ok tt.
Proof.
  intros files x Hw Hui. unfold x. rewrite main_run_eq. cbn zeta. fold files.
  rewrite (process_loop_uncancelled env ui files 0%nat w Hw)
    by (intros j Hj; apply Hui; lia).
  cbn [trace state result fst snd].
  split; [reflexivity|].
  rewrite !attempted_app, !error_signals_app, attempted_scan_log, error_signals_scan_log.
  cbn [attempted error_signals omap list_omap app].
  rewrite !app_nil_r.
  split; [|split; [|split; reflexivity]].
  - apply attempted_file_events.
  - clear Hui. induction files as [|f rest IH]; [reflexivity|].
    cbn [flat_map List.filter]. rewrite error_signals_app, file_events_errors, IH.
    destruct (fails env w f); reflexivity.
Qed.

Lemma worker_goes_on_after_failure_witness :
  let env := scenario_env scenario_tree spawn_parse_error in
  let ui := fun _ : nat => false in
  let w := Main.new scenario_config in
  let files := discovered env (Main.input_path (Main.config w)) in
  let x := Main.run env ui w in
  trace x = scan_log env (Main.input_path (Main.config w))
              ++ flat_map (file_events env w) files ++ [FinishedEmit]
  /\ attempted (trace x) = map pathlib.to_str files
  /\ error_signals (trace x)
     = map (failure_message env w) (List.filter (fails env w) files)
  /\ state x = w
  /\ result x = Ok tt.
Proof.
  intros env ui w.
  apply (worker_goes_on_after_failure env ui w); reflexivity.
Defined.

(** ** The window of [main.py] *)

Lemma for_each_app {S A} (l1 l2 : list A) (body : A -> M S unit) (s : S) :
  for_each (l1 ++ l2) body s =
  match result (for_each l1 body s) with
  | Ok _ =>
      let y := for_each l2 body (state (for_each l1 body s)) in
      (trace (for_each l1 body s) ++ trace y, state y, result y)
  | Raise e => (trace (for_each l1 body s), state (for_each l1 body s), Raise e)
  end.
Proof.
  revert s. induction l1 as [|x l1 IH]; intros s.
  - cbn [app]. change (for_each [] body s) with (([] : list event), s, Ok tt).
    cbn [trace state result fst snd app]. symmetry. apply run_eta.
  - cbn [app]. rewrite !for_each_cons.
    destruct (result (body x s)) as [[]|e]; [|reflexivity].
    cbn zeta. rewrite IH. cbn [trace state result fst snd].
    destruct (result (for_each l1 body _)) as [[]|e]; cbn [trace state result fst snd];
      [rewrite app_assoc|]; reflexivity.
Qed.

Lemma start_processing_run (tos : Window.TempOs) (w : Window.MainWindow) :
  Window.start_processing tos w =
  if bool_decide (Window.input_path w = "No folder selected") then
    ([], Window.with_progress_label "Please select an input folder" w, Ok None)
  else if bool_decide (Window.output_path w = "No folder selected") then
    ([], Window.with_progress_label "Please select an output folder" w, Ok None)
  else
    match Window.mkdtemp tos with
    | Ok temp =>
        let worker :=
          Main.new {| Main.input_path := Window.input_path w;
                      Main.output_path := Window.output_path w;
                      Main.export_format := Window.format_combo w;
                      Main.table_mode := Window.table_mode w;
                      Main.force_ocr := Window.force_ocr w;
                      Main.ocr_bitmaps := Window.ocr_bitmaps w;
                      Main.temp_dir := temp |} in
        ([Log INFO ("Created temporary directory: " ++ temp)],
         Window.with_cancel_btn true
           (Window.with_start_btn false
              (Window.with_worker (Some worker)
                 (Window.with_temp_dir (Some temp) w))),
         Ok (Some worker))
    | Raise e => ([], w, Raise e)
    end.
Proof.
  unfold Window.start_processing, Window._validate_paths.
  unfold mbind, M_bind, bind, modify, get, emit, mret, M_ret, ret, raise.
  destruct (bool_decide (Window.input_path w = _)); [reflexivity|].
  destruct (bool_decide (Window.output_path w = _)); [reflexivity|].
  cbn [negb]. destruct (Window.mkdtemp tos) as [temp|e]; reflexivity.
Qed.

(** X12: [start_processing] does nothing but ask for the folder that is
    missing, the input folder first: while a folder label still reads
    "No folder selected" no temporary directory is asked for, no worker is
    made, the buttons stay as they are and nothing is logged. *)
Theorem start_processing_needs_folders (tos : Window.TempOs) (w : Window.MainWindow) :
  Window.input_path w = "No folder selected"
  \/ Window.output_path w = "No folder selected" ->
  let x := Window.start_processing tos w in
  result x = Ok None /\ trace x = []
  /\ unlabelled (state x) = unlabelled w
  /\ Window.progress_label (state x)
     = (if bool_decide (Window.input_path w = "No folder selected")
        then "Please select an input folder" else "Please select an output folder")
  /\ forall tos', Window.start_processing tos' w = x.
Proof.
  intros H x. unfold x. rewrite start_processing_run.
  assert (forall tos', Window.start_processing tos' w
                       = Window.start_processing tos w) as Hind.
  { intros tos'. rewrite !start_processing_run.
    destruct (bool_decide (Window.input_path w = _)) eqn:Ei; [reflexivity|].
    destruct (bool_decide (Window.output_path w = _)) eqn:Eo; [reflexivity|].
    apply bool_decide_eq_false_1 in Ei, Eo. tauto. }
  rewrite start_processing_run in Hind.
  destruct (bool_decide (Window.input_path w = _)) eqn:Ei.
  - repeat split; try reflexivity. exact Hind.
  - destruct (bool_decide (Window.output_path w = _)) eqn:Eo.
    + repeat split; try reflexivity. exact Hind.
    + apply bool_decide_eq_false_1 in Ei, Eo. tauto.
Qed.

Lemma start_processing_needs_folders_witness :
  let x := Window.start_processing scenario_tempos
             (Window.with_input_path "in" Window.new) in
  result x = Ok None /\ trace x = []
  /\ unlabelled (state x) = unlabelled (Window.with_input_path "in" Window.new)
  /\ Window.progress_label (state x) = "Please select an output folder".
Proof.
  destruct (start_processing_needs_folders scenario_tempos
              (Window.with_input_path "in" Window.new)) as (H1 & H2 & H3 & H4 & _).
  - right. reflexivity.
  - repeat split; assumption.
Defined.

(** X13: The folders the two dialogs return reach the worker: after both
    folders were chosen, [start_processing] starts a worker that is not
    cancelled, for these two folders, the options of the window and the
    temporary directory just made; the start button is disabled and the
    cancel button enabled. *)
Theorem chosen_folders_reach_worker (tos : Window.TempOs) (w : Window.MainWindow)
        (input output temp : str) :
  Py.truthy input = true -> input <> "No folder selected" ->
  Py.truthy output = true -> output <> "No folder selected" ->
  Window.mkdtemp tos = Ok temp ->
  let x := (Window.select_input_folder input ;;
            Window.select_output_folder output ;;
            Window.start_processing tos) w in
  exists worker,
    result x = Ok (Some worker)
    /\ Window.worker (state x) = Some worker
    /\ Main.is_cancelled worker = false
    /\ Main.config worker
       = {| Main.input_path := input;
            Main.output_path := output;
            Main.export_format := Window.format_combo w;
            Main.table_mode := Window.table_mode w;
            Main.force_ocr := Window.force_ocr w;
            Main.ocr_bitmaps := Window.ocr_bitmaps w;
            Main.temp_dir := temp |}
    /\ Window.temp_dir (state x) = Some temp
    /\ Window.start_btn (state x) = false
    /\ Window.cancel_btn (state x) = true.
Proof.
  intros Hi Hin Ho Hon Htemp x. unfold x.
  rewrite !run_bind.
  unfold Window.select_input_folder, Window.select_output_folder. rewrite Hi, Ho.
  rewrite !run_bind.
  unfold modify, emit. cbn [trace state result fst snd]. cbn zeta.
  rewrite start_processing_run.
  cbn [Window.input_path Window.output_path Window.with_input_path Window.with_output_path].
  rewrite (bool_decide_eq_false_2 _ Hin), (bool_decide_eq_false_2 _ Hon), Htemp.
  cbn zeta. cbn [trace state result fst snd].
  eexists. repeat split.
Qed.

Lemma chosen_folders_reach_worker_witness :
  let x := (Window.select_input_folder "in" ;;
            Window.select_output_folder "/data/out" ;;
            Window.start_processing scenario_tempos) Window.new in
  exists worker,
    result x = Ok (Some worker)
    /\ Window.worker (state x) = Some worker
    /\ Main.is_cancelled worker = false
    /\ Main.config worker
       = {| Main.input_path := "in";
            Main.output_path := "/data/out";
            Main.export_format := "md";
            Main.table_mode := "fast";
            Main.force_ocr := false;
            Main.ocr_bitmaps := false;
            Main.temp_dir := "/tmp/tmpdir" |}
    /\ Window.temp_dir (state x) = Some ("/tmp/tmpdir" : str)
    /\ Window.start_btn (state x) = false
    /\ Window.cancel_btn (state x) = true.
Proof.
  apply (chosen_folders_reach_worker scenario_tempos Window.new "in" "/data/out"
           "/tmp/tmpdir").
  - reflexivity.
  - vm_compute. discriminate.
  - reflexivity.
  - vm_compute. discriminate.
  - reflexivity.
Defined.

Lemma processing_finished_run (env : Env) (tos : Window.TempOs) (w : Window.MainWindow) :
  Window._processing_finished env tos w =
  let done :=
    Window.with_progress_label "Processing completed"
      (Window.with_cancel_btn false (Window.with_start_btn true w)) in
  match Window.temp_dir w with
  | Some temp =>
      if Py.truthy temp && path_exists env temp then
        match Window.rmtree tos temp with
        | Some msg => ([], w, Raise (Exn OSError msg))
        | None => ([Log INFO ("Removed temporary directory: " ++ temp)], done, Ok tt)
        end
      else ([], done, Ok tt)
  | None => ([], done, Ok tt)
  end.
Proof.
  unfold Window._processing_finished.
  unfold mbind, M_bind, bind, modify, get, emit, mret, M_ret, ret, raise.
  destruct (Window.temp_dir w) as [temp|]; [|reflexivity].
  destruct (Py.truthy temp && path_exists env temp); [|reflexivity].
  destruct (Window.rmtree tos temp); reflexivity.
Qed.

(** The slots of the progress and error signals write the progress label
    and nothing else. *)
Lemma slots_before_finished (env : Env) (tos : Window.TempOs) (tr : list event) :
  Forall not_finished tr ->
  forall w,
    let y := for_each tr (Window.slot env tos) w in
    trace y = [] /\ result y = Ok tt /\ unlabelled (state y) = unlabelled w.
Proof.
  induction 1 as [|ev tr Hev _ IH]; intros w; [repeat split|].
  cbn zeta. rewrite for_each_cons.
  assert (trace (Window.slot env tos ev w) = []
          /\ result (Window.slot env tos ev w) = Ok tt
          /\ unlabelled (state (Window.slot env tos ev w)) = unlabelled w)
    as (Ht & Hr & Hs).
  { destruct ev; try (repeat split; fail). exfalso. apply Hev. reflexivity. }
  rewrite Hr. cbn zeta. cbn [trace state result fst snd]. rewrite Ht.
  destruct (IH (state (Window.slot env tos ev w))) as (Ht' & Hr' & Hs').
  cbn [app]. split; [exact Ht'|]. split; [exact Hr'|]. rewrite Hs'. exact Hs.
Qed.

Lemma session_run (env : Env) (tos : Window.TempOs) (w : Window.MainWindow)
      (temp : str) :
  Window.input_path w <> "No folder selected" ->
  Window.output_path w <> "No folder selected" ->
  Window.mkdtemp tos = Ok temp ->
  exists w2,
    Window.session env tos w =
    (let y := Window._processing_finished env tos w2 in
     (Log INFO ("Created temporary directory: " ++ temp) :: trace y, state y, result y))
    /\ Window.temp_dir w2 = Some temp
    /\ Window.start_btn w2 = false
    /\ Window.cancel_btn w2 = true
    /\ Window.input_path w2 = Window.input_path w
    /\ Window.output_path w2 = Window.output_path w.
Proof.
  intros Hin Hout Htemp. unfold Window.session. rewrite run_bind, start_processing_run.
  rewrite (bool_decide_eq_false_2 _ Hin), (bool_decide_eq_false_2 _ Hout), Htemp.
  cbn zeta. cbn [trace state result fst snd].
  set (wk := Main.new _). set (w1 := Window.with_cancel_btn _ _).
  rewrite main_run_eq. cbn zeta. cbn [trace fst]. rewrite app_assoc.
  set (files := discovered env _).
  assert (Forall not_finished
            (scan_log env (Main.input_path (Main.config wk))
               ++ trace (Main.process_loop env (fun _ => false) 0 files wk))) as Hnf.
  { apply Forall_app. split; [apply scan_log_not_finished|].
    apply (process_loop_total env (fun _ => false) files 0%nat wk). }
  rewrite for_each_app.
  destruct (slots_before_finished env tos _ Hnf w1) as (Ht & Hr & Hs).
  cbn zeta in Ht, Hr, Hs. rewrite Hr, Ht. cbn zeta.
  set (w2 := state (for_each _ _ w1)) in *.
  exists w2. split.
  - rewrite for_each_cons.
    change (for_each [] (Window.slot env tos)) with (mret tt : M Window.MainWindow unit).
    cbn [Window.slot]. cbn [app].
    destruct (Window._processing_finished env tos w2) as [[t s] [[]|e]]; cbn; 
      rewrite ?app_nil_r; reflexivity.
  - repeat split.
    + exact (f_equal Window.temp_dir Hs).
    + exact (f_equal Window.start_btn Hs).
    + exact (f_equal Window.cancel_btn Hs).
    + exact (f_equal Window.input_path Hs).
    + exact (f_equal Window.output_path Hs).
Qed.

(** X14: A run the user does not cancel, on a window with both folders chosen,
    when the temporary directory can be made and removed: whatever the
    worker reports, the window ends with the start button enabled, the
    cancel button disabled and the label "Processing completed"; it logs
    that the temporary directory was made and, if the directory is there,
    that it was removed, and nothing else. *)
Theorem session_completes (env : Env) (tos : Window.TempOs) (w : Window.MainWindow)
        (temp : str) :
  Window.input_path w <> "No folder selected" ->
  Window.output_path w <> "No folder selected" ->
  Window.mkdtemp tos = Ok temp ->
  Window.rmtree tos temp = None ->
  let x := Window.session env tos w in
  result x = Ok tt
  /\ Window.start_btn (state x) = true
  /\ Window.cancel_btn (state x) = false
  /\ Window.progress_label (state x) = "Processing completed"
  /\ Window.input_path (state x) = Window.input_path w
  /\ Window.output_path (state x) = Window.output_path w
  /\ trace x
     = Log INFO ("Created temporary directory: " ++ temp)
       :: (if Py.truthy temp && path_exists env temp
           then [Log INFO ("Removed temporary directory: " ++ temp)] else []).
Proof.
  intros Hin Hout Htemp Hrm x. unfold x.
  destruct (session_run env tos w temp Hin Hout Htemp)
    as (w2 & -> & Ht & _ & _ & Hi & Ho).
  rewrite processing_finished_run, Ht, Hrm. cbn zeta.
  destruct (Py.truthy temp && path_exists env temp);
    cbn [trace state result fst snd Window.start_btn Window.cancel_btn
         Window.progress_label Window.input_path Window.output_path
         Window.with_progress_label Window.with_cancel_btn Window.with_start_btn];
    repeat split; assumption.
Qed.

Lemma session_completes_witness :
  let x := Window.session (scenario_env scenario_tree spawn_parse_error)
             scenario_tempos scenario_window in
  result x = Ok tt
  /\ Window.start_btn (state x) = true
  /\ Window.cancel_btn (state x) = false
  /\ Window.progress_label (state x) = "Processing completed"
  /\ Window.input_path (state x) = Window.input_path scenario_window
  /\ Window.output_path (state x) = Window.output_path scenario_window
  /\ trace x
     = Log INFO ("Created temporary directory: " ++ "/tmp/tmpdir")
       :: (if Py.truthy ("/tmp/tmpdir" : str)
              && path_exists (scenario_env scenario_tree spawn_parse_error) "/tmp/tmpdir"
           then [Log INFO ("Removed temporary directory: " ++ "/tmp/tmpdir")] else []).
Proof.
  apply (session_completes (scenario_env scenario_tree spawn_parse_error)
           scenario_tempos scenario_window "/tmp/tmpdir").
  - vm_compute. discriminate.
  - vm_compute. discriminate.
  - reflexivity.
  - reflexivity.
Defined.

(** X15: When the temporary directory of the run cannot be removed,
    [_processing_finished] raises the [OSError] of [shutil.rmtree] before
    it reaches the buttons: the start button stays disabled, the cancel
    button enabled, and the removal is not logged. *)
Theorem failed_cleanup_keeps_start_disabled (env : Env) (tos : Window.TempOs)
        (w : Window.MainWindow) (temp msg : str) :
  Window.input_path w <> "No folder selected" ->
  Window.output_path w <> "No folder selected" ->
  Window.mkdtemp tos = Ok temp ->
  Py.truthy temp = true -> path_exists env temp = true ->
  Window.rmtree tos temp = Some msg ->
  let x := Window.session env tos w in
  result x = Raise (Exn OSError msg)
  /\ Window.start_btn (state x) = false
  /\ Window.cancel_btn (state x) = true
  /\ trace x = [Log INFO ("Created temporary directory: " ++ temp)].
Proof.
  intros Hin Hout Htemp Hne Hex Hrm x. unfold x.
  destruct (session_run env tos w temp Hin Hout Htemp)
    as (w2 & -> & Ht & Hs & Hc & _ & _).
  rewrite processing_finished_run, Ht, Hne, Hex, Hrm. cbn zeta.
  cbn [andb trace state result fst snd]. repeat split; assumption.
Qed.

Lemma failed_cleanup_keeps_start_disabled_witness :
  let x := Window.session (scenario_env scenario_tree spawn_ok)
             scenario_tempos_busy scenario_window in
  result x = Raise (Exn OSError "Device or resource busy")
  /\ Window.start_btn (state x) = false
  /\ Window.cancel_btn (state x) = true
  /\ trace x = [Log INFO ("Created temporary directory: " ++ "/tmp/tmpdir")].
Proof.
  apply (failed_cleanup_keeps_start_disabled (scenario_env scenario_tree spawn_ok)
           scenario_tempos_busy scenario_window "/tmp/tmpdir" "Device or resource busy").
  - vm_compute. discriminate.
  - vm_compute. discriminate.
  - reflexivity.
  - reflexivity.
  - reflexivity.
  - reflexivity.
Defined.

(** C10 (the code at its failing input): in [main.py] the start button is
    given back by the slot of the finished signal, after the temporary
    directory is removed. When [shutil.rmtree] cannot remove it, the
    worker has emitted [finished] once, as its last event, and the slot
    raises before it reaches the buttons: the run ends with the start
    button disabled and the cancel button enabled. *)
Theorem C10_start_button_stays_disabled (env : Env) (tos : Window.TempOs)
        (w : Window.MainWindow) (temp msg : str) :
  Window.input_path w <> "No folder selected" ->
  Window.output_path w <> "No folder selected" ->
  Window.mkdtemp tos = Ok temp ->
  Py.truthy temp = true -> path_exists env temp = true ->
  Window.rmtree tos temp = Some msg ->
  exists worker tr,
    result (Window.start_processing tos w) = Ok (Some worker)
    /\ trace (Main.run env (fun _ => false) worker) = tr ++ [FinishedEmit]
    /\ Forall not_finished tr
    /\ result (Window.session env tos w) = Raise (Exn OSError msg)
    /\ Window.start_btn (state (Window.session env tos w)) = false
    /\ Window.cancel_btn (state (Window.session env tos w)) = true.
Proof.
  intros Hin Hout Htemp Hne Hex Hrm.
  rewrite start_processing_run.
  rewrite (bool_decide_eq_false_2 _ Hin), (bool_decide_eq_false_2 _ Hout), Htemp.
  cbn zeta. cbn [result snd].
  eexists. 
  destruct (worker_finishes_once env (fun _ => false)
              (Main.new {| Main.input_path := Window.input_path w;
                           Main.output_path := Window.output_path w;
                           Main.export_format := Window.format_combo w;
                           Main.table_mode := Window.table_mode w;
                           Main.force_ocr := Window.force_ocr w;
                           Main.ocr_bitmaps := Window.ocr_bitmaps w;
                           Main.temp_dir := temp |})) as (tr & Htr & Hnf & _).
  exists tr. split; [reflexivity|]. split; [exact Htr|]. split; [exact Hnf|].
  destruct (session_run env tos w temp Hin Hout Htemp)
    as (w2 & -> & Ht & Hs & Hc & _ & _).
  rewrite processing_finished_run, Ht, Hne, Hex, Hrm. cbn zeta.
  cbn [andb trace state result fst snd]. repeat split; assumption.
Qed.

Lemma C10_start_button_stays_disabled_witness :
  let env := scenario_env scenario_tree spawn_parse_error in
  exists worker tr,
    result (Window.start_processing scenario_tempos_busy scenario_window)
    = Ok (Some worker)
    /\ trace (Main.run env (fun _ => false) worker) = tr ++ [FinishedEmit]
    /\ Forall not_finished tr
    /\ result (Window.session env scenario_tempos_busy scenario_window)
       = Raise (Exn OSError "Device or resource busy")
    /\ Window.start_btn (state (Window.session env scenario_tempos_busy scenario_window))
       = false
    /\ Window.cancel_btn (state (Window.session env scenario_tempos_busy scenario_window))
       = true.
Proof.
  intros env.
  apply (C10_start_button_stays_disabled env scenario_tempos_busy scenario_window
           "/tmp/tmpdir" "Device or resource busy").
  - vm_compute. discriminate.
  - vm_compute. discriminate.
  - reflexivity.
  - reflexivity.
  - reflexivity.
  - reflexivity.
Defined.

(** ** The temporary directory is not used *)

Lemma process_loop_temp_dir (env : Env) (ui : nat -> bool) (temp : str)
      (files : list pathlib.Path) :
  forall i w,
    trace (Main.process_loop env ui i files (worker_with_temp_dir temp w))
    = trace (Main.process_loop env ui i files w).
Proof.
  induction files as [|f rest IH]; intros i w; [reflexivity|].
  rewrite !process_loop_cons. cbn zeta.
  assert ((if ui i then Main.cancel (worker_with_temp_dir temp w)
           else worker_with_temp_dir temp w)
          = worker_with_temp_dir temp (if ui i then Main.cancel w else w)) as ->
      by (destruct (ui i); reflexivity).
  change (Main.is_cancelled (worker_with_temp_dir temp ?v)) with (Main.is_cancelled v).
  destruct (Main.is_cancelled _); [reflexivity|].
  cbn [trace fst]. rewrite IH. reflexivity.
Qed.

(** X16: The temporary directory that [start_processing] makes for a run is
    not used by the run: what the worker does (the processes it starts,
    with every word of their commands, what it logs and the signals it
    emits) is the same for every temporary directory. *)
Theorem temp_dir_unused (env : Env) (ui : nat -> bool) (w : Main.DoclingWorker)
        (temp : str) :
  trace (Main.run env ui (worker_with_temp_dir temp w)) = trace (Main.run env ui w).
Proof.
  rewrite !main_run_eq. cbn zeta. cbn [trace fst]. do 2 f_equal.
  apply process_loop_temp_dir.
Qed.

(** ** The settings across a session of [doclingGUI.py] *)

Lemma save_current_settings_run (w : Gui.write_outcome) (self : Gui.SettingsManager)
      (ui : Gui.Controls) (file : Gui.file_state) :
  let saved := Gui.save_settings w self (widget_settings ui) file in
  Session.save_current_settings w self ui file
  = (trace saved ++ unsaved_log (result saved), state saved, Ok tt).
Proof. destruct w as [ | msg | msg | [] msg ]; reflexivity. Qed.

(** X17: Closing the window always accepts the event and saves what the
    widgets show. The handler of [closeEvent] is never entered, and that
    of [save_current_settings] only for the error of [json.dump] itself,
    on a value beyond its limits: for every other outcome the events and
    the file are those of [save_settings]. A failure is logged once, and
    shown in no dialog. *)
Theorem closeEvent_accepts (w : Gui.write_outcome) (self : Gui.SettingsManager)
        (ui : Gui.Controls) (file : Gui.file_state) :
  let saved := Gui.save_settings w self (widget_settings ui) file in
  let closed := Session.closeEvent w self ui file in
  closed = (trace saved ++ unsaved_log (result saved), state saved, Ok true)
  /\ match w with
     | Gui.EncodeFailed l msg =>
         trace closed = [Log ERROR ("Failed to save settings: " ++ msg)]
     | _ => closed = (trace saved, state saved, Ok true)
     end
  /\ (length (trace saved) <= 1)%nat
  /\ Forall (fun ev => is_dialog ev = false) (trace saved)
  /\ (length (trace closed) <= 1)%nat
  /\ Forall (fun ev => is_dialog ev = false) (trace closed).
Proof.
  destruct w as [ | msg | msg | [] msg ]; cbn zeta;
    (split; [reflexivity|]); (split; [reflexivity|]);
    repeat split; cbn; try lia; repeat constructor.
Qed.

(** X18: Closing the window and opening it again brings back the two folders,
    stripped, and nothing else: the settings that are loaded hold every
    option the widgets showed, but the check boxes, the two combo boxes
    and the verbosity start again as a window without settings has
    them. *)
Theorem restart_restores_folders_only (env : Env) (ui : Gui.Controls)
        (file : Gui.file_state) :
  let closed := Session.closeEvent Gui.Written (Gui.SettingsManager_new env) ui file in
  Session.startup env (state closed)
  = ([], state closed,
     Ok (widget_settings ui,
         fresh_controls (Py.strip (Gui.input_path_edit ui))
                        (Py.strip (Gui.output_path_edit ui)))).
Proof.
  cbn zeta. unfold Session.startup.
  change (state (Session.closeEvent Gui.Written (Gui.SettingsManager_new env) ui file))
    with (Gui.Json (Gui.VDict (Gui.settings_dict (widget_settings ui)))).
  rewrite run_bind, load_settings_object. cbn [trace state result fst snd]. cbn zeta.
  destruct (settings_dict_lookup (widget_settings ui))
    as (H1 & H2 & H3 & H4 & H5 & H6 & H7 & H8).
  rewrite H1, H2, H3, H4, H5, H6, H7, H8. reflexivity.
Qed.

Lemma reset_conversion_run (w : Gui.write_outcome) (self : Gui.SettingsManager)
      (ui : Gui.Controls) (d : Gui.Display) (file : Gui.file_state) :
  Session.reset_conversion w self ui (d, file) =
  let saved := Gui.save_settings w self (widget_settings ui) file in
  (trace saved ++ unsaved_log (result saved)
     ++ [MessageBoxInformation "Reset Complete"
           ("Conversion state has been reset." ++ Gui.LF
            ++ "You can now start a new conversion.")],
   ({| Gui.status_label := "Ready to start conversion...";
       Gui.progress_info := "0/0 files processed";
       Gui.progress_bar_maximum := Gui.progress_bar_maximum d;
       Gui.progress_bar_value := 0;
       Gui.run_button_enabled := true;
       Gui.run_button_text := "Run Conversion" |}, state saved),
   Ok tt).
Proof. destruct w as [ | msg | msg | [] msg ]; reflexivity. Qed.

(** X19: [reset_conversion] never raises and always reports success: the
    progress widgets and the run button are as after start-up (the
    maximum of the bar apart, which stays), what the widgets show is
    saved, and the one dialog is "Reset Complete", also when the settings
    could not be written. *)
Theorem reset_conversion_reports_success (w : Gui.write_outcome)
        (self : Gui.SettingsManager) (ui : Gui.Controls) (d : Gui.Display)
        (file : Gui.file_state) :
  let x := Session.reset_conversion w self ui (d, file) in
  result x = Ok tt
  /\ fst (state x) = Gui.with_progress_bar_maximum (Gui.progress_bar_maximum d)
                       Gui.initial_display
  /\ snd (state x) = state (Gui.save_settings w self (widget_settings ui) file)
  /\ List.filter is_dialog (trace x)
     = [MessageBoxInformation "Reset Complete"
          ("Conversion state has been reset." ++ Gui.LF
           ++ "You can now start a new conversion.")].
Proof.
  cbn zeta. rewrite reset_conversion_run. cbn zeta. cbn [trace state result fst snd].
  repeat split. destruct w as [ | msg | msg | [] msg ]; reflexivity.
Qed.
